(** * SR-GAN crowd application: evaluation, loss and sliding-window scan

    A shallow embedding of [crowd/srgan.py] (class [CrowdExperiment]) and of
    [run_srgan] in [srgan.py].

    Conventions of the embedding.
    - Python integers are [Z]; [range(n)] iterates [Z.to_nat n] times.
    - Floating-point numbers are idealised as exact rationals [Q]; the results of
      [mean] and of divisions are [float]s, a rational or one of the special
      values [NaN] and [Inf] that numpy and torch return for a division by
      zero. Rounding, overflow to an infinity and underflow to zero are not
      modelled, and the entries of the arrays handed to the functions are
      numbers, never [NaN] or an infinity. Statements about floats are up to
      [Qeq].
    - numpy arrays and torch tensors are rectangular nested lists, tagged by
      their number of axes ([ndarray]). An array with a zero-length axis
      forgets the lengths of the axes below it.
      In particular [shape1] of an array without rows is 0. The examples of a
      dataset have one shape, so a data loader can stack them and
      [np.concatenate] can append the stacks.
    - Exceptions are an error monad, [result]; output (prints, summary
      scalars) and calls into the operating system, torch and the other
      modules of the repository are a list of [event]s, and such calls return
      normally.
    - A generator is its suspended state together with the function [next];
      a loop over a generator takes a bound on the number of calls of [next]
      and has no result when the bound does not suffice. The loop over
      standard input of [run_srgan] likewise takes a bound on the number of
      tests of its condition. *)

From Stdlib Require Import ZArith QArith Qabs Qminmax String Bool Lia Lqa List.
Import ListNotations.
Local Open Scope string_scope.
Local Open Scope Z_scope.
Local Open Scope list_scope.

(** ** Exceptions *)

Inductive exn : Type :=
| ValueError (msg : string)
| AxisError
| IndexError
| TypeError
| ZeroDivisionError.

Inductive result (A : Type) : Type :=
| Ok (a : A)
| Raise (e : exn).
Arguments Ok {A} a.
Arguments Raise {A} e.

Definition bind {A B : Type} (m : result A) (k : A -> result B) : result B :=
  match m with
  | Ok a => k a
  | Raise e => Raise e
  end.

Declare Scope result_scope.
Delimit Scope result_scope with result.
Notation "x <- m ;; k" := (bind m (fun x => k))
  (at level 61, m at next level, right associativity) : result_scope.
Local Open Scope result_scope.

Definition fmap {A B : Type} (f : A -> B) (m : result A) : result B :=
  x <- m ;; Ok (f x).

Fixpoint mapM {A B : Type} (f : A -> result B) (l : list A) : result (list B) :=
  match l with
  | [] => Ok []
  | a :: l' => b <- f a ;; bs <- mapM f l' ;; Ok (b :: bs)
  end.

(** ** Scalars *)

Inductive float : Type :=
| Num (q : Q)
| NaN
| Inf (negative : bool).

Definition Qis_zero (q : Q) : bool := (Qnum q =? 0)%Z.
Definition Qis_neg (q : Q) : bool := (Qnum q <? 0)%Z.

Definition fadd (a b : float) : float :=
  match a, b with
  | Num p, Num q => Num (p + q)
  | NaN, _ | _, NaN => NaN
  | Inf s, Inf t => if Bool.eqb s t then Inf s else NaN
  | Inf s, Num _ | Num _, Inf s => Inf s
  end.

Definition fmul (a b : float) : float :=
  match a, b with
  | Num p, Num q => Num (p * q)
  | NaN, _ | _, NaN => NaN
  | Inf s, Inf t => Inf (xorb s t)
  | Inf s, Num q | Num q, Inf s =>
      if Qis_zero q then NaN else Inf (xorb s (Qis_neg q))
  end.

Definition fdiv (a b : float) : float :=
  match a, b with
  | Num p, Num q =>
      if Qis_zero q then (if Qis_zero p then NaN else Inf (Qis_neg p))
      else Num (p / q)
  | NaN, _ | _, NaN => NaN
  | Inf _, Inf _ => NaN
  | Inf s, Num q => Inf (xorb s (Qis_neg q))
  | Num _, Inf _ => Num 0
  end.

Definition fneg (a : float) : float :=
  match a with
  | Num q => Num (- q)
  | NaN => NaN
  | Inf s => Inf (negb s)
  end.

Definition fsub (a b : float) : float := fadd a (fneg b).

Definition fabs (a : float) : float :=
  match a with
  | Num q => Num (Qabs q)
  | NaN => NaN
  | Inf _ => Inf false
  end.

(** Equality of scalars up to the equality of rationals. *)
Definition feq (a b : float) : Prop :=
  match a, b with
  | Num p, Num q => p == q
  | NaN, NaN => True
  | Inf s, Inf t => s = t
  | _, _ => False
  end.

Definition result_feq (a b : result float) : Prop :=
  match a, b with
  | Ok u, Ok v => feq u v
  | Raise e, Raise e' => e = e'
  | _, _ => False
  end.

(** ** Arrays *)

Definition array1 := list Q.
Definition array2 := list (list Q).
Definition array3 := list (list (list Q)).

Inductive ndarray : Type :=
| A1 (v : array1)
| A2 (m : array2)
| A3 (t : array3).

Definition Qsum (v : list Q) : Q := fold_right Qplus 0%Q v.

Definition size2 (m : array2) : nat := length (concat m).

Definition flatten (a : ndarray) : list Q :=
  match a with
  | A1 v => v
  | A2 m => concat m
  | A3 t => concat (concat t)
  end.

Definition size (a : ndarray) : nat := length (flatten a).

(** [a.shape[0]] and [a.shape[1]] of a two-axis array. *)
Definition shape0 {A : Type} (m : list (list A)) : Z := Z.of_nat (length m).
Definition shape1 {A : Type} (m : list (list A)) : Z := Z.of_nat (length (hd [] m)).

(** Elementwise combination of two axes of equal length. *)
Fixpoint zip_with {A B C : Type} (f : A -> B -> result C) (a : list A) (b : list B)
  : result (list C) :=
  match a, b with
  | x :: a', y :: b' => c <- f x y ;; cs <- zip_with f a' b' ;; Ok (c :: cs)
  | _, _ => Ok []
  end.

(** One axis of numpy broadcasting: equal lengths combine pointwise, an axis
    of length one is repeated along the other, anything else is refused. *)
Definition broadcast {A B C : Type} (f : A -> B -> result C) (a : list A) (b : list B)
  : result (list C) :=
  if Nat.eqb (length a) (length b) then zip_with f a b
  else match a, b with
       | [x], _ => mapM (f x) b
       | _, [y] => mapM (fun x => f x y) a
       | _, _ => Raise (ValueError "operands could not be broadcast together")
       end.

Definition lift0 (f : Q -> Q -> Q) (p q : Q) : result Q := Ok (f p q).
Definition broadcast1 (f : Q -> Q -> Q) : array1 -> array1 -> result array1 :=
  broadcast (lift0 f).
Definition broadcast2 (f : Q -> Q -> Q) : array2 -> array2 -> result array2 :=
  broadcast (broadcast1 f).
Definition broadcast3 (f : Q -> Q -> Q) : array3 -> array3 -> result array3 :=
  broadcast (broadcast2 f).

(** Missing leading axes are axes of length one. *)
Definition as2 (a : ndarray) : array2 :=
  match a with
  | A1 v => [v]
  | A2 m => m
  | A3 _ => []
  end.

Definition as3 (a : ndarray) : array3 :=
  match a with
  | A1 v => [[v]]
  | A2 m => [m]
  | A3 t => t
  end.

Definition binop (f : Q -> Q -> Q) (a b : ndarray) : result ndarray :=
  match a, b with
  | A1 v, A1 w => fmap A1 (broadcast1 f v w)
  | A3 _, _ | _, A3 _ => fmap A3 (broadcast3 f (as3 a) (as3 b))
  | _, _ => fmap A2 (broadcast2 f (as2 a) (as2 b))
  end.

Definition sub : ndarray -> ndarray -> result ndarray := binop Qminus.

(** Two-axis arrays whose entries may be NaN or an infinity. *)
Definition floats2 := list (list float).

(** [a / b] for two-axis arrays: where the divisor is zero numpy warns and
    gives NaN or an infinity; it does not raise. *)
Definition true_divide : array2 -> array2 -> result floats2 :=
  broadcast (broadcast (fun p q => Ok (fdiv (Num p) (Num q)))).

(** [a - b] for such an array and an array of numbers. *)
Definition subtract : floats2 -> array2 -> result floats2 :=
  broadcast (broadcast (fun p q => Ok (fsub p (Num q)))).

(** [np.sum(a)], and [np.abs(a).sum()]. *)
Definition fsum (v : list float) : float := fold_left fadd v (Num 0).
Definition sum_of_abs (a : floats2) : float := fsum (map fabs (concat a)).

Definition map_entries (f : Q -> Q) (a : ndarray) : ndarray :=
  match a with
  | A1 v => A1 (map f v)
  | A2 m => A2 (map (map f) m)
  | A3 t => A3 (map (map (map f)) t)
  end.

Definition abs : ndarray -> ndarray := map_entries Qabs.
Definition pow (a : ndarray) (n : Z) : ndarray := map_entries (fun q => q ^ n)%Q a.

(** Pointwise sum of the rows of a two-axis array: [m.sum(0)]. *)
Fixpoint sum_rows (m : array2) : array1 :=
  match m with
  | [] => []
  | [r] => r
  | r :: m' => map (fun pq => fst pq + snd pq)%Q (combine r (sum_rows m'))
  end.

(** [a.sum(1)]: the second axis is summed away. *)
Definition sum_axis1 (a : ndarray) : result ndarray :=
  match a with
  | A1 _ => Raise AxisError
  | A2 m => Ok (A1 (map Qsum m))
  | A3 t => Ok (A2 (map sum_rows t))
  end.

(** [a.sum()] and [a.mean()] over all entries. *)
Definition sum (a : ndarray) : Q := Qsum (flatten a).

Definition mean (a : ndarray) : float :=
  fdiv (Num (sum a)) (Num (inject_Z (Z.of_nat (size a)))).

(** [np.concatenate([a, b])] along the first axis. *)
Definition concatenate (a b : ndarray) : result ndarray :=
  match a, b with
  | A1 v, A1 w => Ok (A1 (v ++ w))
  | A2 m, A2 n => Ok (A2 (m ++ n))
  | A3 t, A3 u => Ok (A3 (t ++ u))
  | _, _ => Raise (ValueError "all the input arrays must have same number of dimensions")
  end.

(** [a.reshape([0, *b.shape[1:]])]: an array with no entries takes the
    number of axes of [b] and a first axis of length zero. *)
Definition reshape_0_like (a b : ndarray) : result ndarray :=
  if Nat.eqb (size a) 0 then
    Ok (match b with A1 _ => A1 [] | A2 _ => A2 [] | A3 _ => A3 [] end)
  else Raise (ValueError "cannot reshape array").

(** ** The labeled loss *)

(** [CrowdExperiment.labeled_loss_function]. *)
Definition labeled_loss_function (predicted_labels : array3 * array1) (labels : array3)
  (order : Q) : result float :=
  let density_labels := A3 labels in
  let predicted_density_labels := A3 (fst predicted_labels) in
  let predicted_count_labels := A1 (snd predicted_labels) in
  d <- sub predicted_density_labels density_labels ;;
  d1 <- sum_axis1 (pow (abs d) 2) ;;
  d2 <- sum_axis1 d1 ;;
  let density_loss := mean d2 in
  l1 <- sum_axis1 density_labels ;;
  l2 <- sum_axis1 l1 ;;
  c <- sub predicted_count_labels l2 ;;
  let count_loss := mean (pow (abs c) 2) in
  Ok (fadd count_loss (fmul density_loss (Num 10))).

(** ** Output and the monad of effectful code *)

Inductive event : Type :=
| add_scalar (name : string) (value : float)
| print_total (text : string) (value : float)
| print_line (text : string)
| print_path (text : string) (path : list string)
| makedirs (path : list string)
| new_summary_writer (path : list string)
| open_file (path : list string)
| call_dataset_setup (application : string)
| call_model_setup (application : string)
| load_state_dict (model : string) (path : list string) (map_location : option string)
| call_dnn_training_step (step : Z)
| call_gan_training_step (step : Z)
| call_validation_summaries (step : Z)
| torch_save (model : string) (path : list string)
| super_evaluate.

(** What has been output so far, and how the computation ended. *)
Definition io (A : Type) : Type := list event * result A.

Definition ret {A : Type} (a : A) : io A := ([], Ok a).
Definition emit (e : event) : io unit := ([e], Ok tt).
Definition lift {A : Type} (m : result A) : io A := ([], m).
Definition throw {A : Type} (e : exn) : io A := ([], Raise e).

Definition iobind {A B : Type} (m : io A) (k : A -> io B) : io B :=
  match m with
  | (out, Ok a) => let (out', r) := k a in (out ++ out', r)
  | (out, Raise e) => (out, Raise e)
  end.

Declare Scope io_scope.
Delimit Scope io_scope with io.
Notation "x <~ m ;; k" := (iobind m (fun x => k))
  (at level 61, m at next level, right associativity) : io_scope.
Notation "m ;;; k" := (iobind m (fun _ => k))
  (at level 61, right associativity) : io_scope.
Local Open Scope io_scope.

(** Code with a loop that may not end is run for a bounded number of turns of
    the loop: [None] when the loop needs more turns than it was given. *)
Definition andthen {A B : Type} (m : option (io A)) (k : A -> option (io B))
  : option (io B) :=
  match m with
  | None => None
  | Some (out, Raise e) => Some (out, Raise e)
  | Some (out, Ok a) =>
      match k a with
      | None => None
      | Some (out', r) => Some (out ++ out', r)
      end
  end.

Notation "x <~~ m ;; k" := (andthen m (fun x => k))
  (at level 61, m at next level, right associativity) : io_scope.
Notation "m ;;;; k" := (andthen m (fun _ => k))
  (at level 61, right associativity) : io_scope.

(** ** Settings and examples *)

Record Settings : Type := {
  application : string;
  crowd_dataset : string;
  batch_size : Z;
  logs_directory : string;
  trial_name : string;
  temporary_directory : string;
  summary_step_period : Z;
  presentation_step_period : Z;
  steps_to_run : Z;
  load_model_path : string;
  should_save_models : bool;
  number_of_cameras : Z;
  number_of_images_per_camera : Z;
  number_of_data_workers : Z;
  labeled_dataset_seed : Z
}.

Record CrowdExample : Type := Example {
  image : array3;
  label : array2
}.

Record CrowdExampleWithPosition : Type := ExampleWithPosition {
  patch_image : array3;
  patch_label : array2;
  patch_x : Z;
  patch_y : Z
}.

(** A network maps a stack of images to predicted densities and counts. *)
Definition Network : Type := list array3 -> array3 * array1.

(** ** The data loader *)

(** Consecutive groups of [n] items; the last group may be shorter. *)
Fixpoint chunk {A : Type} (n : nat) (l : list A) (current : list A) : list (list A) :=
  match l with
  | [] => match current with [] => [] | _ => [current] end
  | a :: l' =>
      let current' := current ++ [a] in
      if Nat.eqb (length current') n then current' :: chunk n l' []
      else chunk n l' current'
  end.

(** [DataLoader(dataset, batch_size=batch_size)], iterated once: each batch
    stacks the images and the labels of its examples. *)
Definition DataLoader (dataset : list CrowdExample) (batch_size : Z)
  : result (list (list array3 * array3)) :=
  if batch_size <=? 0 then
    Raise (ValueError "batch_size should be a positive integer value")
  else
    Ok (map (fun examples => (map image examples, map label examples))
            (chunk (Z.to_nat batch_size) dataset [])).

(** ** The evaluation epoch *)

Definition images_to_predicted_labels (network : Network) (images : list array3)
  : array3 * array1 :=
  let '(predicted_densities, predicted_counts) := network images in
  (predicted_densities, predicted_counts).

(** The accumulators [predicted_counts], [densities], [predicted_densities]. *)
Definition accumulators : Type := ndarray * ndarray * ndarray.

(** [np.array([])]. *)
Definition empty_array : ndarray := A1 [].

(** The body of the loop over the batches of [evaluation_epoch]. *)
Definition accumulate_batch (network : Network) (acc : accumulators)
  (batch : list array3 * array3) : result accumulators :=
  let '(predicted_counts, densities, predicted_densities) := acc in
  let '(images, labels) := batch in
  let '(batch_predicted_densities, batch_predicted_counts) :=
    images_to_predicted_labels network images in
  predicted_counts <- concatenate predicted_counts (A1 batch_predicted_counts) ;;
  predicted_densities <-
    (if Nat.eqb (size predicted_densities) 0
     then reshape_0_like predicted_densities (A3 batch_predicted_densities)
     else Ok predicted_densities) ;;
  predicted_densities <- concatenate predicted_densities (A3 batch_predicted_densities) ;;
  densities <-
    (if Nat.eqb (size densities) 0
     then reshape_0_like densities (A3 labels)
     else Ok densities) ;;
  densities <- concatenate densities (A3 labels) ;;
  Ok (predicted_counts, densities, predicted_densities).

Fixpoint accumulate (network : Network) (acc : accumulators)
  (dataset_loader : list (list array3 * array3)) : result accumulators :=
  match dataset_loader with
  | [] => Ok acc
  | batch :: rest =>
      acc' <- accumulate_batch network acc batch ;;
      accumulate network acc' rest
  end.

(** [np.abs(predicted_counts - densities.sum(1).sum(1)).mean()] *)
Definition count_mae (predicted_counts densities : ndarray) : result float :=
  s <- sum_axis1 densities ;;
  true_counts <- sum_axis1 s ;;
  d <- sub predicted_counts true_counts ;;
  Ok (mean (abs d)).

(** [np.abs(predicted_densities - densities).sum(1).sum(1).mean()] *)
Definition density_mae (predicted_densities densities : ndarray) : result float :=
  d <- sub predicted_densities densities ;;
  s <- sum_axis1 (abs d) ;;
  s' <- sum_axis1 s ;;
  Ok (mean s').

(** [(np.abs(predicted_counts - densities.sum(1).sum(1)) ** 2).mean()] *)
Definition count_mse (predicted_counts densities : ndarray) : result float :=
  s <- sum_axis1 densities ;;
  true_counts <- sum_axis1 s ;;
  d <- sub predicted_counts true_counts ;;
  Ok (mean (pow (abs d) 2)).

(** [(np.abs(predicted_densities - densities) ** 2).sum(1).sum(1).mean()] *)
Definition density_mse (predicted_densities densities : ndarray) : result float :=
  d <- sub predicted_densities densities ;;
  s <- sum_axis1 (pow (abs d) 2) ;;
  s' <- sum_axis1 s ;;
  Ok (mean s').

(** [CrowdExperiment.evaluation_epoch]; the summary writer is the output. *)
Definition evaluation_epoch (settings : Settings) (network : Network)
  (dataset : list CrowdExample) (summary_name : string)
  (comparison_value : option float) : io float :=
  dataset_loader <~ lift (DataLoader dataset (batch_size settings)) ;;
  acc <~ lift (accumulate network (empty_array, empty_array, empty_array) dataset_loader) ;;
  let '(predicted_counts, densities, predicted_densities) := acc in
  count_mae <~ lift (count_mae predicted_counts densities) ;;
  emit (add_scalar (summary_name ++ "/MAE")%string count_mae) ;;;
  density_mae <~ lift (density_mae predicted_densities densities) ;;
  emit (add_scalar (summary_name ++ "/Density MAE")%string density_mae) ;;;
  count_mse <~ lift (count_mse predicted_counts densities) ;;
  emit (add_scalar (summary_name ++ "/MSE")%string count_mse) ;;;
  density_mse <~ lift (density_mse predicted_densities densities) ;;
  emit (add_scalar (summary_name ++ "/Density MSE")%string density_mse) ;;;
  match comparison_value with
  | Some comparison_value =>
      emit (add_scalar (summary_name ++ "/Ratio MAE GAN DNN")%string
                       (fdiv count_mae comparison_value))
  | None => ret tt
  end ;;;
  ret count_mae.

(** ** The sliding-window scan *)

Section Scan.

(** [ExtractPatchForPosition()] and the composed test transform come from
    [crowd.data]; the scan only passes examples through them. *)
Variable extract_patch_transform : CrowdExample -> Z -> Z -> CrowdExample.
Variable test_transform : CrowdExample -> CrowdExample.

(** Where the generator is suspended: at the [yield] that ends the body of
    [while True], with its locals; at the [yield] before [return]; or it
    has returned. *)
Inductive generator : Type :=
| Suspended (x y half_patch_size : Z)
| Returning
| Returned.

(** How the [for _ in range(batch_size)] loop ends: it runs to its end, or
    it reaches [y >= full_example.label.shape[0]]. *)
Inductive batch_loop : Type :=
| Filled (batch : list CrowdExampleWithPosition) (x y : Z)
| Exhausted (batch : list CrowdExampleWithPosition).

Fixpoint fill_batch (full_example : CrowdExample) (half_patch_size : Z)
  (iterations : nat) (x y : Z) (batch : list CrowdExampleWithPosition) : batch_loop :=
  match iterations with
  | O => Filled batch x y
  | S iterations' =>
      let x := x + half_patch_size in
      let '(x, y) :=
        if x >=? shape1 (label full_example) then (0, y + half_patch_size) else (x, y) in
      if y >=? shape0 (label full_example) then Exhausted batch
      else
        let patch := extract_patch_transform full_example y x in
        let example := test_transform patch in
        let example_with_position :=
          ExampleWithPosition (image example) (label example) x y in
        fill_batch full_example half_patch_size iterations' x y
                   (batch ++ [example_with_position])
  end.

(** [CrowdExperiment.batches_of_patches_with_position]: calling it creates the
    generator, with [x = 0], [y = 0] and [half_patch_size = 0]. *)
Definition batches_of_patches_with_position (full_example : CrowdExample) : generator :=
  Suspended 0 0 0.

(** [next(generator)]: the batch it yields, or [None] when it returns. *)
Definition next (settings : Settings) (full_example : CrowdExample) (g : generator)
  : option (list CrowdExampleWithPosition) * generator :=
  match g with
  | Suspended x y half_patch_size =>
      match fill_batch full_example half_patch_size
                       (Z.to_nat (batch_size settings)) x y [] with
      | Filled batch x' y' => (Some batch, Suspended x' y' half_patch_size)
      | Exhausted [] => (None, Returned)
      | Exhausted batch => (Some batch, Returning)
      end
  | Returning => (None, Returned)
  | Returned => (None, Returned)
  end.

(** The batches of the first [calls] calls of [next], and the generator
    after them. *)
Fixpoint take_batches (settings : Settings) (full_example : CrowdExample)
  (calls : nat) (g : generator) : list (list CrowdExampleWithPosition) * generator :=
  match calls with
  | O => ([], g)
  | S calls' =>
      match next settings full_example g with
      | (Some batch, g') =>
          let (batches, g'') := take_batches settings full_example calls' g' in
          (batch :: batches, g'')
      | (None, g') => ([], g')
      end
  end.

Definition position (p : CrowdExampleWithPosition) : Z * Z := (patch_x p, patch_y p).

(** The patch that the scan cuts at [(x, y)]. *)
Definition patch_at (full_example : CrowdExample) (x y : Z) : CrowdExampleWithPosition :=
  let example := test_transform (extract_patch_transform full_example y x) in
  ExampleWithPosition (image example) (label example) x y.

(** The pairs of one entry of a list and the entry after it. *)
Definition consecutive {A : Type} (l : list A) : list (A * A) := combine l (tl l).

End Scan.

(** ** Slices *)

(** The bound [i] of a slice over an axis of length [n]: a negative bound
    counts from the end, and every bound is clipped to the axis. *)
Definition slice_bound (i : Z) (n : nat) : nat :=
  Z.to_nat (if i <? 0 then Z.max (i + Z.of_nat n) 0 else Z.min i (Z.of_nat n)).

(** [l[i:j]] *)
Definition slice {A : Type} (l : list A) (i j : Z) : list A :=
  let i' := slice_bound i (length l) in
  let j' := slice_bound j (length l) in
  firstn (j' - i') (skipn i' l).

(** [m[i:j, k:l]] *)
Definition slice2 {A : Type} (m : list (list A)) (i j k l : Z) : list (list A) :=
  map (fun row => slice row k l) (slice m i j).

(** The right-hand side of an assignment stretched over its target: equal
    lengths pair up, a source of length one is repeated. *)
Definition broadcast_into {A B : Type} (f : A -> B -> result A) (target : list A)
  (source : list B) : result (list A) :=
  if Nat.eqb (length source) (length target) then zip_with f target source
  else match source with
       | [y] => mapM (fun x => f x y) target
       | _ => Raise (ValueError "operands could not be broadcast together")
       end.

(** [l[i:j] = f(l[i:j])] *)
Definition update_slice {A : Type} (l : list A) (i j : Z)
  (f : list A -> result (list A)) : result (list A) :=
  let i' := slice_bound i (length l) in
  let old := slice l i j in
  new <- f old ;;
  Ok (firstn i' l ++ new ++ skipn (i' + length old) l).

(** [m[i:j, k:l] += values] *)
Definition add_at {A : Type} (add : A -> A -> A) (m : list (list A)) (i j k l : Z)
  (values : list (list A)) : result (list (list A)) :=
  update_slice m i j (fun rows =>
    broadcast_into (fun row value_row =>
      update_slice row k l (fun entries =>
        broadcast_into (fun p q => Ok (add p q)) entries value_row))
      rows values).

(** [m[i:j, k:l] += value] for a scalar. *)
Definition add_scalar_at {A : Type} (add : A -> A -> A) (m : list (list A)) (i j k l : Z)
  (value : A) : list (list A) :=
  let i' := slice_bound i (length m) in
  let rows := slice m i j in
  firstn i' m
  ++ map (fun row =>
            let k' := slice_bound k (length row) in
            let entries := slice row k l in
            firstn k' row ++ map (fun p => add p value) entries
            ++ skipn (k' + length entries) row) rows
  ++ skipn (i' + length rows) m.

(** Addition of [np.int32] values wraps around. *)
Definition int32 (z : Z) : Z := (z + 2 ^ 31) mod 2 ^ 32 - 2 ^ 31.
Definition add_int32 (a b : Z) : Z := int32 (a + b).

(** ** Sliding-window evaluation *)

(** The three buffers of one scene: [sum_density_label], [sum_count_label]
    and [hit_predicted_label]. *)
Record AggregationBuffers : Type := Buffers {
  sum_density_label : array2;
  sum_count_label : array2;
  hit_predicted_label : list (list Z)
}.

(** [np.zeros_like(a, dtype=...)] *)
Definition zeros_like {A B : Type} (zero : B) (a : list (list A)) : list (list B) :=
  map (map (fun _ => zero)) a.

(** [np.full(a.shape, value)] *)
Definition full_like {A B : Type} (a : list (list A)) (value : B) : list (list B) :=
  map (map (fun _ => value)) a.

(** [hit_predicted_label[hit_predicted_label == 0] = 1] *)
Definition clamp_hits (hits : list (list Z)) : list (list Z) :=
  map (map (fun h => if h =? 0 then 1 else h)) hits.

(** [a.astype(np.float32)] *)
Definition astype_float (a : list (list Z)) : array2 := map (map inject_Z) a.

(** The three statements after the loop over the batches of a scene:
    the hit counts without zeros, the full predicted density map and the
    full predicted count. *)
Definition normalize (buffers : AggregationBuffers)
  : result (list (list Z) * floats2 * float) :=
  let hit_predicted_label := clamp_hits (hit_predicted_label buffers) in
  full_predicted_label <-
    true_divide (sum_density_label buffers) (astype_float hit_predicted_label) ;;
  count_label <-
    true_divide (sum_count_label buffers) (astype_float hit_predicted_label) ;;
  let full_predicted_count := fsum (concat count_label) in
  Ok (hit_predicted_label, full_predicted_label, full_predicted_count).

Section Evaluate.

Variable extract_patch_transform : CrowdExample -> Z -> Z -> CrowdExample.
Variable test_transform : CrowdExample -> CrowdExample.
(** [crowd.data.patch_size], the network [self.DNN] and the examples of
    [ShanghaiTechDataset(dataset='test')]. *)
Variable patch_size : Z.
Variable DNN : Network.
Variable ShanghaiTechDataset_test : list CrowdExample.

(** [predicted_count / predicted_label.size]: [predicted_label] is an item of
    the tensor that [self.DNN] returns, and the [size] of a tensor is a bound
    method, not its number of entries, so the division raises. *)
Definition divide_by_size_method (predicted_count : Q) (predicted_label : array2)
  : result Q :=
  Raise TypeError.

(** The body of the loop over the examples of a batch. *)
Definition add_patch (full_example : CrowdExample) (buffers : AggregationBuffers)
  (predicted_label : array2) (predicted_count : Q)
  (example_with_position : CrowdExampleWithPosition) : result AggregationBuffers :=
  quotient <- divide_by_size_method predicted_count predicted_label ;;
  let predicted_count_array := full_like predicted_label quotient in
  let x := patch_x example_with_position in
  let y := patch_y example_with_position in
  let half_patch_size := patch_size / 2 in
  let y_start_offset := if y - half_patch_size <? 0 then half_patch_size - y else 0 in
  let y_end_offset :=
    if y + half_patch_size >=? shape0 (label full_example)
    then y + half_patch_size + 1 - shape0 (label full_example) else 0 in
  let x_start_offset := if x - half_patch_size <? 0 then half_patch_size - x else 0 in
  let x_end_offset :=
    if x + half_patch_size >=? shape1 (label full_example)
    then x + half_patch_size + 1 - shape1 (label full_example) else 0 in
  let y0 := y - half_patch_size + y_start_offset in
  let y1 := y + half_patch_size + 1 - y_end_offset in
  let x0 := x - half_patch_size + x_start_offset in
  let x1 := x + half_patch_size + 1 - x_end_offset in
  sum_density <-
    add_at Qplus (sum_density_label buffers) y0 y1 x0 x1
      (slice2 predicted_label
              y_start_offset (shape0 predicted_label - y_end_offset)
              x_start_offset (shape1 predicted_label - x_end_offset)) ;;
  sum_count <-
    add_at Qplus (sum_count_label buffers) y0 y1 x0 x1
      (slice2 predicted_count_array
              y_start_offset (shape0 predicted_count_array - y_end_offset)
              x_start_offset (shape1 predicted_count_array - x_end_offset)) ;;
  let hits := add_scalar_at add_int32 (hit_predicted_label buffers) y0 y1 x0 x1 1 in
  Ok (Buffers sum_density sum_count hits).

(** [l[i]] *)
Definition item {A : Type} (l : list A) (i : nat) : result A :=
  match nth_error l i with
  | Some a => Ok a
  | None => Raise IndexError
  end.

(** [for example_index, example_with_position in enumerate(batch)] *)
Fixpoint add_patches (full_example : CrowdExample) (predicted_labels : array3)
  (predicted_counts : array1) (example_index : nat)
  (batch : list CrowdExampleWithPosition) (buffers : AggregationBuffers)
  : result AggregationBuffers :=
  match batch with
  | [] => Ok buffers
  | example_with_position :: batch' =>
      predicted_label <- item predicted_labels example_index ;;
      predicted_count <- item predicted_counts example_index ;;
      buffers' <- add_patch full_example buffers predicted_label predicted_count
                            example_with_position ;;
      add_patches full_example predicted_labels predicted_counts (S example_index)
                  batch' buffers'
  end.

(** The body of the loop over the batches of a scene. *)
Definition add_batch (full_example : CrowdExample)
  (batch : list CrowdExampleWithPosition) (buffers : AggregationBuffers)
  : result AggregationBuffers :=
  let images := map patch_image batch in
  let network := DNN in
  let '(predicted_labels, predicted_counts) := network images in
  add_patches full_example predicted_labels predicted_counts 0 batch buffers.

(** [for batch in self.batches_of_patches_with_position(full_example)],
    for at most [fuel] calls of [next]; [None] when the generator has not
    returned by then. *)
Fixpoint for_batches (settings : Settings) (full_example : CrowdExample) (fuel : nat)
  (g : generator) (buffers : AggregationBuffers) : option (result AggregationBuffers) :=
  match fuel with
  | O => None
  | S fuel' =>
      match next extract_patch_transform test_transform settings full_example g with
      | (None, _) => Some (Ok buffers)
      | (Some batch, g') =>
          match add_batch full_example batch buffers with
          | Ok buffers' => for_batches settings full_example fuel' g' buffers'
          | Raise e => Some (Raise e)
          end
      end
  end.

(** The running totals [total_count], [total_count_error] and
    [total_density_error]. *)
Record Totals : Type := MkTotals {
  total_count : Q;
  total_count_error : float;
  total_density_error : float
}.

(** The body of the loop over the test examples. *)
Definition evaluate_example (settings : Settings) (fuel : nat) (totals : Totals)
  (full_example : CrowdExample) : option (result Totals) :=
  let buffers :=
    Buffers (zeros_like 0%Q (label full_example)) (zeros_like 0%Q (label full_example))
            (zeros_like 0 (label full_example)) in
  match for_batches settings full_example fuel
                    (batches_of_patches_with_position full_example) buffers with
  | None => None
  | Some (Raise e) => Some (Raise e)
  | Some (Ok buffers) =>
      Some (
        normalized <- normalize buffers ;;
        let '(_, full_predicted_label, full_predicted_count) := normalized in
        difference <- subtract full_predicted_label (label full_example) ;;
        let density_loss := sum_of_abs difference in
        let count_loss :=
          fabs (fsub full_predicted_count (Num (sum (A2 (label full_example))))) in
        Ok (MkTotals (total_count totals + sum (A2 (label full_example)))%Q
                     (fadd (total_count_error totals) count_loss)
                     (fadd (total_density_error totals) density_loss)))
  end.

Fixpoint evaluate_examples (settings : Settings) (fuel : nat) (totals : Totals)
  (test_dataset : list CrowdExample) : option (result Totals) :=
  match test_dataset with
  | [] => Some (Ok totals)
  | full_example :: rest =>
      match evaluate_example settings fuel totals full_example with
      | Some (Ok totals') => evaluate_examples settings fuel totals' rest
      | other => other
      end
  end.

(** [CrowdExperiment.evaluate]. Each scene is given [fuel] calls of [next];
    the result is [None] when some scene needs more. *)
Definition evaluate (settings : Settings) (fuel : nat) (sliding_window_step : Z)
  : option (io unit) :=
  if String.eqb (crowd_dataset settings) "ShanghaiTech" then
    let test_dataset := ShanghaiTechDataset_test in
    match evaluate_examples settings fuel (MkTotals 0 (Num 0) (Num 0)) test_dataset with
    | None => None
    | Some totals =>
        Some (emit super_evaluate ;;;
              totals <~ lift totals ;;
              emit (print_total "Total count: {}." (Num (total_count totals))) ;;;
              emit (print_total "Total count error: {}." (total_count_error totals)) ;;;
              emit (print_total "Total density error: {}." (total_density_error totals)))
    end
  else
    Some (emit super_evaluate ;;;
          throw (ValueError (crowd_dataset settings ++ " is not an understood crowd dataset.")%string)).

End Evaluate.

(** ** Dataset setup of the crowd application *)

(** The transforms, datasets and loaders that [dataset_setup] builds come from
    [crowd.data], [crowd.shanghai_tech_data] and torch; the embedding records
    the constructor calls, with [None] for an argument left to its default.
    A path is the list of the arguments of [os.path.join]. *)
Inductive Transform : Type :=
| train_transform
| validation_transform.

Inductive Dataset : Type :=
| CrowdDataset (dataset_path : string) (camera_names : string)
    (number_of_cameras number_of_images_per_camera : option Z)
    (transform : Transform) (unlabeled : option bool) (seed : Z)
| ShanghaiTechDataset (dataset : option string) (transform : Transform) (seed : Z)
    (unlabeled : option bool).

Record Loader : Type := MkLoader {
  loader_dataset : Dataset;
  loader_batch_size : Z;
  loader_shuffle : bool;
  loader_pin_memory : bool;
  loader_num_workers : Z
}.

Definition new_loader (dataset : Dataset) (batch_size : Z) (shuffle pin_memory : bool)
  (num_workers : Z) : result Loader :=
  if batch_size <=? 0 then
    Raise (ValueError "batch_size should be a positive integer value")
  else Ok (MkLoader dataset batch_size shuffle pin_memory num_workers).

(** The attributes of a [CrowdExperiment] that [dataset_setup] reads and sets. *)
Record Experiment : Type := MkExperiment {
  settings : Settings;
  train_dataset : option Dataset;
  train_dataset_loader : option Loader;
  unlabeled_dataset : option Dataset;
  unlabeled_dataset_loader : option Loader;
  validation_dataset : option Dataset
}.

(** [CrowdExperiment.dataset_setup] *)
Definition dataset_setup (self : Experiment) : io Experiment :=
  let settings := settings self in
  if String.eqb (crowd_dataset settings) "World Expo" then
    let dataset_path := "../World Expo/" in
    emit (open_file [dataset_path; "viable_with_validation_and_random_test.json"]) ;;;
    let train := CrowdDataset dataset_path "train" (Some (number_of_cameras settings))
                   (Some (number_of_images_per_camera settings)) train_transform None
                   (labeled_dataset_seed settings) in
    train_loader <~ lift (new_loader train (batch_size settings) true true
                                     (number_of_data_workers settings)) ;;
    let unlabeled := CrowdDataset dataset_path "train" (Some (number_of_cameras settings))
                       None train_transform (Some true) (labeled_dataset_seed settings) in
    unlabeled_loader <~ lift (new_loader unlabeled (batch_size settings) true true
                                         (number_of_data_workers settings)) ;;
    let validation := CrowdDataset dataset_path "validation" None None
                        validation_transform None 101 in
    ret (MkExperiment settings (Some train) (Some train_loader) (Some unlabeled)
                      (Some unlabeled_loader) (Some validation))
  else if String.eqb (crowd_dataset settings) "ShanghaiTech" then
    let train := ShanghaiTechDataset None train_transform
                   (labeled_dataset_seed settings) None in
    train_loader <~ lift (new_loader train (batch_size settings) true true
                                     (number_of_data_workers settings)) ;;
    let unlabeled := ShanghaiTechDataset None train_transform
                       (labeled_dataset_seed settings) (Some true) in
    unlabeled_loader <~ lift (new_loader unlabeled (batch_size settings) true true
                                         (number_of_data_workers settings)) ;;
    let validation := ShanghaiTechDataset (Some "test") validation_transform 101 None in
    ret (MkExperiment settings (Some train) (Some train_loader) (Some unlabeled)
                      (Some unlabeled_loader) (Some validation))
  else
    throw (ValueError (crowd_dataset settings ++ " is not an understood crowd dataset.")%string).

(** ** The training run *)

Section RunSrgan.

(** What the run reads from its environment: the clock, whether CUDA is
    available, the step counter of the DNN summary writer after the training
    steps of an iteration, and standard input after the validation summaries
    of a step: the lines that wait there, and whether it is at its end after
    them (a closed pipe or a file read to its end) or open with nothing more
    to read (a terminal). *)
Variable datetime_string : string.
Variable cuda_is_available : bool.
Variable summary_writer_step : Z -> Z.
Variable stdin_lines : Z -> list string.
Variable stdin_at_end_of_file : Z -> bool.
(** The decimal digits of a step number, for the names of saved models. *)
Variable format_step : Z -> string.

(** [for step in range(n)], from [step] on. *)
Fixpoint for_range (n : nat) (step : Z) (body : Z -> option (io unit))
  : option (io unit) :=
  match n with
  | O => Some (ret tt)
  | S n' => body step ;;;; for_range n' (step + 1) body
  end.

(** [while sys.stdin in select.select([sys.stdin], [], [], 0)[0]], for at
    most [fuel] tests of its condition, the body being handed the line that
    [sys.stdin.readline()] returns. Standard input is reported readable while
    a line waits; at its end it is reported readable for ever and [readline]
    returns the empty string. *)
Fixpoint while_stdin_readable (fuel : nat) (lines : list string) (at_end_of_file : bool)
  (body : string -> io unit) : option (io unit) :=
  match fuel with
  | O => None
  | S fuel' =>
      match lines with
      | line :: lines' =>
          Some (body line) ;;;; while_stdin_readable fuel' lines' at_end_of_file body
      | [] =>
          if at_end_of_file
          then Some (body "") ;;;; while_stdin_readable fuel' [] at_end_of_file body
          else Some (ret tt)
      end
  end.

(** [a % b] *)
Definition modulo (a b : Z) : io Z :=
  if b =? 0 then throw ZeroDivisionError else ret (a mod b).

(** ['save' in line] *)
Definition contains_save (line : string) : bool :=
  match String.index 0 "save" line with
  | Some _ => true
  | None => false
  end.

Definition save_models (directory : list string) (suffix : string) : io unit :=
  emit (torch_save "DNN" (directory ++ [("DNN_model" ++ suffix ++ ".pth")%string])) ;;;
  emit (torch_save "D" (directory ++ [("D_model" ++ suffix ++ ".pth")%string])) ;;;
  emit (torch_save "G" (directory ++ [("G_model" ++ suffix ++ ".pth")%string])).

(** The body of the loop over the lines of standard input. *)
Definition read_line (trial_directory : list string) (step : Z) (line : string)
  : io unit :=
  if contains_save line then
    save_models trial_directory ("_" ++ format_step step)%string ;;;
    emit (print_line "Saved model for step {}...")
  else ret tt.

(** The body of the loop over the steps, with [fuel] tests of the condition
    of its inner loop. *)
Definition run_step (fuel : nat) (settings : Settings) (trial_directory : list string)
  (step : Z) : option (io unit) :=
  due <~~ Some (remainder <~ modulo step (summary_step_period settings) ;;
                (if (remainder =? 0) && negb (step =? 0)
                 then emit (print_line "Step {}, {}...")
                 else ret tt) ;;;
                emit (call_dnn_training_step step) ;;;
                emit (call_gan_training_step step) ;;;
                summary_remainder <~
                  modulo (summary_writer_step step) (summary_step_period settings) ;;
                if summary_remainder =? 0 then ret true
                else
                  presentation_remainder <~
                    modulo (summary_writer_step step) (presentation_step_period settings) ;;
                  ret (presentation_remainder =? 0)) ;;
  if (due : bool) then
    Some (emit (call_validation_summaries step)) ;;;;
    while_stdin_readable fuel (stdin_lines step) (stdin_at_end_of_file step)
                         (read_line trial_directory step)
  else Some (ret tt).

(** The statements of [run_srgan] that follow the choice of the
    application. *)
Definition train (fuel : nat) (settings : Settings) (application : string)
  (trial_directory : list string) : option (io unit) :=
  Some (emit (call_dataset_setup application) ;;;
        emit (call_model_setup application) ;;;
        (if String.eqb (load_model_path settings) "" then ret tt
         else
           let map_location := if negb cuda_is_available then Some "cpu" else None in
           emit (load_state_dict "DNN" [load_model_path settings; "DNN_model.pth"]
                                 map_location) ;;;
           emit (load_state_dict "D" [load_model_path settings; "D_model.pth"]
                                 map_location) ;;;
           emit (load_state_dict "G" [load_model_path settings; "G_model.pth"]
                                 map_location)) ;;;
        emit (print_path "{}" trial_directory)) ;;;;
  for_range (Z.to_nat (steps_to_run settings)) 0 (run_step fuel settings trial_directory) ;;;;
  Some (emit (print_path "Completed {}" trial_directory) ;;;
        if should_save_models settings then save_models trial_directory "" else ret tt).

(** [run_srgan]; [None] when, with [fuel] tests of the condition of each loop
    over standard input, it has not come to its end. *)
Definition run_srgan (fuel : nat) (settings : Settings) : option (io unit) :=
  let trial_directory :=
    [logs_directory settings; (trial_name settings ++ " " ++ datetime_string)%string] in
  Some (emit (makedirs (trial_directory ++ [temporary_directory settings])) ;;;
        emit (new_summary_writer (trial_directory ++ ["DNN"])) ;;;
        emit (new_summary_writer (trial_directory ++ ["GAN"]))) ;;;;
  if String.eqb (application settings) "coefficient" then
    train fuel settings "coefficient" trial_directory
  else if String.eqb (application settings) "age" then
    train fuel settings "age" trial_directory
  else
    Some (throw (ValueError ("`application` cannot be " ++ application settings ++ ".")%string)).

End RunSrgan.

(** ** Heat maps and comparison grids *)

(** [a.min()] and [a.max()] over all entries of a two-axis array. *)
Definition minimum (m : array2) : result Q :=
  match concat m with
  | [] => Raise (ValueError "zero-size array to reduction operation minimum which has no identity")
  | q :: v => Ok (fold_left Qmin v q)
  end.

Definition maximum (m : array2) : result Q :=
  match concat m with
  | [] => Raise (ValueError "zero-size array to reduction operation maximum which has no identity")
  | q :: v => Ok (fold_left Qmax v q)
  end.

(** The arguments [vmin] and [vmax] of [mappable.set_clim]. *)
Definition color_limits (label_array predicted_label_array : array2) : result (Q * Q) :=
  label_min <- minimum label_array ;;
  predicted_min <- minimum predicted_label_array ;;
  label_max <- maximum label_array ;;
  predicted_max <- maximum predicted_label_array ;;
  Ok (Qmin label_min predicted_min, Qmax label_max predicted_max).

(** [a[:, :, :3].transpose((2, 0, 1))]: the first three channels of every
    pixel, with the channel axis moved to the front. *)
Definition first_three_channels_first (a : array3) : array3 :=
  let a := map (map (firstn 3)) a in
  map (fun channel => map (map (fun pixel => nth channel pixel 0%Q)) a)
      (seq 0 (length (hd [] (hd [] a)))).

(** [(image + 1) / 2] *)
Definition to_unit_range (image : array3) : array3 :=
  map (map (map (fun q => (q + 1) / 2)%Q)) image.

Section Images.

(** [crowd.data.patch_size]; [scipy.misc.imresize(a, size, mode='F')];
    [mappable.to_rgba(a)] for a mappable with the given colour limits; and
    [torchvision.utils.make_grid(images, nrow=nrow)]. *)
Variable patch_size : Z.
Variable imresize : array2 -> Z * Z -> array2.
Variable to_rgba : Q -> Q -> array2 -> array3.
Variable make_grid : list array3 -> Z -> array3.

(** [CrowdExperiment.convert_density_maps_to_heatmaps] *)
Definition convert_density_maps_to_heatmaps (label predicted_label : array2)
  : result (array3 * array3) :=
  let label_array := label in
  let predicted_label_array := predicted_label in
  limits <- color_limits label_array predicted_label_array ;;
  let '(vmin, vmax) := limits in
  let resized_label_array := imresize label_array (patch_size, patch_size) in
  let label_heatmap_array := to_rgba vmin vmax resized_label_array in
  let label_heatmap_tensor := first_three_channels_first label_heatmap_array in
  let resized_predicted_label_array :=
    imresize predicted_label_array (patch_size, patch_size) in
  let predicted_label_heatmap_array := to_rgba vmin vmax resized_predicted_label_array in
  let predicted_label_heatmap_tensor :=
    first_three_channels_first predicted_label_heatmap_array in
  Ok (label_heatmap_tensor, predicted_label_heatmap_tensor).

(** The loop of [create_crowd_images_comparison_grid], from [index] on for
    [iterations] more indices. *)
Fixpoint grid_images (images : list array3) (labels predicted_labels : array3)
  (index iterations : nat) (grid_image_list : list array3) : result (list array3) :=
  match iterations with
  | O => Ok grid_image_list
  | S iterations' =>
      image <- item images index ;;
      label <- item labels index ;;
      predicted_label <- item predicted_labels index ;;
      heatmaps <- convert_density_maps_to_heatmaps label predicted_label ;;
      let '(label_heatmap, predicted_label_heatmap) := heatmaps in
      grid_images images labels predicted_labels (S index) iterations'
                  (grid_image_list
                   ++ [to_unit_range image; label_heatmap; predicted_label_heatmap])
  end.

(** The list that [create_crowd_images_comparison_grid] hands to
    [make_grid]. *)
Definition grid_image_list (images : list array3) (labels predicted_labels : array3)
  (number_of_images : Z) : result (list array3) :=
  grid_images images labels predicted_labels 0
              (Z.to_nat (Z.min number_of_images (Z.of_nat (length images)))) [].

(** [CrowdExperiment.create_crowd_images_comparison_grid] *)
Definition create_crowd_images_comparison_grid (images : list array3)
  (labels predicted_labels : array3) (number_of_images : Z) : result array3 :=
  l <- grid_image_list images labels predicted_labels number_of_images ;;
  Ok (make_grid l number_of_images).

End Images.

(** ** Validation summaries *)

(** What the summary writers receive: a summary of the evaluation epoch that
    was handed the writer, or an image. *)
Inductive summary : Type :=
| written (writer : string) (e : event)
| add_image (writer name : string) (image : array3).

(** How a call ends: it returns, it raises one of the exceptions above, or
    [next] leaves it with [StopIteration]. *)
Inductive outcome (A : Type) : Type :=
| Finished (a : A)
| Failed (e : exn)
| StopIteration.

Arguments Finished {A} a.
Arguments Failed {A} e.
Arguments StopIteration {A}.

Definition summaries (A : Type) : Type := list summary * outcome A.

Definition then_summaries {A B : Type} (m : summaries A) (k : A -> summaries B)
  : summaries B :=
  match m with
  | (out, Finished a) => let (out', r) := k a in (out ++ out', r)
  | (out, Failed e) => (out, Failed e)
  | (out, StopIteration) => (out, StopIteration)
  end.

Declare Scope summaries_scope.
Delimit Scope summaries_scope with summaries.
Notation "x <-- m ;; k" := (then_summaries m (fun x => k))
  (at level 61, m at next level, right associativity) : summaries_scope.
Local Open Scope summaries_scope.

Definition returned {A : Type} (m : result A) : summaries A :=
  ([], match m with Ok a => Finished a | Raise e => Failed e end).

(** A call whose summary writer is [writer]. *)
Definition written_by {A : Type} (writer : string) (m : io A) : summaries A :=
  (map (written writer) (fst m),
   match snd m with Ok a => Finished a | Raise e => Failed e end).

(** [next(iter(DataLoader(dataset, batch_size=batch_size)))] *)
Definition first_batch (dataset : list CrowdExample) (batch_size : Z)
  : summaries (list array3 * array3) :=
  match DataLoader dataset batch_size with
  | Raise e => ([], Failed e)
  | Ok [] => ([], StopIteration)
  | Ok (batch :: _) => ([], Finished batch)
  end.

(** [a.transpose([1, 2, 0])]: the channel axis moved to the end. *)
Definition channels_last (a : array3) : array3 :=
  map (fun i =>
         map (fun j => map (fun channel => nth j (nth i channel []) 0%Q) a)
             (seq 0 (length (hd [] (hd [] a)))))
      (seq 0 (length (hd [] a))).

Section ValidationSummaries.

Variable patch_size : Z.
Variable imresize : array2 -> Z * Z -> array2.
Variable to_rgba : Q -> Q -> array2 -> array3.
Variable make_grid : list array3 -> Z -> array3.
(** The networks of the experiment; the generator maps a batch of latent
    vectors to images and has an [input_size]. *)
Variable DNN D : Network.
Variable G : array2 -> list array3.
Variable G_input_size : Z.
(** [settings.mean_offset]; what [torch.randn(rows, columns)] and the mixture
    of the normal distributions around minus and plus an offset,
    [rvs(size=[rows, columns])], draw in this call: another call draws
    afresh, and has draws of its own. *)
Variable mean_offset : Q.
Variable randn : Z -> Z -> array2.
Variable mixture_rvs : Q -> Z -> Z -> array2.
(** [utility.to_image_range] and [astype(np.uint8)]. *)
Variable to_image_range : list array3 -> list array3.
Variable astype_uint8 : array3 -> array3.

(** [make_grid(to_image_range(fake_examples.data[:9]), nrow=3)], as the
    writer gets it. *)
Definition fake_images_image (fake_examples : list array3) : array3 :=
  astype_uint8 (channels_last (make_grid (to_image_range (firstn 9 fake_examples)) 3)).

(** The statements of [validation_summaries] from [# Real images.] on. The
    transforms of a dataset draw at random, so a dataset gives the examples
    of each pass over it: [train_dataset k] is what pass [k] reads. *)
Definition image_summaries (settings : Settings)
  (train_dataset : nat -> list CrowdExample) : summaries unit :=
  batch <-- first_batch (train_dataset 2%nat) (batch_size settings) ;;
  let '(examples, densities) := batch in
  let '(predicted_densities, _) := D examples in
  real_comparison_image <--
    returned (create_crowd_images_comparison_grid patch_size imresize to_rgba make_grid
                examples densities predicted_densities 3) ;;
  _ <-- ([add_image "GAN" "Real" real_comparison_image], Finished tt) ;;
  let '(dnn_predicted_densities, _) := DNN examples in
  dnn_real_comparison_image <--
    returned (create_crowd_images_comparison_grid patch_size imresize to_rgba make_grid
                examples densities dnn_predicted_densities 3) ;;
  _ <-- ([add_image "DNN" "Real" dnn_real_comparison_image], Finished tt) ;;
  batch <-- first_batch (train_dataset 3%nat) (batch_size settings) ;;
  let '(examples, densities) := batch in
  let '(predicted_densities, _) := D examples in
  real_comparison_image <--
    returned (create_crowd_images_comparison_grid patch_size imresize to_rgba make_grid
                examples densities predicted_densities 3) ;;
  _ <-- ([add_image "GAN" "Validation" real_comparison_image], Finished tt) ;;
  let z := randn (batch_size settings) G_input_size in
  let fake_examples := G z in
  _ <-- ([add_image "GAN" "Fake/Standard" (fake_images_image fake_examples)],
         Finished tt) ;;
  let z := mixture_rvs mean_offset (batch_size settings) G_input_size in
  let fake_examples := G z in
  ([add_image "GAN" "Fake/Offset" (fake_images_image fake_examples)], Finished tt).

(** [CrowdExperiment.validation_summaries] *)
Definition validation_summaries (settings : Settings)
  (train_dataset validation_dataset : nat -> list CrowdExample) (step : Z)
  : summaries unit :=
  _ <-- written_by "DNN"
          (evaluation_epoch settings DNN (train_dataset 0%nat) "2 Train Error" None) ;;
  dnn_validation_count_mae <--
    written_by "DNN"
      (evaluation_epoch settings DNN (validation_dataset 0%nat) "1 Validation Error" None) ;;
  _ <-- written_by "GAN"
          (evaluation_epoch settings D (train_dataset 1%nat) "2 Train Error" None) ;;
  _ <-- written_by "GAN"
          (evaluation_epoch settings D (validation_dataset 1%nat) "1 Validation Error"
                            (Some dnn_validation_count_mae)) ;;
  image_summaries settings train_dataset.

End ValidationSummaries.

(** ** Shapes and the statistics in the words of the specification *)

(** A two-axis array of [rows] rows and [columns] columns, and a stack of
    [items] such arrays. *)
Definition shape2 {A : Type} (rows columns : nat) (m : list (list A)) : Prop :=
  length m = rows /\ Forall (fun r => length r = columns) m.
Definition shape3 {A : Type} (items rows columns : nat) (t : list (list (list A))) : Prop :=
  length t = items /\ Forall (shape2 rows columns) t.

(** The entry in row [i] and column [j]. *)
Definition entry {A : Type} (m : list (list A)) (i j : nat) : option A :=
  match nth_error m i with
  | Some r => nth_error r j
  | None => None
  end.

(** Two lists combined entry by entry. *)
Definition map2 {A B C : Type} (f : A -> B -> C) (a : list A) (b : list B) : list C :=
  map (fun ab => f (fst ab) (snd ab)) (combine a b).

(** The mean over the items of a batch. *)
Definition batch_mean (values : list Q) : float :=
  fdiv (Num (Qsum values)) (Num (inject_Z (Z.of_nat (length values)))).

(** The sum over the spatial dimensions. *)
Definition spatial_sum (m : array2) : Q := Qsum (concat m).

(** The sum over the pixels of the squared density differences. *)
Definition squared_error (predicted_density true_density : array2) : Q :=
  spatial_sum (map2 (map2 (fun p d => (p - d) ^ 2)%Q) predicted_density true_density).

(** The squared count difference; the true count is the spatial sum of
    the true density. *)
Definition squared_count_error (predicted_count : Q) (true_density : array2) : Q :=
  ((predicted_count - spatial_sum true_density) ^ 2)%Q.

(** [count_loss] and [density_loss] as batch means. *)
Definition count_loss_of (predicted_counts : array1) (labels : array3) : float :=
  batch_mean (map2 squared_count_error predicted_counts labels).
Definition density_loss_of (predicted_densities labels : array3) : float :=
  batch_mean (map2 squared_error predicted_densities labels).

(** The loss of one item, with the sum over the pixels of the squared density
    differences, and the mean of the item losses over the batch. *)
Definition item_loss (predicted : array2 * Q) (true_density : array2) : Q :=
  (squared_count_error (snd predicted) true_density
   + 10 * squared_error (fst predicted) true_density)%Q.
Definition mean_item_loss (predicted_labels : array3 * array1) (labels : array3) : float :=
  batch_mean (map2 item_loss (combine (fst predicted_labels) (snd predicted_labels)) labels).

(** The loss of one item with the mean over the pixels of the squared density
    differences, as the specification words it, and its mean over the batch. *)
Definition item_loss_mean_per_pixel (predicted : array2 * Q) (true_density : array2) : Q :=
  (squared_count_error (snd predicted) true_density
   + 10 * (squared_error (fst predicted) true_density
           / inject_Z (Z.of_nat (size2 true_density))))%Q.
Definition mean_item_loss_mean_per_pixel (predicted_labels : array3 * array1)
  (labels : array3) : float :=
  batch_mean (map2 item_loss_mean_per_pixel
                   (combine (fst predicted_labels) (snd predicted_labels)) labels).

(** On every batch the network predicts the true densities, and as counts
    their spatial sums. *)
Definition perfect_on (network : Network) (batches : list (list array3 * array3)) : Prop :=
  Forall (fun batch =>
            fst (network (fst batch)) = snd batch /\
            Forall2 Qeq (snd (network (fst batch))) (map spatial_sum (snd batch)))
         batches.

(** The mean squared errors with the plain difference squared. *)
Definition count_mse_plain (predicted_counts densities : ndarray) : result float :=
  s <- sum_axis1 densities ;;
  true_counts <- sum_axis1 s ;;
  d <- sub predicted_counts true_counts ;;
  Ok (mean (pow d 2)).

Definition density_mse_plain (predicted_densities densities : ndarray) : result float :=
  d <- sub predicted_densities densities ;;
  s <- sum_axis1 (pow d 2) ;;
  s' <- sum_axis1 s ;;
  Ok (mean s').

(** A sum divided by its hit count, a hit count of zero counting as one. *)
Definition clamped_quotient (accumulated : Q) (hits : Z) : Q :=
  (accumulated / inject_Z (if hits =? 0 then 1 else hits))%Q.

(** ** Notions used in the proofs *)

(** The square of the absolute value, as the code computes it. *)
Definition square_of_abs (q : Q) : Q := ((Qabs q) ^ 2)%Q.

(** A list of zeros. *)
Definition zeros (v : list Q) : Prop := Forall (fun q => q == 0) v.

(** Arrays of one structure whose entries are equal as rationals. *)
Definition array_equiv (a b : ndarray) : Prop :=
  match a, b with
  | A1 v, A1 w => Forall2 Qeq v w
  | A2 m, A2 n => Forall2 (Forall2 Qeq) m n
  | A3 t, A3 u => Forall2 (Forall2 (Forall2 Qeq)) t u
  | _, _ => False
  end.

(** A batch of the loader: at least one label, all of the one shape. *)
Definition well_formed (rows columns : nat) (batch : list array3 * array3) : Prop :=
  snd batch <> [] /\ Forall (shape2 rows columns) (snd batch).

(** The accumulators after at least one batch of a perfect network. *)
Definition consistent (rows columns : nat) (acc : accumulators) : Prop :=
  exists counts densities,
    acc = (A1 counts, A3 densities, A3 densities) /\
    densities <> [] /\
    Forall (shape2 rows columns) densities /\
    Forall2 Qeq counts (map spatial_sum densities).

(** Every entry of an array satisfies [P]. *)
Definition all_entries (P : Q -> Prop) (a : ndarray) : Prop :=
  match a with
  | A1 v => Forall P v
  | A2 m => Forall (Forall P) m
  | A3 t => Forall (Forall (Forall P)) t
  end.

(** A scalar is not negative: it is a number that is not negative, NaN or
    plus infinity. *)
Definition not_negative (v : float) : Prop :=
  match v with
  | Num q => (0 <= q)%Q
  | NaN => True
  | Inf negative => negative = false
  end.

(** The accumulators once the examples of [seen] have gone through a network
    that predicts the density [f] and the count [g] of each image by itself. *)
Definition collected (f : array3 -> array2) (g : array3 -> Q) (seen : list CrowdExample)
  : accumulators :=
  match seen with
  | [] => (empty_array, empty_array, empty_array)
  | _ => (A1 (map g (map image seen)), A3 (map label seen), A3 (map f (map image seen)))
  end.

(** Neither the label nor the density that [f] predicts is without pixels. *)
Definition has_pixels (f : array3 -> array2) (example : CrowdExample) : Prop :=
  (0 < size2 (label example))%nat /\ (0 < size2 (f (image example)))%nat.





(** The validation summaries are due at a step. *)
Definition summaries_due (summary_writer_step : Z -> Z) (settings : Settings) (step : Z)
  : bool :=
  (summary_writer_step step mod summary_step_period settings =? 0)
  || (summary_writer_step step mod presentation_step_period settings =? 0).

(** What the [k]-th pass of the loop reads and the three images it leaves
    from position [3 k] on. *)
Definition grid_entry (patch_size : Z) (imresize : array2 -> Z * Z -> array2)
  (to_rgba : Q -> Q -> array2 -> array3)
  (images : list array3) (labels predicted_labels : array3)
  (l : list array3) (at_index k : nat) : Prop :=
  exists image label predicted_label label_heatmap predicted_label_heatmap,
    nth_error images at_index = Some image /\
    nth_error labels at_index = Some label /\
    nth_error predicted_labels at_index = Some predicted_label /\
    convert_density_maps_to_heatmaps patch_size imresize to_rgba label predicted_label
    = Ok (label_heatmap, predicted_label_heatmap) /\
    nth_error l (3 * k) = Some (to_unit_range image) /\
    nth_error l (3 * k + 1) = Some label_heatmap /\
    nth_error l (3 * k + 2) = Some predicted_label_heatmap.

(** The summaries that are images, and the writer and the name of a
    summary. *)
Definition is_image (s : summary) : bool :=
  match s with
  | add_image _ _ _ => true
  | written _ _ => false
  end.

(** The images that show examples of a dataset: 'Real' and 'Validation'. *)
Definition shows_examples (s : summary) : bool :=
  match s with
  | add_image _ name _ => String.eqb name "Real" || String.eqb name "Validation"
  | written _ _ => false
  end.

Definition summary_key (s : summary) : string * string :=
  match s with
  | written writer (add_scalar name _) => (writer, name)
  | written writer _ => (writer, "")
  | add_image writer name _ => (writer, name)
  end.

(** The events that set up datasets or models, or train. *)
Definition sets_up_or_trains (e : event) : bool :=
  match e with
  | call_dataset_setup _ | call_model_setup _
  | call_dnn_training_step _ | call_gan_training_step _ => true
  | _ => false
  end.

(** ** Sample inputs *)

Definition sample_settings (application crowd_dataset : string) (batch_size : Z)
  : Settings :=
  {| application := application;
     crowd_dataset := crowd_dataset;
     batch_size := batch_size;
     logs_directory := "logs";
     trial_name := "trial";
     temporary_directory := "temporary";
     summary_step_period := 25;
     presentation_step_period := 100;
     steps_to_run := 2;
     load_model_path := "";
     should_save_models := true;
     number_of_cameras := 5;
     number_of_images_per_camera := 5;
     number_of_data_workers := 0;
     labeled_dataset_seed := 0 |}.

(** An all-zero patch of 2 by 2 pixels and a true density of ones. *)
Definition zero_patch : array2 := [[0; 0]; [0; 0]]%Q.
Definition unit_density : array2 := [[1; 1]; [1; 1]]%Q.

(** Examples whose image is their density, and a network that reads the
    density off the image and sums it for the count. *)
Definition sample_example (density : array2) : CrowdExample := Example [density] density.
Definition echo_network : Network :=
  fun images =>
    (map (fun image => hd [] image) images,
     map (fun image => spatial_sum (hd [] image)) images).
Definition sample_dataset : list CrowdExample :=
  [sample_example [[1; 2]; [3; 4]]%Q; sample_example unit_density;
   sample_example [[0; 5]; [0; 0]]%Q].

(** Buffers of one row and two columns; the first pixel was never hit. *)
Definition sample_buffers : AggregationBuffers :=
  Buffers [[2; 4]]%Q [[1; 1]]%Q [[0; 2]].

(** An experiment before its dataset setup. *)
Definition new_experiment (settings : Settings) : Experiment :=
  MkExperiment settings None None None None None.

(** A network that predicts no one anywhere. *)
Definition silent_network : Network :=
  fun images => (map (fun _ => zero_patch) images, map (fun _ => 0%Q) images).

(** Stand-ins for the image libraries: a resize that keeps the array, a
    colour map that shows every value as a gray pixel, and a grid that puts
    the channels of its images one after the other. *)
Definition keep_size (a : array2) (size : Z * Z) : array2 := a.
Definition gray_rgba (vmin vmax : Q) (a : array2) : array3 :=
  map (map (fun q => [q; q; q; 1]%Q)) a.
Definition channel_stack (images : list array3) (nrow : Z) : array3 := concat images.

(** A generator without output, and stand-ins for the image range and the
    cast to bytes that keep their argument. *)
Definition no_images (z : array2) : list array3 := [].
Definition no_noise (rows columns : Z) : array2 := [].
Definition no_mixture (offset : Q) (rows columns : Z) : array2 := [].
(** Another draw, and a generator that shows its latent vectors as one
    image. *)
Definition unit_noise (rows columns : Z) : array2 := [[1]]%Q.
Definition noise_image (z : array2) : list array3 := [[z]].
Definition same_images (images : list array3) : list array3 := images.
Definition same_image (image : array3) : array3 := image.

(** A scene of [height] rows and [width] columns. *)
Definition blank_scene (height width : nat) : CrowdExample :=
  Example [] (repeat (repeat 0%Q width) height).

(** Transforms that hand the scene on as it is. *)
Definition whole_scene (full_example : CrowdExample) (y x : Z) : CrowdExample :=
  full_example.
Definition untransformed (example : CrowdExample) : CrowdExample := example.

(** * Properties *)

(** ** The sliding-window scan *)

Section ScanProperties.

Variable extract_patch_transform : CrowdExample -> Z -> Z -> CrowdExample.
Variable test_transform : CrowdExample -> CrowdExample.

Let fill := fill_batch extract_patch_transform test_transform.
Let next_batch := next extract_patch_transform test_transform.
Let batches := take_batches extract_patch_transform test_transform.
Let patch := patch_at extract_patch_transform test_transform.

(** With the step variable at zero the loop over a batch never leaves the
    origin of a scene that has a row. *)
Lemma fill_batch_at_origin (full_example : CrowdExample) (iterations : nat) :
  0 < shape0 (label full_example) ->
  forall batch,
    fill full_example 0 iterations 0 0 batch
    = Filled (batch ++ repeat (patch full_example 0 0) iterations) 0 0.
Proof.
  intros Hrows. unfold fill, patch.
  induction iterations as [|n IH]; intros batch; simpl.
  - now rewrite app_nil_r.
  - assert (Hy : (0 >=? shape0 (label full_example)) = false) by lia.
    destruct (0 >=? shape1 (label full_example)); simpl; rewrite Hy, IH;
      rewrite <- app_assoc; reflexivity.
Qed.

Lemma next_at_origin (settings : Settings) (full_example : CrowdExample) :
  0 < shape0 (label full_example) ->
  next_batch settings full_example (Suspended 0 0 0)
  = (Some (repeat (patch full_example 0 0) (Z.to_nat (batch_size settings))),
     Suspended 0 0 0).
Proof.
  intros Hrows. unfold next_batch, next.
  fold fill. rewrite fill_batch_at_origin by assumption. reflexivity.
Qed.

Lemma take_batches_at_origin (settings : Settings) (full_example : CrowdExample)
  (calls : nat) :
  0 < shape0 (label full_example) ->
  batches settings full_example calls (Suspended 0 0 0)
  = (repeat (repeat (patch full_example 0 0) (Z.to_nat (batch_size settings))) calls,
     Suspended 0 0 0).
Proof.
  intros Hrows. unfold batches.
  induction calls as [|n IH]; cbn [take_batches].
  - reflexivity.
  - fold next_batch. rewrite next_at_origin by assumption. rewrite IH. reflexivity.
Qed.

(** C1, evaluated on the code: on a scene with at least one row the scan does
    not end. However many times [next] is called, the generator has yielded
    that many batches, each filled with [batch_size] patches cut at the
    origin, and it is suspended where it started, with [x = 0], [y = 0] and a
    step of zero: [y] never reaches the height of the scene. *)
Theorem scan_never_returns (settings : Settings) (scene_image : array3)
  (row : list Q) (rows : array2) (calls : nat) :
  let full_example := Example scene_image (row :: rows) in
  batches settings full_example calls (batches_of_patches_with_position full_example)
  = (repeat (repeat (patch full_example 0 0) (Z.to_nat (batch_size settings))) calls,
     Suspended 0 0 0).
Proof.
  intros full_example. unfold batches_of_patches_with_position.
  apply take_batches_at_origin. unfold shape0. simpl. lia.
Qed.

(** C2, evaluated on the code: the window centres never advance, by the
    step handed to [evaluate] or by anything else. On a scene with at least
    one row the first [calls] batches of the scan hold [calls * batch_size]
    patches, every one of them is cut at [(0, 0)], and the centres of two
    consecutive patches differ by 0 along both axes, not by a step. *)
Theorem scan_patches_stay_at_origin (settings : Settings) (scene_image : array3)
  (row : list Q) (rows : array2) (calls : nat) :
  let full_example := Example scene_image (row :: rows) in
  let yielded :=
    concat (fst (batches settings full_example calls
                         (batches_of_patches_with_position full_example))) in
  length yielded = (calls * Z.to_nat (batch_size settings))%nat /\
  Forall (fun p => position p = (0, 0)) yielded /\
  Forall (fun pq => patch_x (snd pq) - patch_x (fst pq) = 0 /\
                    patch_y (snd pq) - patch_y (fst pq) = 0)
         (consecutive yielded).
Proof.
  intros full_example yielded. subst yielded.
  unfold batches_of_patches_with_position.
  rewrite take_batches_at_origin by (unfold shape0; simpl; lia). cbn [fst].
  set (n := Z.to_nat (batch_size settings)).
  assert (Hall : Forall (fun p => position p = (0, 0))
                        (concat (repeat (repeat (patch full_example 0 0) n) calls))).
  { apply Forall_concat, Forall_forall. intros batch Hbatch.
    apply repeat_spec in Hbatch as ->. apply Forall_forall. intros p Hp.
    apply repeat_spec in Hp as ->. reflexivity. }
  split; [|split].
  - clear Hall. induction calls as [|k IH]; [reflexivity|].
    cbn [repeat concat]. rewrite length_app, repeat_length, IH. reflexivity.
  - exact Hall.
  - rewrite Forall_forall in Hall |- *. intros [p q] Hpq. cbn [fst snd].
    pose proof (Hall p (in_combine_l _ _ _ _ Hpq)) as Hp.
    assert (Hq : In q (concat (repeat (repeat (patch full_example 0 0) n) calls))).
    { apply in_combine_r in Hpq.
      destruct (concat (repeat (repeat (patch full_example 0 0) n) calls));
        [contradiction | now right]. }
    apply Hall in Hq. unfold position in Hp, Hq.
    injection Hp as Hpx Hpy. injection Hq as Hqx Hqy. lia.
Qed.

End ScanProperties.

(** The same on one input: with evaluate's [sliding_window_step] of 10, on a
    scene of 30 by 30 pixels and batches of three, the second and the third
    patch of the scan are both cut at [(0, 0)], as the first is; their
    coordinates differ by 0, not by 10, along either axis. *)
Lemma scan_step_counterexample :
  exists first second third g,
    next whole_scene untransformed (sample_settings "age" "ShanghaiTech" 3)
         (blank_scene 30 30) (batches_of_patches_with_position (blank_scene 30 30))
    = (Some [first; second; third], g) /\
    position first = (0, 0) /\
    position second = (0, 0) /\
    position third = (0, 0) /\
    patch_x third - patch_x second <> 10 /\
    patch_y third - patch_y second <> 10.
Proof.
  do 4 eexists. split; [reflexivity|].
  repeat split; cbn; discriminate.
Qed.

(** ** Facts about sums and arrays *)

Lemma Qsum_app (a b : list Q) : Qsum (a ++ b) == Qsum a + Qsum b.
Proof.
  induction a as [|x a IH]; simpl.
  - ring.
  - rewrite IH. ring.
Qed.

Lemma Qsum_Forall2 (a b : list Q) : Forall2 Qeq a b -> Qsum a == Qsum b.
Proof.
  induction 1 as [|x y a b Hxy _ IH]; simpl.
  - reflexivity.
  - now rewrite Hxy, IH.
Qed.

Lemma Qsum_zero (a : list Q) : Forall (fun q => q == 0) a -> Qsum a == 0.
Proof.
  induction 1 as [|x a Hx _ IH]; simpl.
  - reflexivity.
  - rewrite Hx, IH. ring.
Qed.

Lemma Qsum_map2_plus (a b : list Q) :
  length a = length b -> Qsum (map2 Qplus a b) == Qsum a + Qsum b.
Proof.
  revert b. induction a as [|x a IH]; intros [|y b] Hlen; try discriminate.
  - simpl. ring.
  - unfold map2 in *. simpl. rewrite IH by (simpl in Hlen; lia). ring.
Qed.

Lemma length_map2 {A B C : Type} (f : A -> B -> C) (a : list A) (b : list B) :
  length a = length b -> length (map2 f a b) = length a.
Proof.
  intros Hlen. unfold map2. rewrite length_map, length_combine. lia.
Qed.

Lemma sum_rows_map2 (r : list Q) (m : array2) :
  m <> [] -> sum_rows (r :: m) = map2 Qplus r (sum_rows m).
Proof.
  destruct m as [|r' m]; [congruence|]. reflexivity.
Qed.

Lemma length_sum_rows (columns : nat) (m : array2) :
  m <> [] -> Forall (fun r => length r = columns) m -> length (sum_rows m) = columns.
Proof.
  induction m as [|r m IH]; [congruence|].
  intros _ Hrows. apply Forall_cons_iff in Hrows as [Hr Hm].
  destruct m as [|r' m]; [exact Hr|].
  rewrite sum_rows_map2 by congruence.
  rewrite length_map2; [exact Hr|].
  rewrite IH; [exact Hr | congruence | exact Hm].
Qed.

(** Summing the rows together and then the entries is summing all pixels. *)
Lemma Qsum_sum_rows (columns : nat) (m : array2) :
  Forall (fun r => length r = columns) m -> Qsum (sum_rows m) == spatial_sum m.
Proof.
  unfold spatial_sum.
  induction m as [|r m IH]; intros Hrows; [reflexivity|].
  apply Forall_cons_iff in Hrows as [Hr Hm].
  destruct m as [|r' m].
  - simpl. rewrite app_nil_r. reflexivity.
  - rewrite sum_rows_map2 by congruence.
    rewrite Qsum_map2_plus.
    + rewrite IH by exact Hm. cbn [concat]. rewrite (Qsum_app r). reflexivity.
    + rewrite (length_sum_rows columns); [exact Hr | congruence | exact Hm].
Qed.

Lemma Qsum_concat_Forall2 (m n : array2) :
  Forall2 (Forall2 Qeq) m n -> spatial_sum m == spatial_sum n.
Proof.
  unfold spatial_sum.
  induction 1 as [|r r' m n Hr _ IH]; [reflexivity|].
  cbn [concat]. rewrite !Qsum_app, IH, (Qsum_Forall2 _ _ Hr). reflexivity.
Qed.

Lemma Qsquare_abs (q : Q) : (Qabs q) ^ 2 == q ^ 2.
Proof.
  change ((Qabs q) ^ 2)%Q with (Qabs q * Qabs q)%Q.
  change (q ^ 2)%Q with (q * q)%Q.
  rewrite <- Qabs_Qmult. apply Qabs_pos.
  destruct (Qlt_le_dec q 0) as [Hneg | Hpos].
  - setoid_replace (q * q)%Q with ((- q) * (- q))%Q by ring.
    apply Qmult_le_0_compat; lra.
  - apply Qmult_le_0_compat; assumption.
Qed.

Lemma Qsquare_compat (p q : Q) : p == q -> p ^ 2 == q ^ 2.
Proof.
  intros Hpq. change (p * p == q * q)%Q. now rewrite Hpq.
Qed.

Lemma map_map2 {A B C D : Type} (k : C -> D) (f : A -> B -> C) (a : list A) (b : list B) :
  map k (map2 f a b) = map2 (fun x y => k (f x y)) a b.
Proof. unfold map2. now rewrite map_map. Qed.

Lemma map2_map_r {A B C D : Type} (f : A -> C -> D) (g : B -> C) (a : list A) (b : list B) :
  map2 f a (map g b) = map2 (fun x y => f x (g y)) a b.
Proof.
  unfold map2. revert b. induction a as [|x a IH]; intros [|y b]; simpl; try reflexivity.
  now rewrite IH.
Qed.

Lemma Forall2_map2 {A B C D : Type} (R : C -> D -> Prop) (f : A -> B -> C)
  (g : A -> B -> D) (a : list A) (b : list B) :
  (forall x y, In (x, y) (combine a b) -> R (f x y) (g x y)) ->
  Forall2 R (map2 f a b) (map2 g a b).
Proof.
  unfold map2. revert b. induction a as [|x a IH]; intros [|y b] Hfg; simpl; try constructor.
  - apply (Hfg x y). now left.
  - apply IH. intros x' y' Hin. apply Hfg. now right.
Qed.

(** *** Broadcasting between arrays of one shape *)

Lemma zip_with_ok {A B C : Type} (f : A -> B -> result C) (g : A -> B -> C)
  (a : list A) (b : list B) :
  (forall x y, In (x, y) (combine a b) -> f x y = Ok (g x y)) ->
  zip_with f a b = Ok (map2 g a b).
Proof.
  unfold map2. revert b. induction a as [|x a IH]; intros [|y b] Hfg; simpl; try reflexivity.
  rewrite (Hfg x y) by now left. simpl.
  rewrite IH; [reflexivity|]. intros x' y' Hin. apply Hfg. now right.
Qed.

Lemma broadcast_ok {A B C : Type} (f : A -> B -> result C) (g : A -> B -> C)
  (a : list A) (b : list B) :
  length a = length b ->
  (forall x y, In (x, y) (combine a b) -> f x y = Ok (g x y)) ->
  broadcast f a b = Ok (map2 g a b).
Proof.
  intros Hlen Hfg. unfold broadcast.
  rewrite Hlen, Nat.eqb_refl. now apply zip_with_ok.
Qed.

Lemma broadcast1_ok (f : Q -> Q -> Q) (a b : array1) :
  length a = length b -> broadcast1 f a b = Ok (map2 f a b).
Proof.
  intros Hlen. apply broadcast_ok; [exact Hlen | reflexivity].
Qed.

Lemma broadcast2_ok (f : Q -> Q -> Q) (rows columns : nat) (m n : array2) :
  shape2 rows columns m -> shape2 rows columns n ->
  broadcast2 f m n = Ok (map2 (map2 f) m n).
Proof.
  intros [Hm Hmr] [Hn Hnr].
  apply broadcast_ok; [transitivity rows; [exact Hm | symmetry; exact Hn]|].
  intros r r' Hin. apply broadcast1_ok.
  rewrite Forall_forall in Hmr, Hnr.
  rewrite (Hmr r) by (eapply in_combine_l; eassumption).
  rewrite (Hnr r') by (eapply in_combine_r; eassumption).
  reflexivity.
Qed.

Lemma broadcast3_ok (f : Q -> Q -> Q) (items rows columns : nat) (t u : array3) :
  shape3 items rows columns t -> shape3 items rows columns u ->
  broadcast3 f t u = Ok (map2 (map2 (map2 f)) t u).
Proof.
  intros [Ht Htr] [Hu Hur].
  apply broadcast_ok; [transitivity items; [exact Ht | symmetry; exact Hu]|].
  intros m n Hin. rewrite Forall_forall in Htr, Hur.
  apply (broadcast2_ok f rows columns).
  - apply Htr. eapply in_combine_l; eassumption.
  - apply Hur. eapply in_combine_r; eassumption.
Qed.

(** *** Scalars up to equality of rationals *)

Lemma Qis_zero_spec (q : Q) : Qis_zero q = true <-> q == 0.
Proof.
  unfold Qis_zero, Qeq. simpl. rewrite Z.eqb_eq. lia.
Qed.

Lemma Qis_zero_compat (p q : Q) : p == q -> Qis_zero p = Qis_zero q.
Proof.
  intros Hpq. apply eq_true_iff_eq. rewrite !Qis_zero_spec. now rewrite Hpq.
Qed.

Lemma Qis_neg_spec (q : Q) : Qis_neg q = true <-> (q < 0)%Q.
Proof.
  unfold Qis_neg, Qlt. simpl. rewrite Z.ltb_lt. lia.
Qed.

Lemma Qis_neg_compat (p q : Q) : p == q -> Qis_neg p = Qis_neg q.
Proof.
  intros Hpq. apply eq_true_iff_eq. rewrite !Qis_neg_spec. now rewrite Hpq.
Qed.

Lemma feq_refl (a : float) : feq a a.
Proof. destruct a; simpl; reflexivity || exact I. Qed.

Lemma feq_trans (a b c : float) : feq a b -> feq b c -> feq a c.
Proof.
  destruct a, b, c; simpl; try tauto; try congruence.
  intros Hab Hbc. now rewrite Hab.
Qed.

Lemma fdiv_compat (p p' q q' : Q) :
  p == p' -> q == q' -> feq (fdiv (Num p) (Num q)) (fdiv (Num p') (Num q')).
Proof.
  intros Hp Hq. unfold fdiv.
  rewrite (Qis_zero_compat q q' Hq), (Qis_zero_compat p p' Hp), (Qis_neg_compat p p' Hp).
  destruct (Qis_zero q'); [destruct (Qis_zero p'); simpl; trivial|].
  simpl. now rewrite Hp, Hq.
Qed.

Lemma batch_mean_compat (a b : list Q) :
  Forall2 Qeq a b -> feq (batch_mean a) (batch_mean b).
Proof.
  intros Hab. unfold batch_mean. apply fdiv_compat.
  - now apply Qsum_Forall2.
  - now rewrite (Forall2_length Hab).
Qed.

Lemma fadd_compat (a a' b b' : float) :
  feq a a' -> feq b b' -> feq (fadd a b) (fadd a' b').
Proof.
  destruct a, a', b, b'; simpl; try tauto; intros Ha Hb; subst;
    try (destruct (Bool.eqb _ _)); simpl; trivial.
  now rewrite Ha, Hb.
Qed.

Lemma fmul_compat (a a' b b' : float) :
  feq a a' -> feq b b' -> feq (fmul a b) (fmul a' b').
Proof.
  destruct a, a', b, b'; simpl; try tauto; intros Ha Hb; subst; simpl; trivial.
  - now rewrite Ha, Hb.
  - rewrite (Qis_zero_compat _ _ Ha), (Qis_neg_compat _ _ Ha).
    destruct (Qis_zero _); simpl; trivial.
  - rewrite (Qis_zero_compat _ _ Hb), (Qis_neg_compat _ _ Hb).
    destruct (Qis_zero _); simpl; trivial.
Qed.

Lemma fmul_comm (a b : float) : feq (fmul a b) (fmul b a).
Proof.
  destruct a, b; simpl; trivial.
  - apply Qmult_comm.
  - destruct (Qis_zero _); simpl; trivial.
  - destruct (Qis_zero _); simpl; trivial.
  - apply xorb_comm.
Qed.

(** *** The labeled loss on arrays of one shape *)

Lemma pow_abs (a : ndarray) : pow (abs a) 2 = map_entries square_of_abs a.
Proof.
  destruct a as [v | m | t]; unfold pow, abs, map_entries; f_equal.
  - now rewrite map_map.
  - rewrite map_map. apply map_ext. intros r. now rewrite map_map.
  - rewrite map_map. apply map_ext. intros m. rewrite map_map.
    apply map_ext. intros r. now rewrite map_map.
Qed.

Lemma shape2_map2 {A B C : Type} (f : A -> B -> C) (rows columns : nat)
  (m : list (list A)) (n : list (list B)) :
  shape2 rows columns m -> shape2 rows columns n ->
  shape2 rows columns (map2 (map2 f) m n).
Proof.
  intros [Hm Hmr] [Hn Hnr]. split.
  - rewrite length_map2; [exact Hm | now rewrite Hm, Hn].
  - unfold map2 at 1. rewrite Forall_map, Forall_forall. intros [r r'] Hin. simpl.
    rewrite Forall_forall in Hmr, Hnr.
    pose proof (Hmr r (in_combine_l _ _ _ _ Hin)) as Hr.
    pose proof (Hnr r' (in_combine_r _ _ _ _ Hin)) as Hr'.
    rewrite length_map2; [exact Hr | now rewrite Hr, Hr'].
Qed.

Lemma item_density_loss (rows columns : nat) (p d : array2) :
  shape2 rows columns p -> shape2 rows columns d ->
  Qsum (sum_rows (map (map square_of_abs) (map2 (map2 Qminus) p d))) == squared_error p d.
Proof.
  intros Hp Hd.
  rewrite (Qsum_sum_rows columns).
  - unfold squared_error. apply Qsum_concat_Forall2.
    rewrite map_map2. apply Forall2_map2. intros r r' _.
    rewrite map_map2. apply Forall2_map2. intros x y _.
    apply Qsquare_abs.
  - rewrite Forall_map. destruct (shape2_map2 Qminus rows columns p d Hp Hd) as [_ Hrows].
    revert Hrows. apply Forall_impl. intros r Hr. now rewrite length_map.
Qed.

Lemma item_count_loss (rows columns : nat) (c : Q) (d : array2) :
  shape2 rows columns d ->
  square_of_abs (c - Qsum (sum_rows d)) == squared_count_error c d.
Proof.
  intros [_ Hd]. unfold square_of_abs, squared_count_error.
  rewrite Qsquare_abs. apply Qsquare_compat.
  now rewrite (Qsum_sum_rows columns).
Qed.

Lemma labeled_loss_function_losses (items rows columns : nat)
  (predicted_densities : array3) (predicted_counts : array1) (labels : array3)
  (order : Q) :
  shape3 items rows columns predicted_densities ->
  shape3 items rows columns labels ->
  length predicted_counts = items ->
  result_feq (labeled_loss_function (predicted_densities, predicted_counts) labels order)
             (Ok (fadd (count_loss_of predicted_counts labels)
                       (fmul (density_loss_of predicted_densities labels) (Num 10)))).
Proof.
  intros Hp Hl Hc. unfold labeled_loss_function. cbn [fst snd].
  unfold sub at 1. cbn [binop as3].
  rewrite (broadcast3_ok Qminus items rows columns) by assumption.
  cbn [fmap bind]. rewrite pow_abs. cbn [map_entries sum_axis1 bind].
  unfold sub. cbn [binop].
  rewrite broadcast1_ok
    by (rewrite !length_map; transitivity items; [exact Hc | symmetry; exact (proj1 Hl)]).
  cbn [fmap bind]. rewrite pow_abs. cbn [map_entries result_feq].
  apply fadd_compat; [|apply fmul_compat; [|apply feq_refl]].
  - change (mean (A1 ?v)) with (batch_mean v).
    unfold count_loss_of. apply batch_mean_compat.
    rewrite map_map, map2_map_r, map_map2. apply Forall2_map2.
    intros c d Hin. destruct Hl as [_ Hl]. rewrite Forall_forall in Hl.
    apply (item_count_loss rows columns). apply Hl.
    eapply in_combine_r; eassumption.
  - change (mean (A1 ?v)) with (batch_mean v).
    unfold density_loss_of. apply batch_mean_compat.
    rewrite !map_map, map_map2. apply Forall2_map2.
    intros p d Hin. destruct Hp as [_ Hp], Hl as [_ Hl].
    rewrite Forall_forall in Hp, Hl.
    apply (item_density_loss rows columns).
    + apply Hp. eapply in_combine_l; eassumption.
    + apply Hl. eapply in_combine_r; eassumption.
Qed.

Lemma result_feq_Ok (r : result float) (x y : float) :
  result_feq r (Ok x) -> feq x y -> result_feq r (Ok y).
Proof.
  destruct r as [v|e]; simpl; [apply feq_trans | tauto].
Qed.

Lemma Qsum_item_loss (predicted_densities : array3) (predicted_counts : array1)
  (labels : array3) :
  length predicted_densities = length labels ->
  length predicted_counts = length labels ->
  Qsum (map2 item_loss (combine predicted_densities predicted_counts) labels)
  == Qsum (map2 squared_count_error predicted_counts labels)
     + 10 * Qsum (map2 squared_error predicted_densities labels).
Proof.
  revert predicted_densities predicted_counts.
  induction labels as [|d labels IH]; intros [|p ps] [|c cs] Hp Hc; try discriminate.
  - unfold map2. simpl. ring.
  - unfold map2 in *. simpl.
    rewrite IH; [| now injection Hp | now injection Hc].
    unfold item_loss. simpl. ring.
Qed.

Lemma mean_of_sum (a b s n : Q) :
  s == a + 10 * b ->
  (n == 0 -> a == 0 /\ b == 0) ->
  feq (fadd (fdiv (Num a) (Num n)) (fmul (fdiv (Num b) (Num n)) (Num 10)))
      (fdiv (Num s) (Num n)).
Proof.
  intros Hs Hn. unfold fdiv.
  destruct (Qis_zero n) eqn:En.
  - apply Qis_zero_spec in En. destruct (Hn En) as [Ha Hb].
    assert (Hs0 : s == 0) by (rewrite Hs, Ha, Hb; ring).
    apply Qis_zero_spec in Ha, Hb, Hs0. rewrite Ha, Hb, Hs0. exact I.
  - assert (Hn0 : ~ n == 0).
    { intros H0. apply Qis_zero_spec in H0. congruence. }
    simpl. rewrite Hs. field. exact Hn0.
Qed.

Lemma length_zero_sums (values : list Q) :
  inject_Z (Z.of_nat (length values)) == 0 -> Qsum values == 0.
Proof.
  destruct values as [|q values]; [reflexivity|].
  unfold Qeq. simpl. lia.
Qed.

Lemma batch_mean_item_loss (predicted_densities : array3) (predicted_counts : array1)
  (labels : array3) :
  length predicted_densities = length labels ->
  length predicted_counts = length labels ->
  feq (fadd (count_loss_of predicted_counts labels)
            (fmul (density_loss_of predicted_densities labels) (Num 10)))
      (mean_item_loss (predicted_densities, predicted_counts) labels).
Proof.
  intros Hlp Hlc.
  unfold count_loss_of, density_loss_of, mean_item_loss, batch_mean. cbn [fst snd].
  assert (H1 : length (map2 squared_count_error predicted_counts labels) = length labels)
    by (etransitivity; [apply length_map2; exact Hlc | exact Hlc]).
  assert (H2 : length (map2 squared_error predicted_densities labels) = length labels)
    by (etransitivity; [apply length_map2; exact Hlp | exact Hlp]).
  assert (Hcombine : length (combine predicted_densities predicted_counts) = length labels)
    by (rewrite length_combine, Hlp, Hlc; apply Nat.min_id).
  assert (H3 : length (map2 item_loss (combine predicted_densities predicted_counts) labels)
               = length labels)
    by (etransitivity; [apply length_map2; exact Hcombine | exact Hcombine]).
  rewrite H1, H2, H3.
  apply mean_of_sum.
  - now apply Qsum_item_loss.
  - intros Hzero. split; apply length_zero_sums; rewrite ?H1, ?H2; exact Hzero.
Qed.

(** C3, as amended: for a batch of predicted densities and counts and true
    densities of one shape, the labeled loss is the mean over the batch of
    (predicted count - true count)^2 + 10 x the sum over the pixels of
    (predicted density - true density)^2, the true count being the sum of the
    true density over the spatial dimensions. *)
Theorem labeled_loss_is_mean_item_loss (items rows columns : nat)
  (predicted_densities : array3) (predicted_counts : array1) (labels : array3)
  (order : Q) :
  shape3 items rows columns predicted_densities ->
  shape3 items rows columns labels ->
  length predicted_counts = items ->
  result_feq (labeled_loss_function (predicted_densities, predicted_counts) labels order)
             (Ok (mean_item_loss (predicted_densities, predicted_counts) labels)).
Proof.
  intros Hp Hl Hc.
  eapply result_feq_Ok.
  - apply (labeled_loss_function_losses items rows columns); assumption.
  - apply batch_mean_item_loss.
    + transitivity items; [exact (proj1 Hp) | symmetry; exact (proj1 Hl)].
    + transitivity items; [exact Hc | symmetry; exact (proj1 Hl)].
Qed.

Lemma labeled_loss_is_mean_item_loss_witness :
  result_feq (labeled_loss_function ([zero_patch], [0%Q]) [unit_density] 2)
             (Ok (mean_item_loss ([zero_patch], [0%Q]) [unit_density])).
Proof.
  apply (labeled_loss_is_mean_item_loss 1 2 2); repeat constructor.
Defined.

(** C3, as stated, fails: with the mean over the pixels in place of their sum,
    the formula gives 26 for a single all-zero 2 x 2 predicted patch with
    predicted count 0 against a true density of ones, where the labeled loss
    is 56. *)
Lemma labeled_loss_not_mean_per_pixel :
  labeled_loss_function ([zero_patch], [0%Q]) [unit_density] 2 = Ok (Num 56) /\
  feq (mean_item_loss_mean_per_pixel ([zero_patch], [0%Q]) [unit_density]) (Num 26) /\
  ~ result_feq (labeled_loss_function ([zero_patch], [0%Q]) [unit_density] 2)
               (Ok (mean_item_loss_mean_per_pixel ([zero_patch], [0%Q]) [unit_density])).
Proof.
  split; [reflexivity|]. split; [reflexivity|].
  vm_compute. discriminate.
Qed.

(** C4: for a batch of one shape the labeled loss is count_loss + 10 *
    density_loss, where density_loss is the batch mean of the per-item spatial
    sum of the squared density differences and count_loss the batch mean of
    the squared count differences. For a single all-zero 2 x 2 predicted
    patch, a true density of ones and a predicted count of 0 it is exactly 56:
    a count_loss of 16 plus 10 times a density_loss of 4. *)
Theorem labeled_loss_is_count_loss_plus_ten_density_loss (items rows columns : nat)
  (predicted_densities : array3) (predicted_counts : array1) (labels : array3)
  (order : Q) :
  shape3 items rows columns predicted_densities ->
  shape3 items rows columns labels ->
  length predicted_counts = items ->
  result_feq (labeled_loss_function (predicted_densities, predicted_counts) labels order)
             (Ok (fadd (count_loss_of predicted_counts labels)
                       (fmul (Num 10) (density_loss_of predicted_densities labels)))) /\
  labeled_loss_function ([zero_patch], [0%Q]) [unit_density] order = Ok (Num 56) /\
  count_loss_of [0%Q] [unit_density] = Num 16 /\
  density_loss_of [zero_patch] [unit_density] = Num 4.
Proof.
  intros Hp Hl Hc. split; [|repeat split; reflexivity].
  eapply result_feq_Ok.
  - apply (labeled_loss_function_losses items rows columns); assumption.
  - apply fadd_compat; [apply feq_refl | apply fmul_comm].
Qed.

Lemma labeled_loss_is_count_loss_plus_ten_density_loss_witness :
  result_feq (labeled_loss_function ([zero_patch], [0%Q]) [unit_density] 2)
             (Ok (fadd (count_loss_of [0%Q] [unit_density])
                       (fmul (Num 10) (density_loss_of [zero_patch] [unit_density])))) /\
  labeled_loss_function ([zero_patch], [0%Q]) [unit_density] 2 = Ok (Num 56) /\
  count_loss_of [0%Q] [unit_density] = Num 16 /\
  density_loss_of [zero_patch] [unit_density] = Num 4.
Proof.
  apply (labeled_loss_is_count_loss_plus_ten_density_loss 1 2 2); repeat constructor.
Defined.

(** C10: the [order] argument of the labeled loss does not enter its result;
    the exponent is 2 whatever [order] is. *)
Theorem labeled_loss_ignores_order (predicted_labels : array3 * array1)
  (labels : array3) (order order' : Q) :
  labeled_loss_function predicted_labels labels order
  = labeled_loss_function predicted_labels labels order'.
Proof. reflexivity. Qed.

(** ** Overlap normalization *)

Lemma shape2_map {A B : Type} (f : A -> B) (rows columns : nat) (m : list (list A)) :
  shape2 rows columns m -> shape2 rows columns (map (map f) m).
Proof.
  intros [Hm Hr]. split.
  - now rewrite length_map.
  - rewrite Forall_map. revert Hr. apply Forall_impl. intros r Hr. now rewrite length_map.
Qed.

Lemma entry_map {A B : Type} (f : A -> B) (m : list (list A)) (i j : nat) :
  entry (map (map f) m) i j = option_map f (entry m i j).
Proof.
  unfold entry. rewrite nth_error_map.
  destruct (nth_error m i) as [r|]; simpl; [apply nth_error_map | reflexivity].
Qed.

Lemma clamped_hit_nonzero (h : Z) : (if h =? 0 then 1 else h) <> 0.
Proof. destruct (Z.eqb_spec h 0); lia. Qed.

Lemma inject_Z_nonzero (h : Z) : h <> 0 -> ~ inject_Z h == 0.
Proof. unfold Qeq. simpl. lia. Qed.

Lemma map2_ext_in {A B C : Type} (f g : A -> B -> C) (a : list A) (b : list B) :
  (forall x y, In (x, y) (combine a b) -> f x y = g x y) -> map2 f a b = map2 g a b.
Proof.
  intros Hfg. unfold map2. apply map_ext_in. intros [x y] Hin. now apply Hfg.
Qed.

Lemma fdiv_by_clamped_hit (p : Q) (h : Z) :
  fdiv (Num p) (Num (inject_Z (if h =? 0 then 1 else h))) = Num (clamped_quotient p h).
Proof.
  unfold fdiv, clamped_quotient.
  destruct (Qis_zero (inject_Z (if h =? 0 then 1 else h))) eqn:E; [|reflexivity].
  apply Qis_zero_spec in E. exfalso. revert E. apply inject_Z_nonzero, clamped_hit_nonzero.
Qed.

Lemma true_divide_by_clamped_hits (rows columns : nat) (m : array2) (hits : list (list Z)) :
  shape2 rows columns m -> shape2 rows columns hits ->
  true_divide m (astype_float (clamp_hits hits))
  = Ok (map2 (map2 (fun p h => Num (clamped_quotient p h))) m hits).
Proof.
  intros [Hm Hmr] [Hh Hhr]. unfold true_divide, astype_float, clamp_hits.
  rewrite (broadcast_ok _ (map2 (fun p q => fdiv (Num p) (Num q)))).
  - f_equal. rewrite !map2_map_r. apply map2_ext_in. intros r hr _.
    rewrite !map2_map_r. apply map2_ext_in. intros p h _. apply fdiv_by_clamped_hit.
  - rewrite !length_map. transitivity rows; [exact Hm | symmetry; exact Hh].
  - intros r r' Hin. apply broadcast_ok; [|reflexivity].
    rewrite Forall_forall in Hmr. rewrite (Hmr r) by (eapply in_combine_l; eassumption).
    apply in_combine_r in Hin. apply in_map_iff in Hin as (r1 & <- & Hin).
    apply in_map_iff in Hin as (r2 & <- & Hin). rewrite !length_map.
    rewrite Forall_forall in Hhr. symmetry. now apply Hhr.
Qed.

Lemma fold_fadd_numbers (v : list Q) (start : Q) :
  fold_left fadd (map Num v) (Num start) = Num (fold_left Qplus v start).
Proof.
  revert start. induction v as [|q v IH]; intros start; [reflexivity|].
  cbn [map fold_left fadd]. apply IH.
Qed.

Lemma fold_Qplus_Qsum (v : list Q) (start : Q) : fold_left Qplus v start == start + Qsum v.
Proof.
  revert start. induction v as [|q v IH]; intros start; cbn [fold_left Qsum fold_right].
  - ring.
  - rewrite IH. fold (Qsum v). ring.
Qed.

Lemma fsum_numbers (m : list (list Q)) :
  feq (fsum (concat (map (map Num) m))) (Num (spatial_sum m)).
Proof.
  unfold fsum, spatial_sum. rewrite <- concat_map, fold_fadd_numbers.
  cbn [feq]. rewrite fold_Qplus_Qsum. ring.
Qed.

(** C5: in the normalization every hit count of zero is replaced by one before
    the division, and no entry of the array divided by is zero: no entry of
    the results is NaN or an infinity. The density map is the accumulated
    density divided entry by entry by the clamped hit counts, and the count is
    the sum over all pixels of the accumulated count contributions divided
    entry by entry by the clamped hit counts. *)
Theorem normalize_divides_by_clamped_hits (rows columns : nat)
  (buffers : AggregationBuffers) :
  shape2 rows columns (sum_density_label buffers) ->
  shape2 rows columns (sum_count_label buffers) ->
  shape2 rows columns (hit_predicted_label buffers) ->
  Forall (Forall (fun divisor => ~ divisor == 0))
         (astype_float (clamp_hits (hit_predicted_label buffers))) /\
  exists full_predicted_count,
    normalize buffers
    = Ok (map (map (fun h => if h =? 0 then 1 else h)) (hit_predicted_label buffers),
          map2 (map2 (fun density h => Num (clamped_quotient density h)))
               (sum_density_label buffers) (hit_predicted_label buffers),
          full_predicted_count) /\
    feq full_predicted_count
        (Num (spatial_sum (map2 (map2 clamped_quotient) (sum_count_label buffers)
                                (hit_predicted_label buffers)))).
Proof.
  intros Hdensity Hcount Hhits. split.
  - unfold astype_float, clamp_hits. rewrite !Forall_map. apply Forall_forall.
    intros r _. rewrite !Forall_map. apply Forall_forall. intros h _.
    apply inject_Z_nonzero, clamped_hit_nonzero.
  - unfold normalize.
    rewrite (true_divide_by_clamped_hits rows columns) by assumption. cbn [bind].
    rewrite (true_divide_by_clamped_hits rows columns) by assumption. cbn [bind].
    eexists. split; [reflexivity|].
    replace (map2 (map2 (fun p h => Num (clamped_quotient p h))) (sum_count_label buffers)
                  (hit_predicted_label buffers))
      with (map (map Num) (map2 (map2 clamped_quotient) (sum_count_label buffers)
                                (hit_predicted_label buffers))).
    + apply fsum_numbers.
    + rewrite map_map2. apply map2_ext_in. intros r hr _. apply map_map2.
Qed.

Lemma normalize_divides_by_clamped_hits_witness :
  Forall (Forall (fun divisor => ~ divisor == 0))
         (astype_float (clamp_hits (hit_predicted_label sample_buffers))) /\
  exists full_predicted_count,
    normalize sample_buffers
    = Ok (map (map (fun h => if h =? 0 then 1 else h)) (hit_predicted_label sample_buffers),
          map2 (map2 (fun density h => Num (clamped_quotient density h)))
               (sum_density_label sample_buffers) (hit_predicted_label sample_buffers),
          full_predicted_count) /\
    feq full_predicted_count
        (Num (spatial_sum (map2 (map2 clamped_quotient) (sum_count_label sample_buffers)
                                (hit_predicted_label sample_buffers)))).
Proof.
  apply (normalize_divides_by_clamped_hits 1 2 sample_buffers); repeat constructor.
Defined.

(** ** The evaluation epoch *)

Lemma chunk_spec {A : Type} (n : nat) (l : list A) :
  (0 < n)%nat ->
  forall current, (length current < n)%nat ->
    concat (chunk n l current) = current ++ l /\
    Forall (fun group => group <> []) (chunk n l current).
Proof.
  intros Hn. induction l as [|a l IH]; intros current Hcurrent.
  - destruct current as [|c current]; simpl.
    + split; [reflexivity | constructor].
    + split; [now rewrite !app_nil_r | repeat constructor; discriminate].
  - cbn [chunk]. destruct (Nat.eqb_spec (length (current ++ [a])) n) as [Hfull | Hroom].
    + destruct (IH [] Hn) as [Hconcat Hgroups]. split.
      * cbn [concat]. rewrite Hconcat. now rewrite <- app_assoc.
      * constructor; [|exact Hgroups]. now destruct current.
    + rewrite length_app in Hroom. cbn [length] in Hroom.
      destruct (IH (current ++ [a])) as [Hconcat Hgroups].
      * rewrite length_app. cbn [length]. lia.
      * split; [|exact Hgroups]. rewrite Hconcat. now rewrite <- app_assoc.
Qed.

Section PerfectNetwork.

Variables rows columns : nat.
Hypothesis rows_positive : (0 < rows)%nat.
Hypothesis columns_positive : (0 < columns)%nat.
Variable network : Network.

Lemma DataLoader_batches (dataset : list CrowdExample) (batch_size : Z) :
  0 < batch_size ->
  dataset <> [] ->
  Forall (fun example => shape2 rows columns (label example)) dataset ->
  exists batches,
    DataLoader dataset batch_size = Ok batches /\
    batches <> [] /\ Forall (well_formed rows columns) batches.
Proof.
  intros Hsize Hdataset Hshapes. unfold DataLoader.
  assert (Hleb : (batch_size <=? 0) = false) by lia. rewrite Hleb.
  eexists. split; [reflexivity|].
  destruct (chunk_spec (Z.to_nat batch_size) dataset ltac:(lia) [] ltac:(simpl; lia))
    as [Hconcat Hgroups].
  cbn [app] in Hconcat. split.
  - destruct (chunk (Z.to_nat batch_size) dataset []); [|discriminate].
    simpl in Hconcat. congruence.
  - rewrite Forall_map. rewrite Forall_forall in Hgroups |- *.
    intros group Hin. split; cbn [snd].
    + specialize (Hgroups group Hin). now destruct group.
    + rewrite Forall_map. rewrite Forall_forall in Hshapes |- *.
      intros example Hexample. apply Hshapes. rewrite <- Hconcat.
      apply in_concat. exists group. split; assumption.
Qed.

Lemma Forall_map2 {A B C : Type} (P : A -> Prop) (R : B -> Prop) (S : C -> Prop)
  (f : A -> B -> C) (a : list A) (b : list B) :
  (forall x y, P x -> R y -> S (f x y)) ->
  Forall P a -> Forall R b -> Forall S (map2 f a b).
Proof.
  intros Hf Ha. revert b. unfold map2.
  induction Ha as [|x a Hx _ IH]; intros b Hb; [constructor|].
  destruct Hb as [|y b Hy Hb]; simpl; constructor; auto.
Qed.

Lemma Forall_map2_self {A C : Type} (S : C -> Prop) (P : A -> Prop) (f : A -> A -> C)
  (a : list A) :
  (forall x, P x -> S (f x x)) -> Forall P a -> Forall S (map2 f a a).
Proof.
  intros Hf. unfold map2. induction 1 as [|x a Hx _ IH]; simpl; constructor; auto.
Qed.

Lemma zeros_sum_rows (m : array2) : Forall zeros m -> zeros (sum_rows m).
Proof.
  induction 1 as [|r m Hr Hm IH]; [constructor|].
  destruct m as [|r' m]; [exact Hr|].
  rewrite sum_rows_map2 by congruence.
  apply (Forall_map2 (fun q => q == 0) (fun q => q == 0)); [|exact Hr|exact IH].
  intros x y Hx Hy. rewrite Hx, Hy. ring.
Qed.

Lemma zeros_map (f : Q -> Q) (v : list Q) :
  (forall q, q == 0 -> f q == 0) -> zeros v -> zeros (map f v).
Proof.
  intros Hf Hv. unfold zeros. rewrite Forall_map. revert Hv. apply Forall_impl. exact Hf.
Qed.

Lemma Qabs_zero (q : Q) : q == 0 -> Qabs q == 0.
Proof. intros ->. reflexivity. Qed.

Lemma square_of_abs_zero (q : Q) : q == 0 -> square_of_abs q == 0.
Proof. intros Hq. unfold square_of_abs. rewrite Qsquare_abs, (Qsquare_compat q 0 Hq). reflexivity. Qed.

Lemma mean_zeros (v : list Q) : v <> [] -> zeros v -> feq (mean (A1 v)) (Num 0).
Proof.
  intros Hv Hzeros. unfold mean, sum, size, flatten, fdiv.
  destruct v as [|q v]; [congruence|].
  assert (Hn : Qis_zero (inject_Z (Z.of_nat (length (q :: v)))) = false).
  { unfold Qis_zero, inject_Z. cbn [Qnum]. apply Z.eqb_neq. cbn [length]. lia. }
  rewrite Hn. cbn [feq]. rewrite (Qsum_zero _ Hzeros). unfold Qdiv. ring.
Qed.

(** The difference of an array of densities with itself, summed over each
    item after [f], is zero for every item. *)
Lemma self_difference_zero (f : Q -> Q) (t : array3) :
  (forall q, q == 0 -> f q == 0) ->
  zeros (map Qsum (map sum_rows (map (map (map f)) (map2 (map2 (map2 Qminus)) t t)))).
Proof.
  intros Hf. unfold zeros. rewrite !Forall_map.
  apply (Forall_map2_self _ (fun _ => True)); [|apply Forall_forall; trivial].
  intros m _. apply Qsum_zero. apply zeros_sum_rows. rewrite Forall_map.
  apply (Forall_map2_self _ (fun _ => True)); [|apply Forall_forall; trivial].
  intros r _. apply zeros_map; [exact Hf|].
  apply (Forall_map2_self _ (fun _ => True)); [|apply Forall_forall; trivial].
  intros x _. ring.
Qed.

(** The difference between counts that equal the spatial sums is zero. *)
Lemma count_difference_zero (f : Q -> Q) (counts : array1) (densities : array3) :
  (forall q, q == 0 -> f q == 0) ->
  Forall (shape2 rows columns) densities ->
  Forall2 Qeq counts (map spatial_sum densities) ->
  zeros (map f (map2 Qminus counts (map Qsum (map sum_rows densities)))).
Proof.
  intros Hf Hshapes Hcounts. apply zeros_map; [exact Hf|].
  rewrite map_map, map2_map_r. unfold zeros, map2. rewrite Forall_map.
  revert counts Hcounts.
  induction Hshapes as [|d densities Hd _ IH]; intros counts Hcounts;
    inversion Hcounts as [|c ? cs ? Hc Hcs]; subst; simpl; constructor.
  - simpl. rewrite (Qsum_sum_rows columns) by exact (proj2 Hd). rewrite Hc. ring.
  - apply IH. exact Hcs.
Qed.

Lemma size_positive (densities : array3) :
  densities <> [] -> Forall (shape2 rows columns) densities ->
  Nat.eqb (size (A3 densities)) 0 = false.
Proof.
  intros Hne Hshapes. destruct densities as [|d densities]; [congruence|].
  apply Forall_cons_iff in Hshapes as [[Hrows Hcolumns] _].
  destruct d as [|r d]; [simpl in Hrows; lia|].
  apply Forall_cons_iff in Hcolumns as [Hr _].
  destruct r as [|q r]; [simpl in Hr; lia|]. reflexivity.
Qed.

Lemma accumulate_batch_consistent (acc : accumulators) (batch : list array3 * array3) :
  acc = (empty_array, empty_array, empty_array) \/ consistent rows columns acc ->
  well_formed rows columns batch ->
  fst (network (fst batch)) = snd batch /\
  Forall2 Qeq (snd (network (fst batch))) (map spatial_sum (snd batch)) ->
  exists acc', accumulate_batch network acc batch = Ok acc' /\ consistent rows columns acc'.
Proof.
  intros Hacc [Hne Hshapes] [Hdensities Hcounts].
  destruct batch as [images labels]. cbn [fst snd] in *.
  unfold accumulate_batch, images_to_predicted_labels.
  destruct (network images) as [predicted_densities predicted_counts].
  cbn [fst snd] in *. subst predicted_densities.
  destruct Hacc as [-> | (counts & densities & -> & Hne' & Hshapes' & Hcounts')].
  - eexists. split; [reflexivity|].
    exists predicted_counts, labels. repeat split; assumption.
  - cbn [concatenate bind]. rewrite size_positive by assumption. cbn [bind].
    eexists. split; [reflexivity|].
    exists (counts ++ predicted_counts), (densities ++ labels). repeat split.
    + now destruct densities.
    + apply Forall_app. split; assumption.
    + rewrite map_app. apply Forall2_app; assumption.
Qed.

Lemma accumulate_consistent (batches : list (list array3 * array3)) :
  Forall (well_formed rows columns) batches ->
  perfect_on network batches ->
  forall acc,
    acc = (empty_array, empty_array, empty_array) \/ consistent rows columns acc ->
    exists acc',
      accumulate network acc batches = Ok acc' /\
      (batches <> [] -> consistent rows columns acc').
Proof.
  unfold perfect_on.
  induction batches as [|batch batches IH]; intros Hwell Hperfect acc Hacc.
  - exists acc. split; [reflexivity | congruence].
  - apply Forall_cons_iff in Hwell as [Hbatch Hwell].
    apply Forall_cons_iff in Hperfect as [Hnet Hperfect].
    destruct (accumulate_batch_consistent acc batch Hacc Hbatch Hnet) as (acc1 & Hstep & Hacc1).
    cbn [accumulate]. rewrite Hstep. cbn [bind].
    destruct (IH Hwell Hperfect acc1 (or_intror Hacc1)) as (acc' & Hrest & Hacc').
    exists acc'. split; [exact Hrest|]. intros _.
    destruct batches as [|b batches]; [|apply Hacc'; discriminate].
    simpl in Hrest. now injection Hrest as <-.
Qed.

Lemma nonempty_of_length {A B : Type} (a : list A) (b : list B) :
  length a = length b -> b <> [] -> a <> [].
Proof. destruct a, b; simpl; congruence. Qed.

Section Statistics.

Variables (counts : array1) (densities : array3).
Hypothesis densities_nonempty : densities <> [].
Hypothesis densities_shapes : Forall (shape2 rows columns) densities.
Hypothesis counts_perfect : Forall2 Qeq counts (map spatial_sum densities).

Lemma counts_length : length counts = length (map Qsum (map sum_rows densities)).
Proof.
  rewrite !length_map. rewrite (Forall2_length counts_perfect). now rewrite length_map.
Qed.

Lemma densities_shape3 : shape3 (length densities) rows columns densities.
Proof. split; [reflexivity | exact densities_shapes]. Qed.

Lemma count_mae_perfect :
  exists value, count_mae (A1 counts) (A3 densities) = Ok value /\ feq value (Num 0).
Proof.
  unfold count_mae, sub. cbn [sum_axis1 bind binop].
  rewrite broadcast1_ok by exact counts_length. cbn [fmap bind].
  eexists. split; [reflexivity|]. cbn [abs map_entries]. apply mean_zeros.
  - eapply nonempty_of_length; [|exact densities_nonempty].
    rewrite length_map, length_map2 by exact counts_length.
    rewrite (Forall2_length counts_perfect). now rewrite length_map.
  - apply count_difference_zero; [apply Qabs_zero | assumption | assumption].
Qed.

Lemma count_mse_perfect :
  exists value, count_mse (A1 counts) (A3 densities) = Ok value /\ feq value (Num 0).
Proof.
  unfold count_mse, sub. cbn [sum_axis1 bind binop].
  rewrite broadcast1_ok by exact counts_length. cbn [fmap bind].
  eexists. split; [reflexivity|]. rewrite pow_abs. cbn [map_entries]. apply mean_zeros.
  - eapply nonempty_of_length; [|exact densities_nonempty].
    rewrite length_map, length_map2 by exact counts_length.
    rewrite (Forall2_length counts_perfect). now rewrite length_map.
  - apply count_difference_zero; [apply square_of_abs_zero | assumption | assumption].
Qed.

Lemma density_mae_perfect :
  exists value, density_mae (A3 densities) (A3 densities) = Ok value /\ feq value (Num 0).
Proof.
  unfold density_mae, sub. cbn [binop as3].
  rewrite (broadcast3_ok Qminus (length densities) rows columns)
    by exact densities_shape3.
  cbn [fmap bind abs map_entries sum_axis1].
  eexists. split; [reflexivity|]. apply mean_zeros.
  - eapply nonempty_of_length; [|exact densities_nonempty].
    rewrite !length_map. now apply length_map2.
  - apply self_difference_zero. apply Qabs_zero.
Qed.

Lemma density_mse_perfect :
  exists value, density_mse (A3 densities) (A3 densities) = Ok value /\ feq value (Num 0).
Proof.
  unfold density_mse, sub. cbn [binop as3].
  rewrite (broadcast3_ok Qminus (length densities) rows columns)
    by exact densities_shape3.
  cbn [fmap bind]. rewrite pow_abs. cbn [map_entries sum_axis1 bind].
  eexists. split; [reflexivity|]. apply mean_zeros.
  - eapply nonempty_of_length; [|exact densities_nonempty].
    rewrite !length_map. now apply length_map2.
  - apply self_difference_zero. apply square_of_abs_zero.
Qed.

End Statistics.

End PerfectNetwork.

(** C6, as amended: on a dataset that is not empty, of examples whose density
    labels have one shape with at least one pixel, loaded with a positive batch
    size, a network whose predicted density is the true density and whose
    predicted count is its spatial sum makes the evaluation epoch report a
    count MAE, a density MAE, a count MSE and a density MSE of zero, and
    return zero. *)
Theorem evaluation_epoch_perfect_network (rows columns : nat) (settings : Settings)
  (network : Network) (dataset : list CrowdExample) (summary_name : string)
  (comparison_value : option float) :
  (0 < rows)%nat ->
  (0 < columns)%nat ->
  0 < batch_size settings ->
  dataset <> [] ->
  Forall (fun example => shape2 rows columns (label example)) dataset ->
  (forall batches,
     DataLoader dataset (batch_size settings) = Ok batches -> perfect_on network batches) ->
  exists count_mae density_mae count_mse density_mse,
    evaluation_epoch settings network dataset summary_name comparison_value
    = ([add_scalar (summary_name ++ "/MAE")%string count_mae;
        add_scalar (summary_name ++ "/Density MAE")%string density_mae;
        add_scalar (summary_name ++ "/MSE")%string count_mse;
        add_scalar (summary_name ++ "/Density MSE")%string density_mse]
       ++ match comparison_value with
          | Some value =>
              [add_scalar (summary_name ++ "/Ratio MAE GAN DNN")%string
                          (fdiv count_mae value)]
          | None => []
          end,
       Ok count_mae) /\
    feq count_mae (Num 0) /\ feq density_mae (Num 0) /\
    feq count_mse (Num 0) /\ feq density_mse (Num 0).
Proof.
  intros Hrows Hcolumns Hsize Hdataset Hshapes Hperfect.
  destruct (DataLoader_batches rows columns Hrows Hcolumns dataset (batch_size settings)
              Hsize Hdataset Hshapes) as (batches & Hloader & Hbatches & Hwell).
  destruct (accumulate_consistent rows columns Hrows Hcolumns network batches Hwell
              (Hperfect batches Hloader) (empty_array, empty_array, empty_array)
              (or_introl eq_refl)) as (acc & Hacc & Hconsistent).
  destruct (Hconsistent Hbatches) as (counts & densities & -> & Hne & Hd & Hc).
  destruct (count_mae_perfect rows columns Hrows Hcolumns counts densities Hne Hd Hc)
    as (v1 & E1 & Z1).
  destruct (density_mae_perfect rows columns Hrows Hcolumns densities Hne Hd)
    as (v2 & E2 & Z2).
  destruct (count_mse_perfect rows columns Hrows Hcolumns counts densities Hne Hd Hc)
    as (v3 & E3 & Z3).
  destruct (density_mse_perfect rows columns Hrows Hcolumns densities Hne Hd)
    as (v4 & E4 & Z4).
  exists v1, v2, v3, v4. split; [|repeat split; assumption].
  unfold evaluation_epoch. rewrite Hloader. cbn [lift iobind]. rewrite Hacc.
  cbn [iobind]. rewrite E1, E2, E3, E4.
  destruct comparison_value; reflexivity.
Qed.

Lemma evaluation_epoch_perfect_network_witness :
  exists count_mae density_mae count_mse density_mse,
    evaluation_epoch (sample_settings "age" "ShanghaiTech" 2) echo_network sample_dataset
                     "1 Validation Error" None
    = ([add_scalar "1 Validation Error/MAE" count_mae;
        add_scalar "1 Validation Error/Density MAE" density_mae;
        add_scalar "1 Validation Error/MSE" count_mse;
        add_scalar "1 Validation Error/Density MSE" density_mse] ++ [],
       Ok count_mae) /\
    feq count_mae (Num 0) /\ feq density_mae (Num 0) /\
    feq count_mse (Num 0) /\ feq density_mse (Num 0).
Proof.
  apply (evaluation_epoch_perfect_network 2 2 (sample_settings "age" "ShanghaiTech" 2)
           echo_network sample_dataset "1 Validation Error" None).
  - lia.
  - lia.
  - reflexivity.
  - discriminate.
  - repeat constructor.
  - intros batches [= <-]. repeat constructor; reflexivity.
Defined.

(** C6, as stated, fails on the empty dataset, on which every prediction
    equals the ground truth: the loader yields no batch, the accumulators stay
    one-axis arrays, and the evaluation epoch raises on the sum over their
    second axis; it reports no statistic and returns nothing. *)
Lemma evaluation_epoch_empty_dataset :
  DataLoader [] (batch_size (sample_settings "age" "ShanghaiTech" 2)) = Ok [] /\
  perfect_on echo_network [] /\
  evaluation_epoch (sample_settings "age" "ShanghaiTech" 2) echo_network []
                   "1 Validation Error" None
  = ([], Raise AxisError).
Proof.
  split; [reflexivity|]. split; [constructor | reflexivity].
Qed.

(** ** Squaring the absolute difference *)

Lemma Forall2_map_same {A B C : Type} (R : B -> C -> Prop) (f : A -> B) (g : A -> C)
  (l : list A) :
  (forall x, R (f x) (g x)) -> Forall2 R (map f l) (map g l).
Proof.
  intros Hfg. induction l as [|x l IH]; simpl; constructor; auto.
Qed.

Lemma Forall2_map_both {A B C D : Type} (R : A -> B -> Prop) (S : C -> D -> Prop)
  (f : A -> C) (g : B -> D) (a : list A) (b : list B) :
  (forall x y, R x y -> S (f x) (g y)) -> Forall2 R a b -> Forall2 S (map f a) (map g b).
Proof.
  intros Hfg. induction 1 as [|x y a b Hxy _ IH]; simpl; constructor; auto.
Qed.

Lemma Forall2_concat_equiv {A B : Type} (R : A -> B -> Prop) (m : list (list A))
  (n : list (list B)) :
  Forall2 (Forall2 R) m n -> Forall2 R (concat m) (concat n).
Proof.
  induction 1 as [|r r' m n Hr _ IH]; simpl; [constructor|].
  apply Forall2_app; assumption.
Qed.

Lemma map_entries_equiv (f g : Q -> Q) (a : ndarray) :
  (forall q, f q == g q) -> array_equiv (map_entries f a) (map_entries g a).
Proof.
  intros Hfg. destruct a as [v | m | t]; cbn [map_entries array_equiv].
  - now apply Forall2_map_same.
  - apply Forall2_map_same. intros r. now apply Forall2_map_same.
  - apply Forall2_map_same. intros m. apply Forall2_map_same. intros r.
    now apply Forall2_map_same.
Qed.

Lemma Forall2_combine {A B C D : Type} (R : A -> B -> Prop) (S : C -> D -> Prop)
  (a : list A) (b : list B) (c : list C) (d : list D) :
  Forall2 R a b -> Forall2 S c d ->
  Forall2 (fun p q => R (fst p) (fst q) /\ S (snd p) (snd q)) (combine a c) (combine b d).
Proof.
  intros Hab. revert c d.
  induction Hab as [|x y a b Hxy _ IH]; intros c d Hcd; [constructor|].
  destruct Hcd as [|u v c d Huv Hcd]; simpl; constructor; auto.
Qed.

Lemma sum_rows_equiv (m n : array2) :
  Forall2 (Forall2 Qeq) m n -> Forall2 Qeq (sum_rows m) (sum_rows n).
Proof.
  induction 1 as [|r r' m n Hr Hmn IH]; [constructor|].
  destruct Hmn as [|s s' m n Hs Hmn]; [exact Hr|].
  rewrite !sum_rows_map2 by congruence.
  unfold map2. apply (Forall2_map_both (fun p q => fst p == fst q /\ snd p == snd q)).
  - intros [x y] [x' y'] [Hx Hy]. simpl in *. now rewrite Hx, Hy.
  - apply Forall2_combine; assumption.
Qed.

Lemma flatten_equiv (a b : ndarray) :
  array_equiv a b -> Forall2 Qeq (flatten a) (flatten b).
Proof.
  destruct a, b; cbn [array_equiv flatten]; try tauto.
  - apply Forall2_concat_equiv.
  - intros H. now do 2 apply Forall2_concat_equiv.
Qed.

Lemma mean_equiv (a b : ndarray) : array_equiv a b -> feq (mean a) (mean b).
Proof.
  intros Hab. apply flatten_equiv in Hab. unfold mean, sum, size.
  apply fdiv_compat.
  - now apply Qsum_Forall2.
  - now rewrite (Forall2_length Hab).
Qed.

Lemma sum_axis1_equiv (a b : ndarray) :
  array_equiv a b ->
  match sum_axis1 a, sum_axis1 b with
  | Ok x, Ok y => array_equiv x y
  | Raise e, Raise e' => e = e'
  | _, _ => False
  end.
Proof.
  destruct a, b; cbn [array_equiv sum_axis1]; try tauto.
  - apply Forall2_map_both. apply Qsum_Forall2.
  - apply Forall2_map_both. apply sum_rows_equiv.
Qed.

Lemma sum_axis1_twice_mean_equiv (a b : ndarray) :
  array_equiv a b ->
  result_feq (s <- sum_axis1 a ;; s' <- sum_axis1 s ;; Ok (mean s'))
             (s <- sum_axis1 b ;; s' <- sum_axis1 s ;; Ok (mean s')).
Proof.
  intros Hab. apply sum_axis1_equiv in Hab.
  destruct (sum_axis1 a) as [x|e], (sum_axis1 b) as [y|e']; cbn [bind result_feq];
    try tauto.
  apply sum_axis1_equiv in Hab.
  destruct (sum_axis1 x) as [x'|e], (sum_axis1 y) as [y'|e']; cbn [bind result_feq];
    try tauto.
  now apply mean_equiv.
Qed.

Lemma pow_abs_equiv (a : ndarray) : array_equiv (pow (abs a) 2) (pow a 2).
Proof.
  rewrite pow_abs. unfold pow. apply map_entries_equiv. intros q. apply Qsquare_abs.
Qed.

(** C7: the count MSE and the density MSE of the evaluation epoch, which
    square the absolute difference, equal the statistics that square the plain
    difference, on all arrays; for all rationals a and b, |a - b|^2 is
    (a - b)^2. *)
Theorem mse_of_absolute_difference_is_plain_mse
  (predicted_counts predicted_densities densities : ndarray) :
  result_feq (count_mse predicted_counts densities)
             (count_mse_plain predicted_counts densities) /\
  result_feq (density_mse predicted_densities densities)
             (density_mse_plain predicted_densities densities) /\
  (forall a b : Q, (Qabs (a - b)) ^ 2 == (a - b) ^ 2).
Proof.
  split; [|split].
  - unfold count_mse, count_mse_plain.
    destruct (sum_axis1 densities) as [s|e]; cbn [bind result_feq]; [|reflexivity].
    destruct (sum_axis1 s) as [true_counts|e]; cbn [bind result_feq]; [|reflexivity].
    destruct (sub predicted_counts true_counts) as [d|e]; cbn [bind result_feq];
      [|reflexivity].
    apply mean_equiv, pow_abs_equiv.
  - unfold density_mse, density_mse_plain.
    destruct (sub predicted_densities densities) as [d|e]; cbn [bind result_feq];
      [|reflexivity].
    apply sum_axis1_twice_mean_equiv, pow_abs_equiv.
  - intros a b. apply Qsquare_abs.
Qed.

(** ** Configuration errors *)

(** C8: a settings object whose application is neither 'coefficient' nor 'age'
    makes [run_srgan] raise a [ValueError] that names the application, after
    creating the trial directory and the two summary writers and before any
    dataset setup, model setup or training step; a crowd dataset name that is
    neither 'World Expo' nor 'ShanghaiTech' makes [dataset_setup] raise a
    [ValueError] that names it, before anything else happens. *)
Theorem unrecognized_names_raise_value_error
  (datetime_string : string) (cuda_is_available : bool)
  (summary_writer_step : Z -> Z) (stdin_lines : Z -> list string)
  (stdin_at_end_of_file : Z -> bool) (format_step : Z -> string) (fuel : nat)
  (run_settings : Settings) (self : Experiment) :
  application run_settings <> "coefficient" ->
  application run_settings <> "age" ->
  crowd_dataset (settings self) <> "World Expo" ->
  crowd_dataset (settings self) <> "ShanghaiTech" ->
  run_srgan datetime_string cuda_is_available summary_writer_step stdin_lines
            stdin_at_end_of_file format_step fuel run_settings
  = Some ([makedirs [logs_directory run_settings;
                     (trial_name run_settings ++ " " ++ datetime_string)%string;
                     temporary_directory run_settings];
           new_summary_writer [logs_directory run_settings;
                               (trial_name run_settings ++ " " ++ datetime_string)%string;
                               "DNN"];
           new_summary_writer [logs_directory run_settings;
                               (trial_name run_settings ++ " " ++ datetime_string)%string;
                               "GAN"]],
          Raise (ValueError ("`application` cannot be " ++ application run_settings ++ ".")%string)) /\
  (forall out r,
     run_srgan datetime_string cuda_is_available summary_writer_step stdin_lines
               stdin_at_end_of_file format_step fuel run_settings = Some (out, r) ->
     forallb (fun e => negb (sets_up_or_trains e)) out = true) /\
  dataset_setup self
  = ([], Raise (ValueError (crowd_dataset (settings self)
                            ++ " is not an understood crowd dataset.")%string)).
Proof.
  intros Hcoefficient Hage Hexpo Hshanghai.
  apply String.eqb_neq in Hcoefficient, Hage, Hexpo, Hshanghai.
  unfold run_srgan, dataset_setup.
  rewrite Hcoefficient, Hage, Hexpo, Hshanghai.
  split; [reflexivity|]. split; [|reflexivity].
  intros out r [= <- <-]. reflexivity.
Qed.

Lemma unrecognized_names_raise_value_error_witness :
  run_srgan "y2018m04d15h14m14s10" false (fun step => step) (fun _ => []) (fun _ => true)
            (fun _ => "0") 1 (sample_settings "crowd" "ShanghaiTech" 25)
  = Some ([makedirs ["logs"; "trial y2018m04d15h14m14s10"; "temporary"];
           new_summary_writer ["logs"; "trial y2018m04d15h14m14s10"; "DNN"];
           new_summary_writer ["logs"; "trial y2018m04d15h14m14s10"; "GAN"]],
          Raise (ValueError "`application` cannot be crowd.")) /\
  (forall out r,
     run_srgan "y2018m04d15h14m14s10" false (fun step => step) (fun _ => []) (fun _ => true)
               (fun _ => "0") 1 (sample_settings "crowd" "ShanghaiTech" 25) = Some (out, r) ->
     forallb (fun e => negb (sets_up_or_trains e)) out = true) /\
  dataset_setup (new_experiment (sample_settings "age" "UCF" 25))
  = ([], Raise (ValueError "UCF is not an understood crowd dataset.")).
Proof.
  apply (unrecognized_names_raise_value_error
           "y2018m04d15h14m14s10" false (fun step => step) (fun _ => []) (fun _ => true)
           (fun _ => "0") 1 (sample_settings "crowd" "ShanghaiTech" 25)
           (new_experiment (sample_settings "age" "UCF" 25)));
    discriminate.
Defined.

(** ** The unused parameters *)

(** C9: the [sliding_window_step] argument of [evaluate] does not enter its
    behavior. The scan, the aggregation buffers and the totals are computed
    without it, so two runs that differ only in it print the same totals, or
    raise the same error, or both come to no end. *)
Theorem evaluate_ignores_sliding_window_step
  (extract_patch_transform : CrowdExample -> Z -> Z -> CrowdExample)
  (test_transform : CrowdExample -> CrowdExample) (patch_size : Z) (DNN : Network)
  (ShanghaiTechDataset_test : list CrowdExample) (settings : Settings) (fuel : nat)
  (sliding_window_step sliding_window_step' : Z) :
  evaluate extract_patch_transform test_transform patch_size DNN ShanghaiTechDataset_test
           settings fuel sliding_window_step
  = evaluate extract_patch_transform test_transform patch_size DNN ShanghaiTechDataset_test
             settings fuel sliding_window_step'.
Proof. reflexivity. Qed.

(** * Further properties of the code *)

(** ** Signs of the loss and of the statistics *)

Lemma Qsum_nonneg (v : list Q) : Forall (fun q => (0 <= q)%Q) v -> (0 <= Qsum v)%Q.
Proof.
  induction 1 as [|q v Hq _ IH]; simpl; [apply Qle_refl|]. lra.
Qed.

Lemma Forall_concat {A : Type} (P : A -> Prop) (m : list (list A)) :
  Forall (Forall P) m -> Forall P (concat m).
Proof.
  induction 1 as [|r m Hr _ IH]; simpl; [constructor|].
  apply Forall_app. split; assumption.
Qed.

Lemma all_entries_flatten (P : Q -> Prop) (a : ndarray) :
  all_entries P a -> Forall P (flatten a).
Proof.
  destruct a as [v | m | t]; cbn [all_entries flatten]; intros H.
  - exact H.
  - now apply Forall_concat.
  - apply Forall_concat. apply Forall_concat.
    revert H. apply Forall_impl. intros m. apply Forall_impl. trivial.
Qed.

Lemma all_entries_map_entries (P : Q -> Prop) (f : Q -> Q) (a : ndarray) :
  (forall q, P (f q)) -> all_entries P (map_entries f a).
Proof.
  intros Hf. destruct a as [v | m | t]; cbn [all_entries map_entries];
    repeat (rewrite Forall_map; apply Forall_forall; intros ? _); apply Hf.
Qed.

Lemma sum_rows_nonneg (m : array2) :
  Forall (Forall (fun q => (0 <= q)%Q)) m -> Forall (fun q => (0 <= q)%Q) (sum_rows m).
Proof.
  induction 1 as [|r m Hr Hm IH]; [constructor|].
  destruct m as [|r' m]; [exact Hr|].
  rewrite sum_rows_map2 by congruence.
  apply (Forall_map2 (fun q => (0 <= q)%Q) (fun q => (0 <= q)%Q)); [|exact Hr|exact IH].
  intros x y Hx Hy. lra.
Qed.

Lemma sum_axis1_nonneg (a b : ndarray) :
  all_entries (fun q => (0 <= q)%Q) a -> sum_axis1 a = Ok b ->
  all_entries (fun q => (0 <= q)%Q) b.
Proof.
  destruct a as [v | m | t]; cbn [sum_axis1 all_entries]; intros Ha [= <-];
    cbn [all_entries]; rewrite Forall_map; revert Ha; apply Forall_impl.
  - apply Qsum_nonneg.
  - apply sum_rows_nonneg.
Qed.

Lemma mean_not_negative (a : ndarray) :
  all_entries (fun q => (0 <= q)%Q) a -> not_negative (mean a).
Proof.
  intros Ha. apply all_entries_flatten in Ha. unfold mean, sum, size.
  destruct (flatten a) as [|q v] eqn:E; [exact I|].
  unfold fdiv.
  assert (Hn : Qis_zero (inject_Z (Z.of_nat (length (q :: v)))) = false).
  { unfold Qis_zero, inject_Z. cbn [Qnum]. apply Z.eqb_neq. cbn [length]. lia. }
  rewrite Hn. cbn [not_negative].
  apply Qle_shift_div_l.
  - unfold Qlt, inject_Z. cbn [Qnum Qden length]. lia.
  - rewrite Qmult_0_l. now apply Qsum_nonneg.
Qed.

Lemma square_of_abs_nonneg (q : Q) : (0 <= square_of_abs q)%Q.
Proof.
  unfold square_of_abs. rewrite Qsquare_abs.
  change (0 <= q * q)%Q. destruct (Qlt_le_dec q 0) as [Hneg | Hpos].
  - setoid_replace (q * q)%Q with ((- q) * (- q))%Q by ring.
    apply Qmult_le_0_compat; lra.
  - apply Qmult_le_0_compat; assumption.
Qed.

Lemma pow_abs_nonneg (a : ndarray) : all_entries (fun q => (0 <= q)%Q) (pow (abs a) 2).
Proof. rewrite pow_abs. apply all_entries_map_entries, square_of_abs_nonneg. Qed.

Lemma abs_nonneg (a : ndarray) : all_entries (fun q => (0 <= q)%Q) (abs a).
Proof. apply all_entries_map_entries, Qabs_nonneg. Qed.

Lemma sum_axis1_twice_mean_not_negative (a : ndarray) (v : float) :
  all_entries (fun q => (0 <= q)%Q) a ->
  (s <- sum_axis1 a ;; s' <- sum_axis1 s ;; Ok (mean s')) = Ok v ->
  not_negative v.
Proof.
  intros Ha. destruct (sum_axis1 a) as [s|e] eqn:E1; cbn [bind]; [|discriminate].
  destruct (sum_axis1 s) as [s'|e] eqn:E2; cbn [bind]; [|discriminate].
  intros [= <-]. apply mean_not_negative.
  eapply sum_axis1_nonneg; [|exact E2]. eapply sum_axis1_nonneg; [|exact E1]. exact Ha.
Qed.

(** X1: the labeled loss is never negative: whenever it is returned it is a
    number that is not negative, NaN or plus infinity, whatever the shapes of
    its arguments. *)
Theorem labeled_loss_not_negative (predicted_labels : array3 * array1)
  (labels : array3) (order : Q) (loss : float) :
  labeled_loss_function predicted_labels labels order = Ok loss -> not_negative loss.
Proof.
  unfold labeled_loss_function.
  destruct (sub (A3 (fst predicted_labels)) (A3 labels)) as [d|e]; cbn [bind];
    [|discriminate].
  destruct (sum_axis1 (pow (abs d) 2)) as [d1|e] eqn:E1; cbn [bind]; [|discriminate].
  destruct (sum_axis1 d1) as [d2|e] eqn:E2; cbn [bind]; [|discriminate].
  destruct (sum_axis1 (A3 labels)) as [l1|e]; cbn [bind]; [|discriminate].
  destruct (sum_axis1 l1) as [l2|e]; cbn [bind]; [|discriminate].
  destruct (sub (A1 (snd predicted_labels)) l2) as [c|e]; cbn [bind]; [|discriminate].
  intros [= <-].
  pose proof (mean_not_negative (pow (abs c) 2) (pow_abs_nonneg c)) as Hcount.
  assert (Hdensity : not_negative (mean d2)).
  { apply mean_not_negative. eapply sum_axis1_nonneg; [|exact E2].
    eapply sum_axis1_nonneg; [|exact E1]. apply pow_abs_nonneg. }
  destruct (mean (pow (abs c) 2)) as [p| |[|]], (mean d2) as [q| |[|]];
    cbn [not_negative fadd fmul] in *; try tauto; try discriminate;
    try reflexivity; lra.
Qed.

Lemma labeled_loss_not_negative_witness :
  not_negative (Num 56).
Proof.
  apply (labeled_loss_not_negative ([zero_patch], [0%Q]) [unit_density] 2 (Num 56)).
  reflexivity.
Defined.

(** X2: no statistic of the evaluation epoch (count MAE, density MAE, count
    MSE, density MSE) is negative: when it is computed it is a number that is
    not negative, NaN or plus infinity, on all arrays. *)
Theorem evaluation_statistics_not_negative
  (predicted_counts predicted_densities densities : ndarray) (v : float) :
  count_mae predicted_counts densities = Ok v \/
  density_mae predicted_densities densities = Ok v \/
  count_mse predicted_counts densities = Ok v \/
  density_mse predicted_densities densities = Ok v ->
  not_negative v.
Proof.
  unfold count_mae, density_mae, count_mse, density_mse.
  intros [H | [H | [H | H]]].
  - destruct (sum_axis1 densities) as [s|e]; cbn [bind] in H; [|discriminate].
    destruct (sum_axis1 s) as [t|e]; cbn [bind] in H; [|discriminate].
    destruct (sub predicted_counts t) as [d|e]; cbn [bind] in H; [|discriminate].
    injection H as <-. apply mean_not_negative, abs_nonneg.
  - destruct (sub predicted_densities densities) as [d|e]; cbn [bind] in H;
      [|discriminate].
    eapply sum_axis1_twice_mean_not_negative; [|exact H]. apply abs_nonneg.
  - destruct (sum_axis1 densities) as [s|e]; cbn [bind] in H; [|discriminate].
    destruct (sum_axis1 s) as [t|e]; cbn [bind] in H; [|discriminate].
    destruct (sub predicted_counts t) as [d|e]; cbn [bind] in H; [|discriminate].
    injection H as <-. apply mean_not_negative, pow_abs_nonneg.
  - destruct (sub predicted_densities densities) as [d|e]; cbn [bind] in H;
      [|discriminate].
    eapply sum_axis1_twice_mean_not_negative; [|exact H]. apply pow_abs_nonneg.
Qed.

Lemma evaluation_statistics_not_negative_witness : not_negative (Num (12 # 1)).
Proof.
  apply (evaluation_statistics_not_negative (A1 [0%Q]) (A3 [zero_patch])
           (A3 [[[1; 2]; [3; 6]]%Q]) (Num (12 # 1))).
  left. reflexivity.
Defined.

(** ** The labeled loss of a perfect prediction *)

Lemma feq_sym (a b : float) : feq a b -> feq b a.
Proof. destruct a, b; simpl; try tauto; [now symmetry | congruence]. Qed.

Lemma Qsquare_nonneg (q : Q) : (0 <= q ^ 2)%Q.
Proof. rewrite <- Qsquare_abs. apply square_of_abs_nonneg. Qed.

Lemma Qsquare_zero_iff (q : Q) : q ^ 2 == 0 <-> q == 0.
Proof.
  change (q * q == 0 <-> q == 0). split.
  - intros H. destruct (Qmult_integral _ _ H); assumption.
  - intros ->. reflexivity.
Qed.

Lemma Qsum_zero_iff (v : list Q) :
  Forall (fun q => (0 <= q)%Q) v -> (Qsum v == 0 <-> zeros v).
Proof.
  intros Hv. split; [|apply Qsum_zero].
  induction Hv as [|q v Hq Hv IH]; intros Hsum; [constructor|].
  simpl in Hsum. pose proof (Qsum_nonneg v Hv) as Hs.
  constructor; [lra|]. apply IH. lra.
Qed.

Lemma zeros_concat_iff (m : array2) : zeros (concat m) <-> Forall zeros m.
Proof.
  unfold zeros. induction m as [|r m IH]; simpl.
  - split; constructor.
  - rewrite Forall_app, Forall_cons_iff, IH. reflexivity.
Qed.

Lemma Forall_map2_iff {A B C : Type} (P : C -> Prop) (f : A -> B -> C)
  (a : list A) (b : list B) :
  length a = length b ->
  (Forall P (map2 f a b) <-> Forall2 (fun x y => P (f x y)) a b).
Proof.
  unfold map2. revert b.
  induction a as [|x a IH]; intros [|y b] Hlen; try discriminate; simpl.
  - split; constructor.
  - rewrite Forall_cons_iff, IH by (now injection Hlen). split.
    + intros [H1 H2]. now constructor.
    + intros H. inversion H; subst. now split.
Qed.

Lemma Forall2_refine {A B : Type} (P : A -> Prop) (R : B -> Prop)
  (S T : A -> B -> Prop) (a : list A) (b : list B) :
  (forall x y, P x -> R y -> S x y -> T x y) ->
  Forall P a -> Forall R b -> Forall2 S a b -> Forall2 T a b.
Proof.
  intros Himp Ha Hb HS. revert Ha Hb.
  induction HS as [|x y a b Hxy _ IH]; intros Ha Hb; [constructor|].
  apply Forall_cons_iff in Ha as [Hx Ha]. apply Forall_cons_iff in Hb as [Hy Hb].
  constructor; auto.
Qed.

Lemma squared_row_zero_iff (r r' : list Q) :
  length r = length r' ->
  (zeros (map2 (fun p d => (p - d) ^ 2)%Q r r') <-> Forall2 Qeq r r').
Proof.
  intros Hlen. unfold zeros. rewrite Forall_map2_iff by exact Hlen.
  split; apply Forall2_impl; intros p d; rewrite Qsquare_zero_iff; intros H; lra.
Qed.

Lemma squared_error_nonneg (p d : array2) : (0 <= squared_error p d)%Q.
Proof.
  unfold squared_error, spatial_sum. apply Qsum_nonneg, Forall_concat.
  unfold map2 at 1. rewrite Forall_map. apply Forall_forall. intros [r r'] _.
  unfold map2. rewrite Forall_map. apply Forall_forall. intros [x y] _.
  apply Qsquare_nonneg.
Qed.

Lemma squared_error_zero_iff (rows columns : nat) (p d : array2) :
  shape2 rows columns p -> shape2 rows columns d ->
  (squared_error p d == 0 <-> Forall2 (Forall2 Qeq) p d).
Proof.
  intros [Hp Hpr] [Hd Hdr].
  assert (Hlen : length p = length d) by (now rewrite Hp, Hd).
  unfold squared_error, spatial_sum.
  rewrite Qsum_zero_iff.
  - rewrite zeros_concat_iff, (Forall_map2_iff _ _ _ _ Hlen). split.
    + apply (Forall2_refine (fun r => length r = columns) (fun r => length r = columns));
        [|assumption|assumption].
      intros r r' Hr Hr' H. apply squared_row_zero_iff; [now rewrite Hr, Hr' | exact H].
    + apply (Forall2_refine (fun r => length r = columns) (fun r => length r = columns));
        [|assumption|assumption].
      intros r r' Hr Hr' H. apply squared_row_zero_iff; [now rewrite Hr, Hr' | exact H].
  - apply Forall_concat. unfold map2 at 1. rewrite Forall_map. apply Forall_forall.
    intros [r r'] _. unfold map2. rewrite Forall_map. apply Forall_forall.
    intros [x y] _. apply Qsquare_nonneg.
Qed.

Lemma batch_mean_zero_iff (values : list Q) :
  values <> [] -> Forall (fun q => (0 <= q)%Q) values ->
  exists m, batch_mean values = Num m /\ (0 <= m)%Q /\ (m == 0 <-> zeros values).
Proof.
  intros Hne Hvalues. unfold batch_mean, fdiv.
  destruct values as [|q v]; [congruence|].
  assert (Hn : Qis_zero (inject_Z (Z.of_nat (length (q :: v)))) = false).
  { unfold Qis_zero, inject_Z. cbn [Qnum]. apply Z.eqb_neq. cbn [length]. lia. }
  rewrite Hn. eexists. split; [reflexivity|].
  assert (Hpos : (0 < inject_Z (Z.of_nat (length (q :: v))))%Q).
  { unfold Qlt, inject_Z. cbn [Qnum Qden length]. lia. }
  pose proof (Qsum_nonneg _ Hvalues) as Hsum.
  rewrite <- (Qsum_zero_iff _ Hvalues).
  set (n := inject_Z (Z.of_nat (length (q :: v)))) in *.
  set (s := Qsum (q :: v)) in *.
  split.
  - apply Qle_shift_div_l; [exact Hpos | lra].
  - split; intros H.
    + setoid_replace s with (s / n * n)%Q by (field; lra). rewrite H. ring.
    + rewrite H. field. lra.
Qed.

Lemma Forall2_map_right {A B C : Type} (R : A -> C -> Prop) (g : B -> C)
  (a : list A) (b : list B) :
  Forall2 R a (map g b) <-> Forall2 (fun x y => R x (g y)) a b.
Proof.
  revert b. induction a as [|x a IH]; intros [|y b]; simpl.
  - split; constructor.
  - split; intros H; inversion H.
  - split; intros H; inversion H.
  - split; intros H; inversion H; subst; constructor; try assumption; now apply IH.
Qed.

Lemma count_errors_zero_iff (rows columns : nat) (counts : array1) (labels : array3) :
  length counts = length labels ->
  (zeros (map2 squared_count_error counts labels)
   <-> Forall2 Qeq counts (map spatial_sum labels)).
Proof.
  intros Hlen. unfold zeros. rewrite (Forall_map2_iff _ _ _ _ Hlen).
  rewrite Forall2_map_right.
  split; apply Forall2_impl; intros c d; unfold squared_count_error;
    rewrite Qsquare_zero_iff; intros H; lra.
Qed.

Lemma density_errors_zero_iff (rows columns : nat) (predicted labels : array3) :
  length predicted = length labels ->
  Forall (shape2 rows columns) predicted ->
  Forall (shape2 rows columns) labels ->
  (zeros (map2 squared_error predicted labels)
   <-> Forall2 (Forall2 (Forall2 Qeq)) predicted labels).
Proof.
  intros Hlen Hp Hl. unfold zeros. rewrite (Forall_map2_iff _ _ _ _ Hlen).
  split; apply (Forall2_refine (shape2 rows columns) (shape2 rows columns));
    try assumption; intros p d Hps Hds H;
    now apply (squared_error_zero_iff rows columns p d Hps Hds).
Qed.

Lemma nonempty_of_positive_length {A : Type} (l : list A) (n : nat) :
  length l = n -> (0 < n)%nat -> l <> [].
Proof. intros Hl Hn ->. simpl in Hl. lia. Qed.

(** X3: on a non-empty batch of one shape the labeled loss of a perfect
    prediction is zero: when every predicted density entry equals the true
    one and every predicted count equals the spatial sum of its true density,
    the loss returned is 0. *)
Theorem labeled_loss_zero_on_perfect (items rows columns : nat)
  (predicted_densities : array3) (predicted_counts : array1) (labels : array3)
  (order : Q) :
  (0 < items)%nat ->
  shape3 items rows columns predicted_densities ->
  shape3 items rows columns labels ->
  length predicted_counts = items ->
  Forall2 (Forall2 (Forall2 Qeq)) predicted_densities labels ->
  Forall2 Qeq predicted_counts (map spatial_sum labels) ->
  result_feq (labeled_loss_function (predicted_densities, predicted_counts) labels order)
             (Ok (Num 0)).
Proof.
  intros Hitems Hp Hl Hc Hdensities Hcounts.
  pose proof (labeled_loss_function_losses items rows columns predicted_densities
                predicted_counts labels order Hp Hl Hc) as Hloss.
  destruct (labeled_loss_function _ _ _) as [v|e]; cbn [result_feq] in *; [|tauto].
  assert (Hlc : length predicted_counts = length labels)
    by (transitivity items; [exact Hc | symmetry; exact (proj1 Hl)]).
  assert (Hlp : length predicted_densities = length labels)
    by (transitivity items; [exact (proj1 Hp) | symmetry; exact (proj1 Hl)]).
  destruct (batch_mean_zero_iff (map2 squared_count_error predicted_counts labels))
    as (a & Ea & Ha & Za).
  { apply (nonempty_of_positive_length _ items); [|exact Hitems].
    etransitivity; [apply length_map2; exact Hlc | exact Hc]. }
  { unfold map2. rewrite Forall_map. apply Forall_forall. intros [c d] _.
    apply Qsquare_nonneg. }
  destruct (batch_mean_zero_iff (map2 squared_error predicted_densities labels))
    as (b & Eb & Hb & Zb).
  { apply (nonempty_of_positive_length _ items); [|exact Hitems].
    etransitivity; [apply length_map2; exact Hlp | exact (proj1 Hp)]. }
  { unfold map2. rewrite Forall_map. apply Forall_forall. intros [p d] _.
    apply squared_error_nonneg. }
  unfold count_loss_of, density_loss_of in Hloss. rewrite Ea, Eb in Hloss.
  cbn [fadd fmul] in Hloss.
  apply (density_errors_zero_iff rows columns _ _ Hlp (proj2 Hp) (proj2 Hl)) in Hdensities.
  apply (count_errors_zero_iff rows columns _ _ Hlc) in Hcounts.
  apply Zb in Hdensities. apply Za in Hcounts.
  apply (feq_trans _ _ _ Hloss). cbn [feq]. rewrite Hdensities, Hcounts. ring.
Qed.

Lemma labeled_loss_zero_on_perfect_witness :
  result_feq (labeled_loss_function ([unit_density], [4%Q]) [unit_density] 2) (Ok (Num 0)).
Proof.
  apply (labeled_loss_zero_on_perfect 1 2 2); repeat constructor.
Defined.

(** ** The evaluation epoch does not depend on the batch size *)

Section ImageWiseNetwork.

Variable network : Network.
Variable f : array3 -> array2.
Variable g : array3 -> Q.
Hypothesis image_wise : forall images, network images = (map f images, map g images).

Lemma size_of_stack (m : array2) (t : array3) :
  (0 < size2 m)%nat -> Nat.eqb (size (A3 (m :: t))) 0 = false.
Proof.
  intros Hm. apply Nat.eqb_neq. unfold size, flatten, size2 in *.
  cbn [concat]. rewrite concat_app, length_app. lia.
Qed.

Lemma accumulate_batch_collected (seen group : list CrowdExample) :
  Forall (has_pixels f) seen -> group <> [] ->
  accumulate_batch network (collected f g seen) (map image group, map label group)
  = Ok (collected f g (seen ++ group)).
Proof.
  intros Hseen Hgroup. unfold accumulate_batch, images_to_predicted_labels.
  rewrite image_wise. destruct seen as [|e seen].
  - cbn [collected app]. destruct group as [|e' group]; [congruence|]. reflexivity.
  - apply Forall_cons_iff in Hseen as [[Hlabel Hpredicted] _].
    cbn [collected app concatenate bind map].
    rewrite (size_of_stack _ _ Hpredicted), (size_of_stack _ _ Hlabel).
    cbn [bind concatenate]. rewrite !map_app. reflexivity.
Qed.

Lemma accumulate_collected (groups : list (list CrowdExample)) :
  forall seen,
    Forall (has_pixels f) seen -> Forall (has_pixels f) (concat groups) ->
    Forall (fun group => group <> []) groups ->
    accumulate network (collected f g seen)
               (map (fun examples => (map image examples, map label examples)) groups)
    = Ok (collected f g (seen ++ concat groups)).
Proof.
  induction groups as [|group groups IH]; intros seen Hseen Hrest Hgroups.
  - simpl. now rewrite app_nil_r.
  - apply Forall_cons_iff in Hgroups as [Hgroup Hgroups].
    cbn [concat] in Hrest. apply Forall_app in Hrest as [Hg Hrest].
    cbn [map accumulate]. rewrite accumulate_batch_collected by assumption.
    cbn [bind]. rewrite IH; [|apply Forall_app; split; assumption|assumption|assumption].
    cbn [concat]. now rewrite app_assoc.
Qed.

Lemma accumulate_DataLoader (dataset : list CrowdExample) (batch_size : Z) :
  0 < batch_size -> Forall (has_pixels f) dataset ->
  exists batches,
    DataLoader dataset batch_size = Ok batches /\
    accumulate network (empty_array, empty_array, empty_array) batches
    = Ok (collected f g dataset).
Proof.
  intros Hsize Hdataset. unfold DataLoader.
  assert (Hleb : (batch_size <=? 0) = false) by lia. rewrite Hleb.
  eexists. split; [reflexivity|].
  destruct (chunk_spec (Z.to_nat batch_size) dataset ltac:(lia) [] ltac:(simpl; lia))
    as [Hconcat Hgroups].
  cbn [app] in Hconcat.
  change (empty_array, empty_array, empty_array) with (collected f g []).
  rewrite accumulate_collected; [|constructor|now rewrite Hconcat|exact Hgroups].
  now rewrite Hconcat.
Qed.

End ImageWiseNetwork.

(** X4: for a network that predicts image by image, on examples whose labels
    and predicted densities have at least one pixel, what the evaluation epoch
    reports and returns does not depend on the batch size, as long as it is
    positive: the examples are accumulated in order, whatever the batches. *)
Theorem evaluation_epoch_any_batch_size (settings settings' : Settings)
  (network : Network) (f : array3 -> array2) (g : array3 -> Q)
  (dataset : list CrowdExample) (summary_name : string)
  (comparison_value : option float) :
  (forall images, network images = (map f images, map g images)) ->
  Forall (has_pixels f) dataset ->
  0 < batch_size settings ->
  0 < batch_size settings' ->
  evaluation_epoch settings network dataset summary_name comparison_value
  = evaluation_epoch settings' network dataset summary_name comparison_value.
Proof.
  intros Hnetwork Hdataset Hsize Hsize'.
  destruct (accumulate_DataLoader network f g Hnetwork dataset (batch_size settings)
              Hsize Hdataset) as (batches & Hloader & Hacc).
  destruct (accumulate_DataLoader network f g Hnetwork dataset (batch_size settings')
              Hsize' Hdataset) as (batches' & Hloader' & Hacc').
  unfold evaluation_epoch.
  rewrite Hloader, Hloader'. cbn [lift iobind]. rewrite Hacc, Hacc'. reflexivity.
Qed.

Lemma evaluation_epoch_any_batch_size_witness :
  evaluation_epoch (sample_settings "age" "ShanghaiTech" 1) echo_network sample_dataset
                   "1 Validation Error" None
  = evaluation_epoch (sample_settings "age" "ShanghaiTech" 2) echo_network sample_dataset
                     "1 Validation Error" None.
Proof.
  apply (evaluation_epoch_any_batch_size _ _ echo_network (fun image => hd [] image)
           (fun image => spatial_sum (hd [] image))).
  - reflexivity.
  - repeat constructor.
  - reflexivity.
  - reflexivity.
Defined.

(** ** The training run *)

Lemma iobind_ret {A B : Type} (a : A) (k : A -> io B) : iobind (ret a) k = k a.
Proof. unfold iobind, ret. now destruct (k a). Qed.

Lemma modulo_ret (a b : Z) : b <> 0 -> modulo a b = ret (a mod b).
Proof. intros Hb. unfold modulo. now apply Z.eqb_neq in Hb as ->. Qed.




(** At the end of standard input the loop does not end, whatever waits. *)
Lemma while_at_end_of_file (body : string -> io unit) (fuel : nat) :
  (forall line, exists out, body line = (out, Ok tt)) ->
  forall lines, while_stdin_readable fuel lines true body = None.
Proof.
  intros Hbody. induction fuel as [|fuel IH]; intros lines; [reflexivity|].
  destruct lines as [|line lines]; cbn [while_stdin_readable].
  - destruct (Hbody ""%string) as (out & ->). cbn [andthen]. now rewrite IH.
  - destruct (Hbody line) as (out & ->). cbn [andthen]. now rewrite IH.
Qed.

Lemma while_does_not_raise (body : string -> io unit) (fuel : nat) :
  (forall line, exists out, body line = (out, Ok tt)) ->
  forall lines at_end_of_file,
    while_stdin_readable fuel lines at_end_of_file body = None \/
    exists out, while_stdin_readable fuel lines at_end_of_file body = Some (out, Ok tt).
Proof.
  intros Hbody. induction fuel as [|fuel IH]; intros lines at_end_of_file; [now left|].
  destruct lines as [|line lines]; cbn [while_stdin_readable].
  - destruct at_end_of_file; [|right; now exists []].
    destruct (Hbody ""%string) as (out & ->). cbn [andthen].
    destruct (IH [] true) as [-> | (out' & ->)]; [now left | right; eauto].
  - destruct (Hbody line) as (out & ->). cbn [andthen].
    destruct (IH lines at_end_of_file) as [-> | (out' & ->)]; [now left | right; eauto].
Qed.

Section TrainingRun.

Variable datetime_string : string.
Variable cuda_is_available : bool.
Variable summary_writer_step : Z -> Z.
Variable stdin_lines : Z -> list string.
Variable stdin_at_end_of_file : Z -> bool.
Variable format_step : Z -> string.

Lemma read_line_returns (trial_directory : list string) (step : Z) (line : string) :
  exists out, read_line format_step trial_directory step line = (out, Ok tt).
Proof. unfold read_line. destruct (contains_save line); eexists; reflexivity. Qed.

(** The statements of a step before its inner loop, for periods other than
    zero: what they output and whether the summaries are due. *)
Lemma run_step_unfolded (fuel : nat) (settings : Settings) (trial_directory : list string)
  (step : Z) :
  summary_step_period settings <> 0 ->
  presentation_step_period settings <> 0 ->
  run_step summary_writer_step stdin_lines stdin_at_end_of_file format_step fuel settings
           trial_directory step
  = (Some ((if (step mod summary_step_period settings =? 0) && negb (step =? 0)
            then [print_line "Step {}, {}..."] else [])
           ++ [call_dnn_training_step step; call_gan_training_step step], Ok tt) ;;;;
     if summaries_due summary_writer_step settings step
     then Some (emit (call_validation_summaries step)) ;;;;
          while_stdin_readable fuel (stdin_lines step) (stdin_at_end_of_file step)
                               (read_line format_step trial_directory step)
     else Some (ret tt)).
Proof.
  intros Hsummary Hpresentation. unfold run_step, summaries_due.
  rewrite !modulo_ret by assumption. cbv beta iota delta [iobind ret].
  destruct (_ && _); destruct (summary_writer_step step mod summary_step_period settings =? 0);
    destruct (summary_writer_step step mod presentation_step_period settings =? 0);
    reflexivity.
Qed.


Lemma run_step_does_not_raise (fuel : nat) (settings : Settings)
  (trial_directory : list string) (step : Z) :
  summary_step_period settings <> 0 ->
  presentation_step_period settings <> 0 ->
  run_step summary_writer_step stdin_lines stdin_at_end_of_file format_step fuel settings
           trial_directory step = None \/
  exists out,
    run_step summary_writer_step stdin_lines stdin_at_end_of_file format_step fuel settings
             trial_directory step = Some (out, Ok tt).
Proof.
  intros Hsummary Hpresentation. rewrite run_step_unfolded by assumption.
  destruct (summaries_due _ _ _); cbn [andthen emit ret]; [|right; eauto].
  destruct (while_does_not_raise (read_line format_step trial_directory step) fuel
              (read_line_returns trial_directory step) (stdin_lines step)
              (stdin_at_end_of_file step)) as [-> | (out & ->)]; [now left | right; eauto].
Qed.

Lemma run_step_at_end_of_file (fuel : nat) (settings : Settings)
  (trial_directory : list string) (step : Z) :
  summary_step_period settings <> 0 ->
  presentation_step_period settings <> 0 ->
  summaries_due summary_writer_step settings step = true ->
  stdin_at_end_of_file step = true ->
  run_step summary_writer_step stdin_lines stdin_at_end_of_file format_step fuel settings
           trial_directory step = None.
Proof.
  intros Hsummary Hpresentation Hdue Hend. rewrite run_step_unfolded by assumption.
  rewrite Hdue, Hend, while_at_end_of_file by apply read_line_returns. reflexivity.
Qed.

Lemma for_range_stuck (body : Z -> option (io unit)) (n : nat) :
  (forall step, body step = None \/ exists out, body step = Some (out, Ok tt)) ->
  forall start i,
    (i < n)%nat -> body (start + Z.of_nat i) = None ->
    for_range n start body = None.
Proof.
  intros Hbody. induction n as [|n IH]; intros start i Hi Hstuck; [lia|].
  cbn [for_range]. destruct i as [|i].
  - rewrite Z.add_0_r in Hstuck. now rewrite Hstuck.
  - destruct (Hbody start) as [-> | (out & ->)]; [reflexivity|]. cbn [andthen].
    rewrite (IH (start + 1) i); [reflexivity | lia |].
    rewrite <- Hstuck. f_equal. lia.
Qed.


End TrainingRun.




(** X6: with a summary step period of zero and at least one step to run,
    [run_srgan] for a recognized application raises [ZeroDivisionError] at
    step 0: the datasets and the models have been set up, and no training step
    has run. *)
Theorem run_srgan_zero_summary_period
  (datetime_string : string) (cuda_is_available : bool)
  (summary_writer_step : Z -> Z) (stdin_lines : Z -> list string)
  (stdin_at_end_of_file : Z -> bool) (format_step : Z -> string) (fuel : nat)
  (settings : Settings) :
  application settings = "coefficient" \/ application settings = "age" ->
  summary_step_period settings = 0 ->
  0 < steps_to_run settings ->
  exists out,
    run_srgan datetime_string cuda_is_available summary_writer_step stdin_lines
              stdin_at_end_of_file format_step fuel settings
    = Some (out, Raise ZeroDivisionError) /\
    filter sets_up_or_trains out
    = [call_dataset_setup (application settings); call_model_setup (application settings)].
Proof.
  intros Happlication Hsummary Hsteps. unfold run_srgan.
  destruct (Z.to_nat (steps_to_run settings)) as [|n] eqn:En; [lia|].
  destruct Happlication as [Happ | Happ]; rewrite Happ;
    cbn [String.eqb Ascii.eqb Bool.eqb]; unfold train; rewrite En;
    cbn [for_range]; unfold run_step, modulo; rewrite Hsummary;
    destruct (String.eqb (load_model_path settings) ""); eexists; split; reflexivity.
Qed.

Lemma run_srgan_zero_summary_period_witness :
  exists out,
    run_srgan "y2018m04d15h14m14s10" false (fun step => step) (fun _ => []) (fun _ => true)
              (fun _ => "0") 1
              {| application := "age"; crowd_dataset := "ShanghaiTech"; batch_size := 25;
                 logs_directory := "logs"; trial_name := "trial";
                 temporary_directory := "temporary"; summary_step_period := 0;
                 presentation_step_period := 100; steps_to_run := 2; load_model_path := "";
                 should_save_models := true; number_of_cameras := 5;
                 number_of_images_per_camera := 5; number_of_data_workers := 0;
                 labeled_dataset_seed := 0 |}
    = Some (out, Raise ZeroDivisionError) /\
    filter sets_up_or_trains out = [call_dataset_setup "age"; call_model_setup "age"].
Proof.
  apply (run_srgan_zero_summary_period "y2018m04d15h14m14s10" false (fun step => step)
           (fun _ => []) (fun _ => true) (fun _ => "0") 1).
  - right. reflexivity.
  - reflexivity.
  - reflexivity.
Defined.




(** X21: when standard input is at its end (a closed pipe, a file read to its
    end) at a step of the run at which the validation summaries are due, a
    run of a recognized application with periods other than zero never
    returns: the loop over standard input that follows the summaries finds
    it readable at every test and reads the empty string, whatever number of
    turns the loop is given. *)
Theorem run_srgan_never_returns_at_end_of_file
  (datetime_string : string) (cuda_is_available : bool)
  (summary_writer_step : Z -> Z) (stdin_lines : Z -> list string)
  (stdin_at_end_of_file : Z -> bool) (format_step : Z -> string) (fuel : nat)
  (settings : Settings) (step : Z) :
  application settings = "coefficient" \/ application settings = "age" ->
  summary_step_period settings <> 0 ->
  presentation_step_period settings <> 0 ->
  0 <= step < steps_to_run settings ->
  summaries_due summary_writer_step settings step = true ->
  stdin_at_end_of_file step = true ->
  run_srgan datetime_string cuda_is_available summary_writer_step stdin_lines
            stdin_at_end_of_file format_step fuel settings = None.
Proof.
  intros Happlication Hsummary Hpresentation Hstep Hdue Hend.
  assert (Hloop : forall trial_directory,
             for_range (Z.to_nat (steps_to_run settings)) 0
                       (run_step summary_writer_step stdin_lines stdin_at_end_of_file
                                 format_step fuel settings trial_directory)
             = None).
  { intros trial_directory. apply (for_range_stuck _ _) with (i := Z.to_nat step).
    - intros s. now apply run_step_does_not_raise.
    - lia.
    - rewrite Z.add_0_l, Z2Nat.id by lia. now apply run_step_at_end_of_file. }
  unfold run_srgan, train.
  destruct Happlication as [-> | ->]; cbn [String.eqb Ascii.eqb Bool.eqb];
    rewrite Hloop; destruct (String.eqb (load_model_path settings) ""); reflexivity.
Qed.

Lemma run_srgan_never_returns_at_end_of_file_witness :
  run_srgan "y2018m04d15h14m14s10" false (fun step => step) (fun _ => ["save"])
            (fun _ => true) (fun _ => "0") 1000 (sample_settings "age" "ShanghaiTech" 25)
  = None.
Proof.
  apply (run_srgan_never_returns_at_end_of_file "y2018m04d15h14m14s10" false
           (fun step => step) (fun _ => ["save"]) (fun _ => true) (fun _ => "0") 1000
           (sample_settings "age" "ShanghaiTech" 25) 0).
  - right. reflexivity.
  - discriminate.
  - discriminate.
  - cbn. lia.
  - reflexivity.
  - reflexivity.
Defined.

(** ** Sliding-window evaluation *)

(** X8: a 'World Expo' experiment can be set up but not evaluated:
    [dataset_setup] accepts the name (with a positive batch size it opens the
    camera file and sets the datasets), while [evaluate] raises a [ValueError]
    for it, as for every name other than 'ShanghaiTech', before it looks at
    any data. *)
Theorem world_expo_is_set_up_but_not_evaluated
  (extract_patch_transform : CrowdExample -> Z -> Z -> CrowdExample)
  (test_transform : CrowdExample -> CrowdExample) (patch_size : Z) (DNN : Network)
  (ShanghaiTechDataset_test : list CrowdExample) (self : Experiment) (fuel : nat)
  (sliding_window_step : Z) :
  crowd_dataset (settings self) = "World Expo" ->
  0 < batch_size (settings self) ->
  (exists self',
     dataset_setup self
     = ([open_file ["../World Expo/"; "viable_with_validation_and_random_test.json"]],
        Ok self') /\
     train_dataset self' <> None /\ unlabeled_dataset self' <> None /\
     validation_dataset self' <> None) /\
  evaluate extract_patch_transform test_transform patch_size DNN ShanghaiTechDataset_test
           (settings self) fuel sliding_window_step
  = Some ([super_evaluate],
          Raise (ValueError "World Expo is not an understood crowd dataset.")).
Proof.
  intros Hname Hsize. split.
  - unfold dataset_setup, new_loader. rewrite Hname.
    assert (Hleb : (batch_size (settings self) <=? 0) = false) by lia.
    cbn [String.eqb Ascii.eqb Bool.eqb]. rewrite Hleb.
    eexists. split; [reflexivity|]. repeat split; discriminate.
  - unfold evaluate. rewrite Hname. reflexivity.
Qed.

Lemma world_expo_is_set_up_but_not_evaluated_witness :
  (exists self',
     dataset_setup (new_experiment (sample_settings "age" "World Expo" 25))
     = ([open_file ["../World Expo/"; "viable_with_validation_and_random_test.json"]],
        Ok self') /\
     train_dataset self' <> None /\ unlabeled_dataset self' <> None /\
     validation_dataset self' <> None) /\
  evaluate whole_scene untransformed 128 echo_network sample_dataset
           (settings (new_experiment (sample_settings "age" "World Expo" 25))) 1 10
  = Some ([super_evaluate],
          Raise (ValueError "World Expo is not an understood crowd dataset.")).
Proof.
  apply (world_expo_is_set_up_but_not_evaluated whole_scene untransformed 128 echo_network
           sample_dataset (new_experiment (sample_settings "age" "World Expo" 25)) 1 10);
    reflexivity.
Defined.

Section EvaluateProperties.

Variable extract_patch_transform : CrowdExample -> Z -> Z -> CrowdExample.
Variable test_transform : CrowdExample -> CrowdExample.
Variable patch_size : Z.
Variable DNN : Network.

Lemma for_batches_of_scene_with_rows (settings : Settings) (full_example : CrowdExample)
  (fuel : nat) :
  0 < shape0 (label full_example) ->
  forall buffers buffers',
    for_batches extract_patch_transform test_transform patch_size DNN settings full_example
                fuel (Suspended 0 0 0) buffers
    <> Some (Ok buffers').
Proof.
  intros Hrows. induction fuel as [|fuel IH]; intros buffers buffers'; cbn [for_batches].
  - discriminate.
  - rewrite next_at_origin by exact Hrows.
    destruct (add_batch _ _ _ _ _) as [b|e]; [apply IH | discriminate].
Qed.

Lemma evaluate_example_ok (settings : Settings) (fuel : nat) (totals totals' : Totals)
  (full_example : CrowdExample) :
  evaluate_example extract_patch_transform test_transform patch_size DNN settings fuel
                   totals full_example = Some (Ok totals') ->
  label full_example = [].
Proof.
  unfold evaluate_example, batches_of_patches_with_position. intros H.
  destruct (label full_example) as [|row rows] eqn:E; [reflexivity|]. exfalso.
  destruct (for_batches _ _ _ _ _ _ _ _ _) as [[b|e]|] eqn:F; try discriminate.
  revert F. rewrite <- E. apply for_batches_of_scene_with_rows.
  rewrite E. unfold shape0. simpl. lia.
Qed.

Lemma evaluate_examples_ok (settings : Settings) (fuel : nat)
  (test_dataset : list CrowdExample) :
  forall totals totals',
    evaluate_examples extract_patch_transform test_transform patch_size DNN settings fuel
                      totals test_dataset = Some (Ok totals') ->
    Forall (fun full_example => label full_example = []) test_dataset.
Proof.
  induction test_dataset as [|e rest IH]; intros totals totals' H; [constructor|].
  cbn [evaluate_examples] in H.
  destruct (evaluate_example _ _ _ _ _ _ _ e) as [[t|x]|] eqn:E; try discriminate.
  constructor; [eapply evaluate_example_ok; exact E | eapply IH; exact H].
Qed.

Lemma evaluate_example_without_rows (settings : Settings) (totals : Totals)
  (full_example : CrowdExample) :
  0 < batch_size settings ->
  label full_example = [] ->
  exists totals',
    evaluate_example extract_patch_transform test_transform patch_size DNN settings 1
                     totals full_example = Some (Ok totals').
Proof.
  intros Hsize Hlabel. unfold evaluate_example, batches_of_patches_with_position.
  rewrite Hlabel. cbn [for_batches next].
  destruct (Z.to_nat (batch_size settings)) as [|n] eqn:En; [lia|].
  cbn [fill_batch]. rewrite Hlabel. eexists. reflexivity.
Qed.

Lemma evaluate_examples_without_rows (settings : Settings)
  (test_dataset : list CrowdExample) :
  0 < batch_size settings ->
  Forall (fun full_example => label full_example = []) test_dataset ->
  forall totals,
  exists totals',
    evaluate_examples extract_patch_transform test_transform patch_size DNN settings 1
                      totals test_dataset = Some (Ok totals').
Proof.
  intros Hsize. induction 1 as [|e rest He _ IH]; intros totals; cbn [evaluate_examples].
  - eexists. reflexivity.
  - destruct (evaluate_example_without_rows settings totals e Hsize He) as (t & ->).
    apply IH.
Qed.

End EvaluateProperties.

(** X9: with a positive batch size, [evaluate] on the ShanghaiTech test set
    comes to its end and prints its totals exactly when no test scene has a
    row. As soon as one scene has a row, however many calls of [next] are
    allowed, it raises or is still in the loop over the batches of that
    scene. *)
Theorem evaluate_ends_only_without_rows
  (extract_patch_transform : CrowdExample -> Z -> Z -> CrowdExample)
  (test_transform : CrowdExample -> CrowdExample) (patch_size : Z) (DNN : Network)
  (ShanghaiTechDataset_test : list CrowdExample) (settings : Settings)
  (sliding_window_step : Z) :
  crowd_dataset settings = "ShanghaiTech" ->
  0 < batch_size settings ->
  ((exists fuel out,
      evaluate extract_patch_transform test_transform patch_size DNN
               ShanghaiTechDataset_test settings fuel sliding_window_step
      = Some (out, Ok tt))
   <-> Forall (fun full_example => label full_example = []) ShanghaiTechDataset_test).
Proof.
  intros Hname Hsize. unfold evaluate. rewrite Hname.
  cbn [String.eqb Ascii.eqb Bool.eqb]. split.
  - intros (fuel & out & H).
    destruct (evaluate_examples _ _ _ _ _ _ _ _) as [[totals|e]|] eqn:E; try discriminate.
    eapply evaluate_examples_ok. exact E.
  - intros Hscenes.
    destruct (evaluate_examples_without_rows extract_patch_transform test_transform
                patch_size DNN settings ShanghaiTechDataset_test Hsize Hscenes
                (MkTotals 0 (Num 0) (Num 0))) as (totals & E).
    exists 1%nat. rewrite E. eexists. reflexivity.
Qed.

Lemma evaluate_ends_only_without_rows_witness :
  (exists fuel out,
     evaluate whole_scene untransformed 128 echo_network [blank_scene 0 0]
              (sample_settings "age" "ShanghaiTech" 25) fuel 10
     = Some (out, Ok tt))
  <-> Forall (fun full_example => label full_example = []) [blank_scene 0 0].
Proof.
  apply (evaluate_ends_only_without_rows whole_scene untransformed 128 echo_network
           [blank_scene 0 0] (sample_settings "age" "ShanghaiTech" 25) 10);
    reflexivity.
Defined.

Section EvaluateRaises.

Variable extract_patch_transform : CrowdExample -> Z -> Z -> CrowdExample.
Variable test_transform : CrowdExample -> CrowdExample.
Variable patch_size : Z.
Variable DNN : Network.

Lemma add_batch_raises (full_example : CrowdExample)
  (batch : list CrowdExampleWithPosition) (buffers : AggregationBuffers) :
  (forall images, length (fst (DNN images)) = length images /\
                  length (snd (DNN images)) = length images) ->
  batch <> [] ->
  add_batch patch_size DNN full_example batch buffers = Raise TypeError.
Proof.
  intros Hnetwork Hbatch. unfold add_batch.
  destruct (Hnetwork (map patch_image batch)) as [Hlabels Hcounts].
  destruct (DNN (map patch_image batch)) as [predicted_labels predicted_counts].
  cbn [fst snd] in Hlabels, Hcounts. rewrite length_map in Hlabels, Hcounts.
  destruct batch as [|example_with_position batch]; [congruence|].
  destruct predicted_labels as [|predicted_label predicted_labels]; [discriminate|].
  destruct predicted_counts as [|predicted_count predicted_counts]; [discriminate|].
  reflexivity.
Qed.

Lemma for_batches_raises (settings : Settings) (full_example : CrowdExample)
  (fuel : nat) (buffers : AggregationBuffers) :
  (forall images, length (fst (DNN images)) = length images /\
                  length (snd (DNN images)) = length images) ->
  0 < batch_size settings ->
  0 < shape0 (label full_example) ->
  for_batches extract_patch_transform test_transform patch_size DNN settings full_example
              (S fuel) (Suspended 0 0 0) buffers
  = Some (Raise TypeError).
Proof.
  intros Hnetwork Hsize Hrows. cbn [for_batches].
  rewrite next_at_origin by exact Hrows.
  rewrite add_batch_raises; [reflexivity | exact Hnetwork |].
  destruct (Z.to_nat (batch_size settings)) eqn:E; [lia | discriminate].
Qed.

Lemma evaluate_example_raises (settings : Settings) (fuel : nat) (totals : Totals)
  (full_example : CrowdExample) :
  (forall images, length (fst (DNN images)) = length images /\
                  length (snd (DNN images)) = length images) ->
  0 < batch_size settings ->
  label full_example <> [] ->
  evaluate_example extract_patch_transform test_transform patch_size DNN settings (S fuel)
                   totals full_example
  = Some (Raise TypeError).
Proof.
  intros Hnetwork Hsize Hlabel. unfold evaluate_example, batches_of_patches_with_position.
  rewrite for_batches_raises; [reflexivity | exact Hnetwork | exact Hsize |].
  unfold shape0. destruct (label full_example); [congruence | cbn [length]; lia].
Qed.

Lemma evaluate_example_of_no_rows (settings : Settings) (fuel : nat) (totals : Totals)
  (full_example : CrowdExample) :
  0 < batch_size settings ->
  label full_example = [] ->
  exists totals',
    evaluate_example extract_patch_transform test_transform patch_size DNN settings (S fuel)
                     totals full_example = Some (Ok totals').
Proof.
  intros Hsize Hlabel. unfold evaluate_example, batches_of_patches_with_position.
  rewrite Hlabel. cbn [for_batches next].
  destruct (Z.to_nat (batch_size settings)) as [|n] eqn:En; [lia|].
  cbn [fill_batch]. rewrite Hlabel. eexists. reflexivity.
Qed.

Lemma evaluate_examples_raise (settings : Settings) (fuel : nat)
  (test_dataset : list CrowdExample) :
  (forall images, length (fst (DNN images)) = length images /\
                  length (snd (DNN images)) = length images) ->
  0 < batch_size settings ->
  Exists (fun full_example => label full_example <> []) test_dataset ->
  forall totals,
    evaluate_examples extract_patch_transform test_transform patch_size DNN settings
                      (S fuel) totals test_dataset
    = Some (Raise TypeError).
Proof.
  intros Hnetwork Hsize.
  induction test_dataset as [|full_example rest IH]; intros Hscene totals.
  - inversion Hscene.
  - cbn [evaluate_examples].
    destruct (label full_example) as [|row rows] eqn:E.
    + destruct (evaluate_example_of_no_rows settings fuel totals full_example Hsize E)
        as (totals' & ->).
      apply IH. apply Exists_cons in Hscene as [Hhead | Htail]; [congruence | exact Htail].
    + rewrite evaluate_example_raises; [reflexivity | exact Hnetwork | exact Hsize |].
      rewrite E. discriminate.
Qed.

End EvaluateRaises.

(** X20: with a positive batch size and a network that returns one prediction
    for each image, [evaluate] on a ShanghaiTech test set in which some scene
    has a row raises [TypeError]: the first patch of the first such scene
    divides the predicted count by the [size] of a tensor, which is a method.
    It has printed no total and, whatever the number of calls of [next] it is
    given, it has not passed the first batch. *)
Theorem evaluate_raises_type_error
  (extract_patch_transform : CrowdExample -> Z -> Z -> CrowdExample)
  (test_transform : CrowdExample -> CrowdExample) (patch_size : Z) (DNN : Network)
  (ShanghaiTechDataset_test : list CrowdExample) (settings : Settings)
  (sliding_window_step : Z) (fuel : nat) :
  crowd_dataset settings = "ShanghaiTech" ->
  0 < batch_size settings ->
  (forall images, length (fst (DNN images)) = length images /\
                  length (snd (DNN images)) = length images) ->
  Exists (fun full_example => label full_example <> []) ShanghaiTechDataset_test ->
  evaluate extract_patch_transform test_transform patch_size DNN ShanghaiTechDataset_test
           settings (S fuel) sliding_window_step
  = Some ([super_evaluate], Raise TypeError).
Proof.
  intros Hname Hsize Hnetwork Hscene. unfold evaluate. rewrite Hname.
  cbn [String.eqb Ascii.eqb Bool.eqb].
  rewrite evaluate_examples_raise by assumption. reflexivity.
Qed.

Lemma evaluate_raises_type_error_witness :
  evaluate whole_scene untransformed 128 echo_network [blank_scene 0 0; blank_scene 30 30]
           (sample_settings "age" "ShanghaiTech" 3) 1 10
  = Some ([super_evaluate], Raise TypeError).
Proof.
  apply (evaluate_raises_type_error whole_scene untransformed 128 echo_network
           [blank_scene 0 0; blank_scene 30 30] (sample_settings "age" "ShanghaiTech" 3)
           10 0).
  - reflexivity.
  - reflexivity.
  - intros images. unfold echo_network. cbn [fst snd]. now rewrite !length_map.
  - apply Exists_cons_tl, Exists_cons_hd. discriminate.
Defined.

(** ** The ratio to a baseline of zero *)

Lemma count_mae_not_negative (predicted_counts densities : ndarray) (v : float) :
  count_mae predicted_counts densities = Ok v -> not_negative v.
Proof.
  unfold count_mae. intros H.
  destruct (sum_axis1 densities) as [s|e]; cbn [bind] in H; [|discriminate].
  destruct (sum_axis1 s) as [t|e]; cbn [bind] in H; [|discriminate].
  destruct (sub predicted_counts t) as [d|e]; cbn [bind] in H; [|discriminate].
  injection H as <-. apply mean_not_negative, abs_nonneg.
Qed.

Lemma fdiv_by_zero (mae : float) (baseline : Q) :
  baseline == 0 -> not_negative mae ->
  (fdiv mae (Num baseline) = NaN \/ fdiv mae (Num baseline) = Inf false) /\
  (fdiv mae (Num baseline) = Inf false
   <-> (exists q, mae = Num q /\ (0 < q)%Q) \/ mae = Inf false).
Proof.
  intros Hzero Hmae. pose proof (Qis_neg_compat _ _ Hzero) as Hsign.
  apply Qis_zero_spec in Hzero.
  destruct mae as [q| |s]; cbn [not_negative] in Hmae.
  - unfold fdiv. rewrite Hzero.
    destruct (Qis_zero q) eqn:Eq.
    + split; [now left|]. split; [discriminate|].
      intros [(q' & [= <-] & Hq) | [=]]. apply Qis_zero_spec in Eq. rewrite Eq in Hq.
      now apply Qlt_irrefl in Hq.
    + assert (Hneg : Qis_neg q = false).
      { destruct (Qis_neg q) eqn:En; [|reflexivity].
        apply Qis_neg_spec in En. now apply Qlt_not_le in En. }
      rewrite Hneg. split; [now right|]. split; [|reflexivity].
      intros _. left. exists q. split; [reflexivity|].
      apply Qle_lt_or_eq in Hmae as [Hlt | Heq]; [exact Hlt|].
      symmetry in Heq. apply Qis_zero_spec in Heq. congruence.
  - cbn [fdiv]. split; [now left|]. split; [discriminate|].
    intros [(q & [=] & _) | [=]].
  - subst s. cbn [fdiv]. rewrite Hsign. cbn. split; [now right|].
    split; [now right | reflexivity].
Qed.

(** X13: when the comparison value handed to the evaluation epoch is zero,
    the ratio it writes last is never a number: it is plus infinity when the
    count MAE is a positive number or plus infinity, and NaN when the count
    MAE is zero or NaN; the epoch neither raises on the division nor skips
    the summary. *)
Theorem evaluation_epoch_zero_baseline (settings : Settings) (network : Network)
  (dataset : list CrowdExample) (summary_name : string) (baseline : Q)
  (out : list event) (mae : float) :
  baseline == 0 ->
  evaluation_epoch settings network dataset summary_name (Some (Num baseline))
  = (out, Ok mae) ->
  exists out' ratio,
    out = out' ++ [add_scalar (summary_name ++ "/Ratio MAE GAN DNN")%string ratio] /\
    (ratio = NaN \/ ratio = Inf false) /\
    (ratio = Inf false <-> (exists q, mae = Num q /\ (0 < q)%Q) \/ mae = Inf false).
Proof.
  intros Hzero. unfold evaluation_epoch.
  destruct (DataLoader dataset (batch_size settings)) as [loader|e];
    cbn [lift iobind]; [|discriminate].
  destruct (accumulate network _ loader) as [[[predicted_counts densities]
                                               predicted_densities]|e];
    cbn [lift iobind]; [|discriminate].
  destruct (count_mae predicted_counts densities) as [v1|e] eqn:E1;
    cbn [lift iobind emit ret app]; [|discriminate].
  destruct (density_mae predicted_densities densities) as [v2|e];
    cbn [lift iobind emit ret app]; [|discriminate].
  destruct (count_mse predicted_counts densities) as [v3|e];
    cbn [lift iobind emit ret app]; [|discriminate].
  destruct (density_mse predicted_densities densities) as [v4|e];
    cbn [lift iobind emit ret app]; [|discriminate].
  intros [= <- <-].
  eexists [_; _; _; _], _. split; [reflexivity|].
  apply fdiv_by_zero; [exact Hzero|].
  eapply count_mae_not_negative, E1.
Qed.

Lemma evaluation_epoch_zero_baseline_witness :
  exists out' ratio,
    [add_scalar "1 Validation Error/MAE" (Num (19 # 3));
     add_scalar "1 Validation Error/Density MAE" (Num (19 # 3));
     add_scalar "1 Validation Error/MSE" (Num (141 # 3));
     add_scalar "1 Validation Error/Density MSE" (Num (59 # 3));
     add_scalar "1 Validation Error/Ratio MAE GAN DNN" (Inf false)]
    = out' ++ [add_scalar "1 Validation Error/Ratio MAE GAN DNN" ratio] /\
    (ratio = NaN \/ ratio = Inf false) /\
    (ratio = Inf false
     <-> (exists q, Num (19 # 3) = Num q /\ (0 < q)%Q) \/ Num (19 # 3) = Inf false).
Proof.
  apply (evaluation_epoch_zero_baseline (sample_settings "age" "ShanghaiTech" 2)
           silent_network sample_dataset "1 Validation Error" 0).
  - reflexivity.
  - vm_compute. reflexivity.
Defined.

(** ** Heat maps and comparison grids *)

Lemma fold_min_spec (v : list Q) (q : Q) :
  (fold_left Qmin v q <= q)%Q /\
  Forall (fun p => (fold_left Qmin v q <= p)%Q) v /\
  In (fold_left Qmin v q) (q :: v).
Proof.
  revert q. induction v as [|a v IH]; intros q; cbn [fold_left].
  - split; [apply Qle_refl|]. split; [constructor | now left].
  - destruct (IH (Qmin q a)) as (Hle & Hall & Hin). split; [|split].
    + eapply Qle_trans; [exact Hle | apply Q.le_min_l].
    + constructor; [eapply Qle_trans; [exact Hle | apply Q.le_min_r] | exact Hall].
    + destruct Hin as [Hin | Hin]; [|now right; right].
      rewrite <- Hin. unfold Qmin, GenericMinMax.gmin.
      destruct (q ?= a)%Q; [now left | now left | now right; left].
Qed.

Lemma fold_max_spec (v : list Q) (q : Q) :
  (q <= fold_left Qmax v q)%Q /\
  Forall (fun p => (p <= fold_left Qmax v q)%Q) v /\
  In (fold_left Qmax v q) (q :: v).
Proof.
  revert q. induction v as [|a v IH]; intros q; cbn [fold_left].
  - split; [apply Qle_refl|]. split; [constructor | now left].
  - destruct (IH (Qmax q a)) as (Hle & Hall & Hin). split; [|split].
    + eapply Qle_trans; [apply Q.le_max_l | exact Hle].
    + constructor; [eapply Qle_trans; [apply Q.le_max_r | exact Hle] | exact Hall].
    + destruct Hin as [Hin | Hin]; [|now right; right].
      rewrite <- Hin. unfold Qmax, GenericMinMax.gmax.
      destruct (q ?= a)%Q; [now left | now right; left | now left].
Qed.

Lemma minimum_spec (m : array2) :
  concat m <> [] ->
  exists least, minimum m = Ok least /\
    Forall (fun p => (least <= p)%Q) (concat m) /\ In least (concat m).
Proof.
  unfold minimum. destruct (concat m) as [|q v]; [congruence|]. intros _.
  destruct (fold_min_spec v q) as (Hle & Hall & Hin).
  eexists. split; [reflexivity|]. split; [now constructor | exact Hin].
Qed.

Lemma maximum_spec (m : array2) :
  concat m <> [] ->
  exists greatest, maximum m = Ok greatest /\
    Forall (fun p => (p <= greatest)%Q) (concat m) /\ In greatest (concat m).
Proof.
  unfold maximum. destruct (concat m) as [|q v]; [congruence|]. intros _.
  destruct (fold_max_spec v q) as (Hle & Hall & Hin).
  eexists. split; [reflexivity|]. split; [now constructor | exact Hin].
Qed.

Lemma Qmin_either (p q : Q) : Qmin p q = p \/ Qmin p q = q.
Proof. unfold Qmin, GenericMinMax.gmin. destruct (p ?= q)%Q; auto. Qed.

Lemma Qmax_either (p q : Q) : Qmax p q = p \/ Qmax p q = q.
Proof. unfold Qmax, GenericMinMax.gmax. destruct (p ?= q)%Q; auto. Qed.

(** X14: the heat maps of a label and of its prediction, neither of them
    without entries, are coloured on one common scale: the colour limits
    handed to the colour map for both are the least and the greatest entry of
    the two density maps taken together, so every entry of either map lies
    between them, and the conversion does not raise. *)
Theorem heatmaps_share_color_limits (patch_size : Z)
  (imresize : array2 -> Z * Z -> array2) (to_rgba : Q -> Q -> array2 -> array3)
  (label predicted_label : array2) :
  concat label <> [] ->
  concat predicted_label <> [] ->
  exists vmin vmax,
    convert_density_maps_to_heatmaps patch_size imresize to_rgba label predicted_label
    = Ok (first_three_channels_first
            (to_rgba vmin vmax (imresize label (patch_size, patch_size))),
          first_three_channels_first
            (to_rgba vmin vmax (imresize predicted_label (patch_size, patch_size)))) /\
    Forall (fun q => (vmin <= q <= vmax)%Q) (concat label ++ concat predicted_label) /\
    In vmin (concat label ++ concat predicted_label) /\
    In vmax (concat label ++ concat predicted_label).
Proof.
  intros Hlabel Hpredicted.
  destruct (minimum_spec label Hlabel) as (a & Ea & Ha & Ia).
  destruct (minimum_spec predicted_label Hpredicted) as (b & Eb & Hb & Ib).
  destruct (maximum_spec label Hlabel) as (c & Ec & Hc & Ic).
  destruct (maximum_spec predicted_label Hpredicted) as (d & Ed & Hd & Id).
  exists (Qmin a b), (Qmax c d).
  unfold convert_density_maps_to_heatmaps, color_limits.
  rewrite Ea, Eb, Ec, Ed. cbn [bind]. split; [reflexivity|]. split; [|split].
  - apply Forall_app. split.
    + rewrite Forall_forall in Ha, Hc |- *. intros q Hq. split.
      * eapply Qle_trans; [apply Q.le_min_l | now apply Ha].
      * eapply Qle_trans; [now apply Hc | apply Q.le_max_l].
    + rewrite Forall_forall in Hb, Hd |- *. intros q Hq. split.
      * eapply Qle_trans; [apply Q.le_min_r | now apply Hb].
      * eapply Qle_trans; [now apply Hd | apply Q.le_max_r].
  - apply in_or_app. destruct (Qmin_either a b) as [-> | ->]; auto.
  - apply in_or_app. destruct (Qmax_either c d) as [-> | ->]; auto.
Qed.

Lemma heatmaps_share_color_limits_witness :
  exists vmin vmax,
    convert_density_maps_to_heatmaps 2 keep_size gray_rgba [[1; 2]; [3; 4]]%Q unit_density
    = Ok (first_three_channels_first
            (gray_rgba vmin vmax (keep_size [[1; 2]; [3; 4]]%Q (2, 2))),
          first_three_channels_first
            (gray_rgba vmin vmax (keep_size unit_density (2, 2)))) /\
    Forall (fun q => (vmin <= q <= vmax)%Q)
           (concat [[1; 2]; [3; 4]]%Q ++ concat unit_density) /\
    In vmin (concat [[1; 2]; [3; 4]]%Q ++ concat unit_density) /\
    In vmax (concat [[1; 2]; [3; 4]]%Q ++ concat unit_density).
Proof.
  apply (heatmaps_share_color_limits 2 keep_size gray_rgba [[1; 2]; [3; 4]]%Q
           unit_density); discriminate.
Defined.

Lemma item_ok {A : Type} (l : list A) (i : nat) (a : A) :
  item l i = Ok a -> nth_error l i = Some a.
Proof. unfold item. destruct (nth_error l i); [now intros [= <-] | discriminate]. Qed.

Section GridLayout.

Variable patch_size : Z.
Variable imresize : array2 -> Z * Z -> array2.
Variable to_rgba : Q -> Q -> array2 -> array3.

Lemma grid_images_layout (images : list array3) (labels predicted_labels : array3)
  (iterations index : nat) (acc l : list array3) :
  grid_images patch_size imresize to_rgba images labels predicted_labels index
              iterations acc = Ok l ->
  exists added,
    l = acc ++ added /\ length added = (3 * iterations)%nat /\
    forall k, (k < iterations)%nat ->
              grid_entry patch_size imresize to_rgba images labels predicted_labels
                         added (index + k) k.
Proof.
  revert index acc. induction iterations as [|n IH]; intros index acc; cbn [grid_images].
  - intros [= <-]. exists []. rewrite app_nil_r. repeat split. intros k Hk. lia.
  - destruct (item images index) as [image|e] eqn:Ei; cbn [bind]; [|discriminate].
    destruct (item labels index) as [label|e] eqn:El; cbn [bind]; [|discriminate].
    destruct (item predicted_labels index) as [predicted|e] eqn:Ep; cbn [bind];
      [|discriminate].
    destruct (convert_density_maps_to_heatmaps _ _ _ label predicted)
      as [[label_heatmap predicted_heatmap]|e] eqn:Ec; cbn [bind]; [|discriminate].
    intros H. apply IH in H as (added & -> & Hlen & Hk).
    exists ([to_unit_range image; label_heatmap; predicted_heatmap] ++ added).
    split; [now rewrite <- app_assoc|]. split; [cbn [length app]; lia|].
    intros [|k] Hlt.
    + rewrite Nat.add_0_r. exists image, label, predicted, label_heatmap, predicted_heatmap.
      repeat split; auto using item_ok.
    + assert (Hlt' : (k < n)%nat) by lia.
      destruct (Hk k Hlt') as (i & lb & pl & lh & ph & H1 & H2 & H3 & H4 & H5 & H6 & H7).
      replace (index + S k)%nat with (S index + k)%nat by lia.
      exists i, lb, pl, lh, ph. repeat split; try assumption.
      * replace (3 * S k)%nat with (3 + 3 * k)%nat by lia. exact H5.
      * replace (3 * S k + 1)%nat with (3 + (3 * k + 1))%nat by lia. exact H6.
      * replace (3 * S k + 2)%nat with (3 + (3 * k + 2))%nat by lia. exact H7.
Qed.

End GridLayout.

(** X15: when [create_crowd_images_comparison_grid] returns, the list it
    handed to [make_grid] (with [nrow] the number of images asked for) has
    three images for each of the first [min(number_of_images, N)] items of
    the batch and nothing else: at [3 k] the image of item [k] with every
    entry [q] replaced by [(q + 1) / 2], at [3 k + 1] the heat map of its
    label and at [3 k + 2] that of its prediction. In particular the labels
    and the predictions had at least that many items. *)
Theorem comparison_grid_layout (patch_size : Z)
  (imresize : array2 -> Z * Z -> array2) (to_rgba : Q -> Q -> array2 -> array3)
  (make_grid : list array3 -> Z -> array3)
  (images : list array3) (labels predicted_labels : array3) (number_of_images : Z)
  (grid : array3) :
  create_crowd_images_comparison_grid patch_size imresize to_rgba make_grid
    images labels predicted_labels number_of_images = Ok grid ->
  exists l,
    grid = make_grid l number_of_images /\
    length l
    = (3 * Z.to_nat (Z.min number_of_images (Z.of_nat (length images))))%nat /\
    forall k,
      (k < Z.to_nat (Z.min number_of_images (Z.of_nat (length images))))%nat ->
      grid_entry patch_size imresize to_rgba images labels predicted_labels l k k.
Proof.
  unfold create_crowd_images_comparison_grid, grid_image_list.
  destruct (grid_images _ _ _ images labels predicted_labels 0 _ []) as [l|e] eqn:E;
    cbn [bind]; [|discriminate].
  intros [= <-]. apply grid_images_layout in E as (added & -> & Hlen & Hk).
  exists added. split; [reflexivity|]. split; [exact Hlen|].
  intros k Hlt. exact (Hk k Hlt).
Qed.

Lemma comparison_grid_layout_witness :
  exists l,
    channel_stack
      [to_unit_range [unit_density];
       first_three_channels_first (gray_rgba 0 1 zero_patch);
       first_three_channels_first (gray_rgba 0 1 unit_density);
       to_unit_range [zero_patch];
       first_three_channels_first (gray_rgba 0 1 unit_density);
       first_three_channels_first (gray_rgba 0 1 zero_patch)] 3
    = channel_stack l 3 /\
    length l
    = (3 * Z.to_nat (Z.min 3 (Z.of_nat (length [[unit_density]; [zero_patch]]))))%nat /\
    forall k,
      (k < Z.to_nat (Z.min 3 (Z.of_nat (length [[unit_density]; [zero_patch]]))))%nat ->
      grid_entry 2 keep_size gray_rgba [[unit_density]; [zero_patch]]
                 [zero_patch; unit_density] [unit_density; zero_patch] l k k.
Proof.
  apply (comparison_grid_layout 2 keep_size gray_rgba channel_stack
           [[unit_density]; [zero_patch]] [zero_patch; unit_density]
           [unit_density; zero_patch] 3).
  vm_compute. reflexivity.
Defined.

(** ** Validation summaries *)

Lemma evaluation_epoch_scalars (settings : Settings) (network : Network)
  (dataset : list CrowdExample) (summary_name : string)
  (comparison_value : option float) (out : list event) (mae : float) :
  evaluation_epoch settings network dataset summary_name comparison_value
  = (out, Ok mae) ->
  exists v2 v3 v4,
    out = [add_scalar (summary_name ++ "/MAE")%string mae;
           add_scalar (summary_name ++ "/Density MAE")%string v2;
           add_scalar (summary_name ++ "/MSE")%string v3;
           add_scalar (summary_name ++ "/Density MSE")%string v4]
          ++ match comparison_value with
             | Some c => [add_scalar (summary_name ++ "/Ratio MAE GAN DNN")%string
                                     (fdiv mae c)]
             | None => []
             end.
Proof.
  unfold evaluation_epoch.
  destruct (DataLoader dataset (batch_size settings)) as [loader|e];
    cbn [lift iobind]; [|discriminate].
  destruct (accumulate network _ loader) as [[[predicted_counts densities]
                                               predicted_densities]|e];
    cbn [lift iobind]; [|discriminate].
  destruct (count_mae predicted_counts densities) as [v1|e];
    cbn [lift iobind emit ret app]; [|discriminate].
  destruct (density_mae predicted_densities densities) as [v2|e];
    cbn [lift iobind emit ret app]; [|discriminate].
  destruct (count_mse predicted_counts densities) as [v3|e];
    cbn [lift iobind emit ret app]; [|discriminate].
  destruct (density_mse predicted_densities densities) as [v4|e];
    cbn [lift iobind emit ret app]; [|discriminate].
  destruct comparison_value as [c|]; cbn [lift iobind emit ret app];
    intros [= <- <-]; now exists v2, v3, v4.
Qed.

Lemma written_by_finished {A : Type} (writer : string) (m : io A)
  (out : list summary) (a : A) :
  written_by writer m = (out, Finished a) ->
  exists events, m = (events, Ok a) /\ out = map (written writer) events.
Proof.
  unfold written_by. destruct m as [events [a'|e]]; cbn [fst snd];
    [|discriminate].
  intros [= <- ->]. now exists events.
Qed.

Lemma then_summaries_finished {A B : Type} (m : summaries A) (k : A -> summaries B)
  (out : list summary) (b : B) :
  then_summaries m k = (out, Finished b) ->
  exists out1 a out2,
    m = (out1, Finished a) /\ k a = (out2, Finished b) /\ out = out1 ++ out2.
Proof.
  unfold then_summaries. destruct m as [out1 [a|e|]]; [|discriminate..].
  destruct (k a) as [out2 r] eqn:E. intros [= <- ->]. now exists out1, a, out2.
Qed.

Section ValidationSummariesProperties.

Variable patch_size : Z.
Variable imresize : array2 -> Z * Z -> array2.
Variable to_rgba : Q -> Q -> array2 -> array3.
Variable make_grid : list array3 -> Z -> array3.
Variable DNN D : Network.
Variable G : array2 -> list array3.
Variable G_input_size : Z.
Variable mean_offset : Q.
Variable randn : Z -> Z -> array2.
Variable mixture_rvs : Q -> Z -> Z -> array2.
Variable to_image_range : list array3 -> list array3.
Variable astype_uint8 : array3 -> array3.

Let images_of :=
  image_summaries patch_size imresize to_rgba make_grid DNN D G G_input_size
                  mean_offset randn mixture_rvs to_image_range astype_uint8.
Let summaries_of :=
  validation_summaries patch_size imresize to_rgba make_grid DNN D G G_input_size
                       mean_offset randn mixture_rvs to_image_range astype_uint8.

Lemma validation_summaries_finished (settings : Settings)
  (train_dataset validation_dataset : nat -> list CrowdExample) (step : Z)
  (out : list summary) :
  summaries_of settings train_dataset validation_dataset step = (out, Finished tt) ->
  exists o1 m1 o2 m2 o3 m3 o4 m4 images,
    evaluation_epoch settings DNN (train_dataset 0%nat) "2 Train Error" None
    = (o1, Ok m1) /\
    evaluation_epoch settings DNN (validation_dataset 0%nat) "1 Validation Error" None
    = (o2, Ok m2) /\
    evaluation_epoch settings D (train_dataset 1%nat) "2 Train Error" None
    = (o3, Ok m3) /\
    evaluation_epoch settings D (validation_dataset 1%nat) "1 Validation Error" (Some m2)
    = (o4, Ok m4) /\
    images_of settings train_dataset = (images, Finished tt) /\
    out = map (written "DNN") o1 ++ map (written "DNN") o2 ++ map (written "GAN") o3
          ++ map (written "GAN") o4 ++ images.
Proof.
  unfold summaries_of, validation_summaries. intros H.
  apply then_summaries_finished in H as (s1 & m1 & r1 & H1 & H & ->).
  apply then_summaries_finished in H as (s2 & m2 & r2 & H2 & H & ->).
  apply then_summaries_finished in H as (s3 & m3 & r3 & H3 & H & ->).
  apply then_summaries_finished in H as (s4 & m4 & images & H4 & H & ->).
  apply written_by_finished in H1 as (o1 & H1 & ->).
  apply written_by_finished in H2 as (o2 & H2 & ->).
  apply written_by_finished in H3 as (o3 & H3 & ->).
  apply written_by_finished in H4 as (o4 & H4 & ->).
  exists o1, m1, o2, m2, o3, m3, o4, m4, images. repeat split; assumption.
Qed.

Lemma image_summaries_finished (settings : Settings)
  (train_dataset : nat -> list CrowdExample) (images : list summary) :
  images_of settings train_dataset = (images, Finished tt) ->
  filter is_image images = images /\
  map summary_key images
  = [("GAN", "Real"); ("DNN", "Real"); ("GAN", "Validation"); ("GAN", "Fake/Standard");
     ("GAN", "Fake/Offset")]%string.
Proof.
  unfold images_of, image_summaries. intros H.
  apply then_summaries_finished in H as (s1 & [examples densities] & r1 & H1 & H & ->).
  destruct (D examples) as [predicted_densities counts].
  apply then_summaries_finished in H as (s2 & real & r2 & H2 & H & ->).
  apply then_summaries_finished in H as (s3 & [] & r3 & [= <-] & H & ->).
  destruct (DNN examples) as [dnn_predicted_densities dnn_counts].
  apply then_summaries_finished in H as (s4 & dnn_real & r4 & H4 & H & ->).
  apply then_summaries_finished in H as (s5 & [] & r5 & [= <-] & H & ->).
  apply then_summaries_finished in H as (s6 & [examples' densities'] & r6 & H6 & H & ->).
  destruct (D examples') as [predicted_densities' counts'].
  apply then_summaries_finished in H as (s7 & validation & r7 & H7 & H & ->).
  apply then_summaries_finished in H as (s8 & [] & r8 & [= <-] & H & ->).
  apply then_summaries_finished in H as (s9 & [] & r9 & [= <-] & [= <-] & ->).
  assert (E1 : s1 = []).
  { unfold first_batch in H1. destruct (DataLoader _ _) as [[|b l]|e]; now inversion H1. }
  assert (E6 : s6 = []).
  { unfold first_batch in H6. destruct (DataLoader _ _) as [[|b l]|e]; now inversion H6. }
  assert (E2 : s2 = []) by (unfold returned in H2; now inversion H2).
  assert (E4 : s4 = []) by (unfold returned in H4; now inversion H4).
  assert (E7 : s7 = []) by (unfold returned in H7; now inversion H7).
  subst. split; reflexivity.
Qed.

End ValidationSummariesProperties.

Lemma filter_written_examples (writer : string) (events : list event) :
  filter shows_examples (map (written writer) events) = [].
Proof. induction events; [reflexivity | exact IHevents]. Qed.

Lemma first_batch_silent (dataset : list CrowdExample) (batch_size : Z)
  (out : list summary) (batch : list array3 * array3) :
  first_batch dataset batch_size = (out, Finished batch) -> out = [].
Proof.
  unfold first_batch. destruct (DataLoader dataset batch_size) as [[|b l]|e]; now intros [=].
Qed.

Lemma returned_silent {A : Type} (m : result A) (out : list summary) (a : A) :
  returned m = (out, Finished a) -> out = [] /\ m = Ok a.
Proof. unfold returned. destruct m; now intros [= <- <-]. Qed.

(** The images that show examples are built from the passes over the
    training dataset and the two discriminators alone, whatever the
    generator and the draws of the call. *)
Lemma comparison_images_determined (patch_size : Z)
  (imresize : array2 -> Z * Z -> array2) (to_rgba : Q -> Q -> array2 -> array3)
  (make_grid : list array3 -> Z -> array3) (DNN D : Network)
  (G G' : array2 -> list array3) (G_input_size G_input_size' : Z)
  (mean_offset mean_offset' : Q) (randn randn' : Z -> Z -> array2)
  (mixture_rvs mixture_rvs' : Q -> Z -> Z -> array2)
  (to_image_range : list array3 -> list array3) (astype_uint8 : array3 -> array3)
  (settings : Settings) (train_dataset : nat -> list CrowdExample)
  (images images' : list summary) :
  image_summaries patch_size imresize to_rgba make_grid DNN D G G_input_size
    mean_offset randn mixture_rvs to_image_range astype_uint8 settings train_dataset
  = (images, Finished tt) ->
  image_summaries patch_size imresize to_rgba make_grid DNN D G' G_input_size'
    mean_offset' randn' mixture_rvs' to_image_range astype_uint8 settings train_dataset
  = (images', Finished tt) ->
  filter shows_examples images = filter shows_examples images'.
Proof.
  unfold image_summaries. intros H H'.
  apply then_summaries_finished in H as (s1 & [examples densities] & r1 & H1 & H & ->).
  apply then_summaries_finished in H' as (t1 & batch & u1 & H1' & H' & ->).
  rewrite H1 in H1'. injection H1' as <- <-.
  apply first_batch_silent in H1 as ->.
  destruct (D examples) as [predicted_densities counts].
  apply then_summaries_finished in H as (s2 & real & r2 & H2 & H & ->).
  apply then_summaries_finished in H' as (t2 & real' & u2 & H2' & H' & ->).
  rewrite H2 in H2'. injection H2' as <- <-. apply returned_silent in H2 as [-> _].
  apply then_summaries_finished in H as (s3 & [] & r3 & [= <-] & H & ->).
  apply then_summaries_finished in H' as (t3 & [] & u3 & [= <-] & H' & ->).
  destruct (DNN examples) as [dnn_predicted_densities dnn_counts].
  apply then_summaries_finished in H as (s4 & dnn_real & r4 & H4 & H & ->).
  apply then_summaries_finished in H' as (t4 & dnn_real' & u4 & H4' & H' & ->).
  rewrite H4 in H4'. injection H4' as <- <-. apply returned_silent in H4 as [-> _].
  apply then_summaries_finished in H as (s5 & [] & r5 & [= <-] & H & ->).
  apply then_summaries_finished in H' as (t5 & [] & u5 & [= <-] & H' & ->).
  apply then_summaries_finished in H as (s6 & [examples' densities'] & r6 & H6 & H & ->).
  apply then_summaries_finished in H' as (t6 & batch' & u6 & H6' & H' & ->).
  rewrite H6 in H6'. injection H6' as <- <-.
  apply first_batch_silent in H6 as ->.
  destruct (D examples') as [predicted_densities' counts'].
  apply then_summaries_finished in H as (s7 & validation & r7 & H7 & H & ->).
  apply then_summaries_finished in H' as (t7 & validation' & u7 & H7' & H' & ->).
  rewrite H7 in H7'. injection H7' as <- <-. apply returned_silent in H7 as [-> _].
  apply then_summaries_finished in H as (s8 & [] & r8 & [= <-] & H & ->).
  apply then_summaries_finished in H' as (t8 & [] & u8 & [= <-] & H' & ->).
  apply then_summaries_finished in H as (s9 & [] & r9 & [= <-] & [= <-] & ->).
  apply then_summaries_finished in H' as (t9 & [] & u9 & [= <-] & [= <-] & ->).
  reflexivity.
Qed.

(** X16: the images of [validation_summaries] that show examples, 'Real' and
    'Validation', never show the validation dataset: two calls that return,
    on the same passes over the training dataset, write the same images
    under these names, whatever their validation datasets, their steps,
    their generators and their random draws. The image named 'Validation'
    is built from a batch of the training dataset. *)
Theorem validation_images_ignore_validation_dataset (patch_size : Z)
  (imresize : array2 -> Z * Z -> array2) (to_rgba : Q -> Q -> array2 -> array3)
  (make_grid : list array3 -> Z -> array3) (DNN D : Network)
  (G G' : array2 -> list array3) (G_input_size G_input_size' : Z)
  (mean_offset mean_offset' : Q) (randn randn' : Z -> Z -> array2)
  (mixture_rvs mixture_rvs' : Q -> Z -> Z -> array2)
  (to_image_range : list array3 -> list array3) (astype_uint8 : array3 -> array3)
  (settings : Settings)
  (train_dataset validation_dataset validation_dataset' : nat -> list CrowdExample)
  (step step' : Z) (out out' : list summary) :
  validation_summaries patch_size imresize to_rgba make_grid DNN D G G_input_size
    mean_offset randn mixture_rvs to_image_range astype_uint8
    settings train_dataset validation_dataset step = (out, Finished tt) ->
  validation_summaries patch_size imresize to_rgba make_grid DNN D G' G_input_size'
    mean_offset' randn' mixture_rvs' to_image_range astype_uint8
    settings train_dataset validation_dataset' step' = (out', Finished tt) ->
  filter shows_examples out = filter shows_examples out'.
Proof.
  intros H H'.
  apply validation_summaries_finished in H
    as (o1 & m1 & o2 & m2 & o3 & m3 & o4 & m4 & images & _ & _ & _ & _ & Hi & ->).
  apply validation_summaries_finished in H'
    as (p1 & n1 & p2 & n2 & p3 & n3 & p4 & n4 & images' & _ & _ & _ & _ & Hi' & ->).
  rewrite !filter_app, !filter_written_examples. cbn [app].
  eapply comparison_images_determined; [exact Hi | exact Hi'].
Qed.

Lemma validation_images_ignore_validation_dataset_witness :
  filter shows_examples
    (fst (validation_summaries 2 keep_size gray_rgba channel_stack echo_network
            silent_network noise_image 100 2 no_noise no_mixture same_images same_image
            (sample_settings "age" "ShanghaiTech" 2) (fun _ => sample_dataset)
            (fun _ => sample_dataset) 0))
  = filter shows_examples
      (fst (validation_summaries 2 keep_size gray_rgba channel_stack echo_network
              silent_network noise_image 100 2 unit_noise no_mixture same_images same_image
              (sample_settings "age" "ShanghaiTech" 2) (fun _ => sample_dataset)
              (fun _ => [sample_example unit_density]) 25)).
Proof.
  apply (validation_images_ignore_validation_dataset 2 keep_size gray_rgba channel_stack
           echo_network silent_network noise_image noise_image 100 100 2 2
           no_noise unit_noise no_mixture no_mixture same_images same_image
           (sample_settings "age" "ShanghaiTech" 2) (fun _ => sample_dataset)
           (fun _ => sample_dataset) (fun _ => [sample_example unit_density]) 0 25);
    vm_compute; reflexivity.
Defined.

(** X17: a call of [validation_summaries] that returns has written the same
    twenty-two summaries in the same order, whatever the data: for the DNN
    writer the four statistics of the training and of the validation
    evaluation, for the GAN writer the same eight and the ratio of the
    validation count MAEs, and then the images 'Real' (GAN, DNN),
    'Validation', 'Fake/Standard' and 'Fake/Offset' (GAN). *)
Theorem validation_summaries_names (patch_size : Z)
  (imresize : array2 -> Z * Z -> array2) (to_rgba : Q -> Q -> array2 -> array3)
  (make_grid : list array3 -> Z -> array3) (DNN D : Network)
  (G : array2 -> list array3) (G_input_size : Z) (mean_offset : Q)
  (randn : Z -> Z -> array2) (mixture_rvs : Q -> Z -> Z -> array2)
  (to_image_range : list array3 -> list array3) (astype_uint8 : array3 -> array3)
  (settings : Settings)
  (train_dataset validation_dataset : nat -> list CrowdExample)
  (step : Z) (out : list summary) :
  validation_summaries patch_size imresize to_rgba make_grid DNN D G G_input_size
    mean_offset randn mixture_rvs to_image_range astype_uint8
    settings train_dataset validation_dataset step = (out, Finished tt) ->
  map summary_key out
  = [("DNN", "2 Train Error/MAE"); ("DNN", "2 Train Error/Density MAE");
     ("DNN", "2 Train Error/MSE"); ("DNN", "2 Train Error/Density MSE");
     ("DNN", "1 Validation Error/MAE"); ("DNN", "1 Validation Error/Density MAE");
     ("DNN", "1 Validation Error/MSE"); ("DNN", "1 Validation Error/Density MSE");
     ("GAN", "2 Train Error/MAE"); ("GAN", "2 Train Error/Density MAE");
     ("GAN", "2 Train Error/MSE"); ("GAN", "2 Train Error/Density MSE");
     ("GAN", "1 Validation Error/MAE"); ("GAN", "1 Validation Error/Density MAE");
     ("GAN", "1 Validation Error/MSE"); ("GAN", "1 Validation Error/Density MSE");
     ("GAN", "1 Validation Error/Ratio MAE GAN DNN");
     ("GAN", "Real"); ("DNN", "Real"); ("GAN", "Validation"); ("GAN", "Fake/Standard");
     ("GAN", "Fake/Offset")]%string.
Proof.
  intros H.
  apply validation_summaries_finished in H
    as (o1 & m1 & o2 & m2 & o3 & m3 & o4 & m4 & images & H1 & H2 & H3 & H4 & Hi & ->).
  apply evaluation_epoch_scalars in H1 as (? & ? & ? & ->).
  apply evaluation_epoch_scalars in H2 as (? & ? & ? & ->).
  apply evaluation_epoch_scalars in H3 as (? & ? & ? & ->).
  apply evaluation_epoch_scalars in H4 as (? & ? & ? & ->).
  apply image_summaries_finished in Hi as [_ Hi].
  rewrite !map_app, Hi. reflexivity.
Qed.

Lemma validation_summaries_names_witness :
  map summary_key
    (fst (validation_summaries 2 keep_size gray_rgba channel_stack echo_network
            silent_network no_images 100 2 no_noise no_mixture same_images same_image
            (sample_settings "age" "ShanghaiTech" 2) (fun _ => sample_dataset)
            (fun _ => sample_dataset) 0))
  = [("DNN", "2 Train Error/MAE"); ("DNN", "2 Train Error/Density MAE");
     ("DNN", "2 Train Error/MSE"); ("DNN", "2 Train Error/Density MSE");
     ("DNN", "1 Validation Error/MAE"); ("DNN", "1 Validation Error/Density MAE");
     ("DNN", "1 Validation Error/MSE"); ("DNN", "1 Validation Error/Density MSE");
     ("GAN", "2 Train Error/MAE"); ("GAN", "2 Train Error/Density MAE");
     ("GAN", "2 Train Error/MSE"); ("GAN", "2 Train Error/Density MSE");
     ("GAN", "1 Validation Error/MAE"); ("GAN", "1 Validation Error/Density MAE");
     ("GAN", "1 Validation Error/MSE"); ("GAN", "1 Validation Error/Density MSE");
     ("GAN", "1 Validation Error/Ratio MAE GAN DNN");
     ("GAN", "Real"); ("DNN", "Real"); ("GAN", "Validation"); ("GAN", "Fake/Standard");
     ("GAN", "Fake/Offset")]%string.
Proof.
  apply (validation_summaries_names 2 keep_size gray_rgba channel_stack echo_network
           silent_network no_images 100 2 no_noise no_mixture same_images same_image
           (sample_settings "age" "ShanghaiTech" 2) (fun _ => sample_dataset)
           (fun _ => sample_dataset) 0).
  vm_compute. reflexivity.
Defined.
